(** * VML markup engine: parser, validator and formatter

    A shallow embedding of [VMLSyntax], [VMLParser] and
    [VMLLanguageHandler] from
    [projects/bidirectional-converter/vml_standalone.py], and the
    properties of them that the specification states.

    Conventions of the embedding.
    - A Python [str] is a [string]; its characters are the code points
      0..255, classified as CPython classifies them ([\s], [\w],
      [str.strip]).
    - A [dict] is an association list in insertion order; assigning to a
      key that is present keeps the key's position.
    - A Python regular expression is a term of [regex], run by a
      backtracking matcher with the priorities of the [re] module
      (greedy and lazy repetition, optional groups, captures).
    - The parser instance is passed explicitly: [self.metadata] is the
      state threaded through [parse]; a fresh [VMLParser()] starts from
      the empty mapping.
    - The only exception [parse] can raise is the interpreter's
      [RecursionError] in the recursive parse of a section body; the
      number of nested [parse] calls the interpreter still allows is the
      [depth] argument. *)

From Stdlib Require Import List String Ascii Bool Arith Lia.
From Stdlib Require Import Decimal DecimalString.
From Stdlib Require Import Sorted.
Import ListNotations.
Open Scope string_scope.
Open Scope list_scope.
Open Scope nat_scope.

Set Implicit Arguments.

(* ================================================================= *)
(** ** Characters *)

Module PyChar.

Definition code (c : ascii) : nat := nat_of_ascii c.

Definition between (lo hi : nat) (c : ascii) : bool :=
  (lo <=? code c) && (code c <=? hi).

Definition newline : ascii := "010"%char.
Definition dquote : ascii := "034"%char.
Definition squote : ascii := "039"%char.

(** [Py_UNICODE_ISSPACE]: what [\s] matches and [str.strip()] removes. *)
Definition is_space (c : ascii) : bool :=
  between 9 13 c || between 28 32 c
  || (code c =? 133) || (code c =? 160).

(** [Py_UNICODE_ISALNUM] or underscore: what [\w] matches. *)
Definition is_word (c : ascii) : bool :=
  between 48 57 c || between 65 90 c || between 97 122 c
  || (code c =? 95)
  || (code c =? 170) || (code c =? 178) || (code c =? 179)
  || (code c =? 181) || (code c =? 185) || (code c =? 186)
  || between 188 190 c
  || between 192 214 c || between 216 246 c || between 248 255 c.

(** [.] without [re.DOTALL]. *)
Definition is_dot (c : ascii) : bool := negb (Ascii.eqb c newline).

(** A negated one-character set such as [[^}]]. *)
Definition other_than (a : ascii) (c : ascii) : bool :=
  negb (Ascii.eqb a c).

End PyChar.

(* ================================================================= *)
(** ** String methods *)

Module PyStr.

Definition len (s : string) : nat := String.length s.

Fixpoint rev_onto (s acc : string) : string :=
  match s with
  | EmptyString => acc
  | String c s' => rev_onto s' (String c acc)
  end.

Definition rev (s : string) : string := rev_onto s EmptyString.

Fixpoint lstrip_by (p : ascii -> bool) (s : string) : string :=
  match s with
  | EmptyString => EmptyString
  | String c s' => if p c then lstrip_by p s' else s
  end.

Definition rstrip_by (p : ascii -> bool) (s : string) : string :=
  rev (lstrip_by p (rev s)).

Definition strip_by (p : ascii -> bool) (s : string) : string :=
  rstrip_by p (lstrip_by p s).

(** [s.strip()] *)
Definition strip (s : string) : string := strip_by PyChar.is_space s.

Fixpoint mem (c : ascii) (chars : string) : bool :=
  match chars with
  | EmptyString => false
  | String d chars' => Ascii.eqb c d || mem c chars'
  end.

(** [s.strip(chars)] *)
Definition strip_chars (chars : string) (s : string) : string :=
  strip_by (fun c => mem c chars) s.

(** [c in s] for a one-character [c] *)
Definition contains (c : ascii) (s : string) : bool := mem c s.

(** [s.split(sep)] for a one-character [sep]: never the empty list. *)
Fixpoint split (sep : ascii) (s : string) : list string :=
  match s with
  | EmptyString => [EmptyString]
  | String c s' =>
      if Ascii.eqb c sep then EmptyString :: split sep s'
      else match split sep s' with
           | [] => [String c EmptyString]
           | w :: ws => String c w :: ws
           end
  end.

(** [s.split(sep, 1)] for a one-character [sep] that occurs in [s]:
    the text before the first [sep] and the text after it. *)
Fixpoint split_once (sep : ascii) (s : string) : string * string :=
  match s with
  | EmptyString => (EmptyString, EmptyString)
  | String c s' =>
      if Ascii.eqb c sep then (EmptyString, s')
      else let (k, v) := split_once sep s' in (String c k, v)
  end.

(** [sep.join(parts)] *)
Fixpoint join (sep : string) (parts : list string) : string :=
  match parts with
  | [] => EmptyString
  | [p] => p
  | p :: ps => p ++ sep ++ join sep ps
  end.

Fixpoint starts_with (pre s : string) : bool :=
  match pre, s with
  | EmptyString, _ => true
  | String a pre', String b s' => Ascii.eqb a b && starts_with pre' s'
  | String _ _, EmptyString => false
  end.

Definition ends_with (suf s : string) : bool :=
  starts_with (rev suf) (rev s).

(** [s.count(sub)] for a non-empty [sub]: occurrences found left to
    right without overlap.  [skip] characters of the occurrence found
    last are still to be passed. *)
Fixpoint count_from (sub s : string) (skip : nat) : nat :=
  match s with
  | EmptyString => 0
  | String _ s' =>
      match skip with
      | S k => count_from sub s' k
      | O => if starts_with sub s
             then S (count_from sub s' (len sub - 1))
             else count_from sub s' 0
      end
  end.

Definition count (sub s : string) : nat := count_from sub s 0.

(** [str(n)] for a non-negative integer *)
Definition of_nat (n : nat) : string :=
  NilEmpty.string_of_uint (Nat.to_uint n).

(** The first [n] characters. *)
Fixpoint take (n : nat) (s : string) : string :=
  match n, s with
  | S n', String c s' => String c (take n' s')
  | _, _ => EmptyString
  end.

(** [s] does not contain the character [c]. *)
Definition no_char (c : ascii) (s : string) : Prop := mem c s = false.

(** Every character of [s] satisfies [p]. *)
Fixpoint all_chars (p : ascii -> bool) (s : string) : bool :=
  match s with
  | EmptyString => true
  | String c s' => p c && all_chars p s'
  end.

(** The length of the longest prefix of [s] inside a class. *)
Fixpoint run_length (p : ascii -> bool) (s : string) : nat :=
  match s with
  | String c s' => if p c then S (run_length p s') else 0
  | EmptyString => 0
  end.

End PyStr.

(* ================================================================= *)
(** ** Dictionaries *)

Module PyDict.

Section Dict.
Variable V : Type.

Definition t := list (string * V).

Definition empty : t := [].

Fixpoint get (k : string) (d : t) : option V :=
  match d with
  | [] => None
  | (k', v) :: d' => if String.eqb k k' then Some v else get k d'
  end.

(** [d[k] = v] *)
Fixpoint set (k : string) (v : V) (d : t) : t :=
  match d with
  | [] => [(k, v)]
  | (k', v') :: d' =>
      if String.eqb k k' then (k', v) :: d' else (k', v') :: set k v d'
  end.

Definition is_empty (d : t) : bool :=
  match d with [] => true | _ => false end.

End Dict.

End PyDict.

(* ================================================================= *)
(** ** Regular expressions *)

Module Re.

(** The fragment of [re] syntax the rule set uses.  Repetition is
    only ever applied to a single character class; [^] is left out
    because every anchored pattern is run with [re.match], which
    tries the start of the string only. *)
Inductive regex : Type :=
| Eps
| Lit (c : ascii)
| Cls (p : ascii -> bool)
| Rep (greedy : bool) (lo : nat) (hi : option nat) (p : ascii -> bool)
| Opt (r : regex)
| Grp (n : nat) (r : regex)
| Cat (r1 r2 : regex)
| Eos.

Fixpoint lits (s : string) : regex :=
  match s with
  | EmptyString => Eps
  | String c s' => Cat (Lit c) (lits s')
  end.

Definition star (p : ascii -> bool) : regex := Rep true 0 None p.
Definition plus (p : ascii -> bool) : regex := Rep true 1 None p.
Definition plus_lazy (p : ascii -> bool) : regex := Rep false 1 None p.

Fixpoint seq (rs : list regex) : regex :=
  match rs with
  | [] => Eps
  | [r] => r
  | r :: rs' => Cat r (seq rs')
  end.

Definition groups := list (nat * string).

Fixpoint group (n : nat) (g : groups) : option string :=
  match g with
  | [] => None
  | (m, s) :: g' => if Nat.eqb n m then Some s else group n g'
  end.

(** [m.group(n) or ""] *)
Definition group_or_empty (n : nat) (g : groups) : string :=
  match group n g with Some s => s | None => EmptyString end.

Definition may_take (hi : option nat) : bool :=
  match hi with Some O => false | _ => true end.

Definition less (hi : option nat) : option nat :=
  match hi with Some n => Some (Nat.pred n) | None => None end.

(** [n] is no more than the upper bound of a repetition. *)
Definition within (hi : option nat) (n : nat) : Prop :=
  match hi with Some h => n <= h | None => True end.

Definition or_else {R : Type} (a : option R) (b : option R) : option R :=
  match a with Some x => Some x | None => b end.

Section Matcher.
Variable R : Type.

(** [p{lo,hi}] (greedy) or [p{lo,hi}?] (lazy) at the head of [s],
    then the continuation [k] on what is left. *)
Fixpoint rep (greedy : bool) (p : ascii -> bool)
         (lo : nat) (hi : option nat)
         (s : string) (k : string -> option R) : option R :=
  let stop := if Nat.eqb lo 0 then k s else None in
  match s with
  | EmptyString => stop
  | String c s' =>
      if p c && may_take hi then
        let more := rep greedy p (Nat.pred lo) (less hi) s' k in
        if greedy then or_else more stop
        else or_else stop more
      else stop
  end.

(** $ without [re.MULTILINE]: the end of the string, or just before
    a newline that ends it. *)
Definition at_end (s : string) : bool :=
  match s with
  | EmptyString => true
  | String c EmptyString => Ascii.eqb c PyChar.newline
  | _ => false
  end.

Fixpoint run (r : regex) (s : string) (g : groups)
         (k : string -> groups -> option R) : option R :=
  match r with
  | Eps => k s g
  | Lit c =>
      match s with
      | String c' s' => if Ascii.eqb c c' then k s' g else None
      | EmptyString => None
      end
  | Cls p =>
      match s with
      | String c' s' => if p c' then k s' g else None
      | EmptyString => None
      end
  | Rep greedy lo hi p => rep greedy p lo hi s (fun s' => k s' g)
  | Opt r' => or_else (run r' s g k) (k s g)
  | Grp n r' =>
      run r' s g
          (fun s' g' =>
             k s' ((n, PyStr.take (PyStr.len s - PyStr.len s') s) :: g'))
  | Cat r1 r2 => run r1 s g (fun s' g' => run r2 s' g' k)
  | Eos => if at_end s then k s g else None
  end.

End Matcher.

(** [re.match(r, s)]: the captures (group 0 is the whole match) and
    the text after the match. *)
Definition re_match (r : regex) (s : string) : option (groups * string) :=
  run (Grp 0 r) s [] (fun s' g => Some (g, s')).

Definition matches (r : regex) (s : string) : bool :=
  match re_match r s with Some _ => true | None => false end.

(** [re.sub(r, repl, s)] for a pattern that matches no empty string:
    at each position where no earlier match is still being passed,
    the match starting there (if any) is replaced. *)
Fixpoint sub_from (r : regex) (repl : groups -> string)
         (s : string) (skip : nat) : string :=
  match s with
  | EmptyString => EmptyString
  | String c s' =>
      match skip with
      | S n => sub_from r repl s' n
      | O =>
          match re_match r s with
          | Some (g, rest) =>
              match PyStr.len s - PyStr.len rest with
              | S n => repl g ++ sub_from r repl s' n
              | O => String c (sub_from r repl s' 0)
              end
          | None => String c (sub_from r repl s' 0)
          end
      end
  end.

Definition re_sub (r : regex) (repl : groups -> string) (s : string)
  : string := sub_from r repl s 0.

End Re.

(* ================================================================= *)
(** ** The syntax rule set: [class VMLSyntax] *)

Module VMLSyntax.
Import Re.

Definition hash : ascii := "#"%char.
Definition only (a : ascii) (c : ascii) : bool := Ascii.eqb a c.

(** [r'^(#{1,6})\s+(.+)$'] *)
Definition HEADING_PATTERN : regex :=
  seq [Grp 1 (Rep true 1 (Some 6) (only hash));
       plus PyChar.is_space;
       Grp 2 (plus PyChar.is_dot);
       Eos].

(** [r'\*\*(.+?)\*\*'] *)
Definition BOLD_PATTERN : regex :=
  seq [lits "**"; Grp 1 (plus_lazy PyChar.is_dot); lits "**"].

(** [r'\*(.+?)\*'] *)
Definition ITALIC_PATTERN : regex :=
  seq [lits "*"; Grp 1 (plus_lazy PyChar.is_dot); lits "*"].

(** [r'`(.+?)`'] *)
Definition CODE_INLINE_PATTERN : regex :=
  seq [lits "`"; Grp 1 (plus_lazy PyChar.is_dot); lits "`"].

(** The optional bracketed parameter string, [(?: \[ ([^\]]* ) \] )?]
    (here and below a pattern that would close the comment is written
    with blanks between its tokens; the blanks are not part of it). *)
Definition bracket_params (n : nat) : regex :=
  Opt (seq [lits "["; Grp n (star (PyChar.other_than "]")); lits "]"]).

(** [r'^@(\w+) (?: \[ ([^\]]* ) \] )? \s* (.* ) $'] *)
Definition DIRECTIVE_PATTERN : regex :=
  seq [lits "@"; Grp 1 (plus PyChar.is_word); bracket_params 2;
       star PyChar.is_space; Grp 3 (star PyChar.is_dot); Eos].

(** [r'\$\{([^}]+)\}'] *)
Definition VARIABLE_PATTERN : regex :=
  seq [lits "${"; Grp 1 (plus (PyChar.other_than "}")); lits "}"].

(** [r'%\{([^}]+)\}'] *)
Definition TEMPLATE_PATTERN : regex :=
  seq [lits "%{"; Grp 1 (plus (PyChar.other_than "}")); lits "}"].

(** [r'\[\[([^\]]+)\]\]'] *)
Definition ANNOTATION_PATTERN : regex :=
  seq [lits "[["; Grp 1 (plus (PyChar.other_than "]")); lits "]]"].

(** [r'^---\s*$'] *)
Definition METADATA_PATTERN : regex :=
  seq [lits "---"; star PyChar.is_space; Eos].

(** [r'^::\s*(\w+) (?: \[ ([^\]]* ) \] )? \s*$'] *)
Definition SECTION_START_PATTERN : regex :=
  seq [lits "::"; star PyChar.is_space; Grp 1 (plus PyChar.is_word);
       bracket_params 2; star PyChar.is_space; Eos].

(** [r'^::\s*/(\w+)\s*$'] *)
Definition SECTION_END_PATTERN : regex :=
  seq [lits "::"; star PyChar.is_space; lits "/";
       Grp 1 (plus PyChar.is_word); star PyChar.is_space; Eos].

(** The class [[\s\-:|]] *)
Definition separator_char (c : ascii) : bool :=
  PyChar.is_space c || only "-" c || only ":" c || only "|" c.

(** [r'^\|[\s\-:|]+\|$'] *)
Definition TABLE_SEPARATOR : regex :=
  seq [lits "|"; plus separator_char; lits "|"; Eos].

(** [r'^\|(.+)\|$'] *)
Definition TABLE_ROW : regex :=
  seq [lits "|"; Grp 1 (plus PyChar.is_dot); lits "|"; Eos].

(** The custom markup delimiters, in the order the dictionary lists
    them: markup type, opening string, closing string. *)
Definition CUSTOM_MARKUP : list (string * (string * string)) :=
  [("emphasis", ("!!", "!!"));
   ("context", ("<~", "~>"));
   ("note", (String "(" "*", String "*" ")"));
   ("warning", ("/!", "!/"));
   ("success", ("/+", "+/"));
   ("code_ref", ("@[", "]@"))].

End VMLSyntax.

(* ================================================================= *)
(** ** The document model *)

Inductive VMLElementType : Type :=
| HEADING | PARAGRAPH | LIST | CODE_BLOCK | QUOTE | LINK | IMAGE | TABLE
| METADATA | DIRECTIVE | VARIABLE | TEMPLATE | ANNOTATION | SECTION
| EMPHASIS | CUSTOM.

Unset Elimination Schemes.

(** The values an attribute mapping holds. *)
Inductive PyVal : Type :=
| PStr (s : string)
| PBool (b : bool)
| PInt (n : nat)
| PList (l : list PyVal)
| PDict (d : list (string * PyVal)).

Definition attrs := PyDict.t PyVal.
Definition metadata := PyDict.t string.

(** [@dataclass class VMLElement]; [children] defaults to [None]. *)
Inductive VMLElement : Type :=
| Element (type : VMLElementType) (content : string) (attributes : attrs)
          (children : option (list VMLElement)) (line_number : nat).

Set Elimination Schemes.

Definition el_type (e : VMLElement) : VMLElementType :=
  match e with Element t _ _ _ _ => t end.
Definition el_content (e : VMLElement) : string :=
  match e with Element _ c _ _ _ => c end.
Definition el_attributes (e : VMLElement) : attrs :=
  match e with Element _ _ a _ _ => a end.
Definition el_children (e : VMLElement) : option (list VMLElement) :=
  match e with Element _ _ _ ch _ => ch end.
Definition el_line_number (e : VMLElement) : nat :=
  match e with Element _ _ _ _ n => n end.

(** A call either returns or raises an exception with a message. *)
Inductive outcome (A : Type) : Type :=
| Returned (a : A)
| Raised (msg : string).
Arguments Raised {A} msg.

Definition recursion_error : string := "maximum recursion depth exceeded".
Definition none_has_no_group : string :=
  "'NoneType' object has no attribute 'group'".

(* ================================================================= *)
(** ** The parser: [class VMLParser] *)

Module VMLParser.
Import VMLSyntax.

(** [content.split('\n')] *)
Definition split_lines (content : string) : list string :=
  PyStr.split PyChar.newline content.

(** ['\n'.join(lines)] *)
Definition join_lines (lines : list string) : string :=
  PyStr.join (String PyChar.newline EmptyString) lines.

(** [lines[i]], for an index in range *)
Definition line_at (lines : list string) (i : nat) : string :=
  nth i lines EmptyString.

(** [not line.strip()] *)
Definition is_blank (line : string) : bool :=
  String.eqb (PyStr.strip line) EmptyString.

Definition quote_chars : string :=
  String PyChar.dquote (String PyChar.squote EmptyString).

(** One iteration of the loop of [_parse_attributes]. *)
Definition add_attribute (attributes : attrs) (pair : string) : attrs :=
  if PyStr.contains "=" pair then
    let (key, value) := PyStr.split_once "=" pair in
    PyDict.set (PyStr.strip key)
               (PStr (PyStr.strip_chars quote_chars (PyStr.strip value)))
               attributes
  else
    PyDict.set (PyStr.strip pair) (PBool true) attributes.

Definition _parse_attributes (attr_string : string) : attrs :=
  if String.eqb attr_string EmptyString then PyDict.empty PyVal
  else fold_left add_attribute (PyStr.split "," attr_string)
                 (PyDict.empty PyVal).

(** One iteration of the loop of [_process_metadata]. *)
Definition add_metadata (md : metadata) (line : string) : metadata :=
  if PyStr.contains ":" line then
    let (key, value) := PyStr.split_once ":" line in
    PyDict.set (PyStr.strip key) (PyStr.strip value) md
  else md.

Definition _process_metadata (lines : list string) (md : metadata)
  : metadata := fold_left add_metadata lines md.

(** The replacement [<tag>\1</tag>]. *)
Definition tagged (tag : string) (g : Re.groups) : string :=
  "<" ++ tag ++ ">" ++ Re.group_or_empty 1 g ++ "</" ++ tag ++ ">".

(** [re.escape(start)(.+?)re.escape(end)] *)
Definition markup_pattern (start stop : string) : Re.regex :=
  Re.seq [Re.lits start; Re.Grp 1 (Re.plus_lazy PyChar.is_dot);
          Re.lits stop].

(** One iteration of the loop over [CUSTOM_MARKUP.items()]. *)
Definition apply_markup (text : string) (item : string * (string * string))
  : string :=
  let '(markup_type, (start, stop)) := item in
  Re.re_sub (markup_pattern start stop) (tagged markup_type) text.

Definition _process_inline_elements (text : string) : string :=
  let text := Re.re_sub VARIABLE_PATTERN (tagged "var") text in
  let text := Re.re_sub TEMPLATE_PATTERN (tagged "template") text in
  let text := Re.re_sub ANNOTATION_PATTERN (tagged "annotation") text in
  let text := fold_left apply_markup CUSTOM_MARKUP text in
  let text := Re.re_sub BOLD_PATTERN (tagged "b") text in
  let text := Re.re_sub ITALIC_PATTERN (tagged "i") text in
  let text := Re.re_sub CODE_INLINE_PATTERN (tagged "code") text in
  text.

Definition _parse_table_row (line : string) : list string :=
  let line := PyStr.strip_chars "|" line in
  map PyStr.strip (PyStr.split "|" line).

Definition cell_alignment (cell : string) : string :=
  if PyStr.starts_with ":" cell && PyStr.ends_with ":" cell then "center"
  else if PyStr.ends_with ":" cell then "right"
  else "left".

Definition _parse_table_alignment (line : string) : list string :=
  map cell_alignment (_parse_table_row line).

(** The loop of [_parse_metadata_block] from index [i], [rest] being
    [lines[i:]]: the collected lines if a closing delimiter is found,
    and the index the caller resumes at. *)
Fixpoint metadata_scan (rest : list string) (i : nat)
         (metadata_lines : list string) : option (list string) * nat :=
  match rest with
  | [] => (None, i)
  | line :: rest' =>
      if Re.matches METADATA_PATTERN line then (Some metadata_lines, i + 1)
      else metadata_scan rest' (i + 1) (metadata_lines ++ [line])
  end.

Definition _parse_metadata_block (lines : list string) (start_idx : nat)
           (md : metadata) : nat * metadata :=
  match metadata_scan (skipn start_idx lines) start_idx [] with
  | (Some metadata_lines, i) => (i, _process_metadata metadata_lines md)
  | (None, i) => (i, md)
  end.

Definition _parse_directive (g : Re.groups) (line_num : nat) : VMLElement :=
  let directive_name := Re.group_or_empty 1 g in
  let params := Re.group_or_empty 2 g in
  let content := Re.group_or_empty 3 g in
  let attributes := _parse_attributes params in
  Element DIRECTIVE content
          [("directive", PStr directive_name); ("params", PDict attributes)]
          None line_num.

(** The scanning loop of [_parse_section] from index [i], [rest] being
    [lines[i:]]: the content lines and the index the loop stops at. *)
Fixpoint section_scan (section_name : string) (rest : list string)
         (i nesting_level : nat) (content_lines : list string)
  : list string * nat :=
  match rest with
  | [] => (content_lines, i)
  | line :: rest' =>
      if nesting_level =? 0 then (content_lines, i)
      else if Re.matches SECTION_START_PATTERN line then
        section_scan section_name rest' (i + 1) (nesting_level + 1)
                     (content_lines ++ [line])
      else
        match Re.re_match SECTION_END_PATTERN line with
        | Some (end_match, _) =>
            if String.eqb (Re.group_or_empty 1 end_match) section_name then
              if nesting_level - 1 =? 0 then (content_lines, i)
              else section_scan section_name rest' (i + 1)
                                (nesting_level - 1) (content_lines ++ [line])
            else section_scan section_name rest' (i + 1) nesting_level
                              (content_lines ++ [line])
        | None => section_scan section_name rest' (i + 1) nesting_level
                               (content_lines ++ [line])
        end
  end.

Section Body.

(** [VMLParser().parse]: the parse of a section body by a parser of its
    own, whose metadata nobody reads. *)
Variable section_parse : string -> outcome (list VMLElement).

Definition _parse_section (lines : list string) (start_idx : nat)
  : outcome (VMLElement * nat) :=
  match Re.re_match SECTION_START_PATTERN (line_at lines start_idx) with
  | None => Raised none_has_no_group
  | Some (g, _) =>
      let section_name := Re.group_or_empty 1 g in
      let params := Re.group_or_empty 2 g in
      let attributes := _parse_attributes params in
      let attributes := PyDict.set "name" (PStr section_name) attributes in
      let (content_lines, i) :=
        section_scan section_name (skipn (start_idx + 1) lines)
                     (start_idx + 1) 1 [] in
      match section_parse (join_lines content_lines) with
      | Raised msg => Raised msg
      | Returned children =>
          Returned (Element SECTION section_name attributes (Some children)
                            start_idx, i + 1)
      end
  end.

Definition _parse_heading (line : string) (line_num : nat)
  : outcome VMLElement :=
  match Re.re_match HEADING_PATTERN line with
  | None => Raised none_has_no_group
  | Some (g, _) =>
      let level := PyStr.len (Re.group_or_empty 1 g) in
      let content := Re.group_or_empty 2 g in
      let content := _process_inline_elements content in
      Returned (Element HEADING content [("level", PInt level)] None line_num)
  end.

(** The row loop of [_parse_table] from index [i]. *)
Fixpoint table_rows (rest : list string) (i : nat)
         (rows : list (list string)) : list (list string) * nat :=
  match rest with
  | [] => (rows, i)
  | line :: rest' =>
      if Re.matches TABLE_ROW line
      then table_rows rest' (i + 1) (rows ++ [_parse_table_row line])
      else (rows, i)
  end.

Definition _parse_table (lines : list string) (start_idx : nat)
  : VMLElement * nat :=
  let headers := _parse_table_row (line_at lines start_idx) in
  let alignment := _parse_table_alignment (line_at lines (start_idx + 1)) in
  let (rows, i) := table_rows (skipn (start_idx + 2) lines)
                              (start_idx + 2) [] in
  (Element TABLE EmptyString
           [("headers", PList (map PStr headers));
            ("alignment", PList (map PStr alignment));
            ("rows", PList (map (fun row => PList (map PStr row)) rows))]
           None start_idx, i).

Definition _parse_paragraph (line : string) (line_num : nat) : VMLElement :=
  Element PARAGRAPH (_process_inline_elements line) [] None line_num.

(** What one iteration of the loop of [parse] does at index [i]: the
    element it appends (if any) and the index it moves to, or the
    exception it lets through; and [self.metadata] afterwards. *)
Definition parse_step (lines : list string) (i : nat) (md : metadata)
  : outcome (option VMLElement * nat) * metadata :=
  let line := line_at lines i in
  if is_blank line then (Returned (None, i + 1), md)
  else if Re.matches METADATA_PATTERN line then
    let (j, md') := _parse_metadata_block lines (i + 1) md in
    (Returned (None, j), md')
  else
    match Re.re_match DIRECTIVE_PATTERN line with
    | Some (directive_match, _) =>
        (Returned (Some (_parse_directive directive_match i), i + 1), md)
    | None =>
        if Re.matches SECTION_START_PATTERN line then
          match _parse_section lines i with
          | Returned (element, j) => (Returned (Some element, j), md)
          | Raised msg => (Raised msg, md)
          end
        else if Re.matches HEADING_PATTERN line then
          match _parse_heading line i with
          | Returned element => (Returned (Some element, i + 1), md)
          | Raised msg => (Raised msg, md)
          end
        else if (i + 1 <? List.length lines)
                && Re.matches TABLE_SEPARATOR (line_at lines (i + 1)) then
          let (element, j) := _parse_table lines i in
          (Returned (Some element, j), md)
        else
          (Returned (Some (_parse_paragraph line i), i + 1), md)
    end.

(** [self.elements.append(element)] when there is one. *)
Definition append_element (elements : list VMLElement)
           (element : option VMLElement) : list VMLElement :=
  match element with
  | Some e => elements ++ [e]
  | None => elements
  end.

(** The loop [while i < len(lines)] of [parse].  Every iteration moves
    [i] forward, so [len(lines)] iterations are enough ([gas] counts
    the iterations left; see [parse_loop_gas]). *)
Fixpoint parse_loop (gas : nat) (lines : list string) (i : nat)
         (elements : list VMLElement) (md : metadata)
  : outcome (list VMLElement) * metadata :=
  if List.length lines <=? i then (Returned elements, md)
  else
    match gas with
    | O => (Returned elements, md)
    | S gas' =>
        match parse_step lines i md with
        | (Returned (element, j), md') =>
            parse_loop gas' lines j (append_element elements element) md'
        | (Raised msg, md') => (Raised msg, md')
        end
    end.

End Body.

(** [VMLParser.__init__]: the metadata of a new parser. *)
Definition init : metadata := PyDict.empty string.

(** [self.parse(content)] on a parser whose metadata is [md], when the
    interpreter allows [depth] more nested calls of [parse]: the list
    returned (or the exception) and [self.metadata] afterwards. *)
Fixpoint parse (depth : nat) (content : string) (md : metadata)
  : outcome (list VMLElement) * metadata :=
  match depth with
  | O => (Raised recursion_error, md)
  | S depth' =>
      let lines := split_lines content in
      parse_loop (fun body => fst (parse depth' body init))
                 (List.length lines) lines 0 [] md
  end.

End VMLParser.

(* ================================================================= *)
(** ** Validator and formatter: [class VMLLanguageHandler] *)

Module VMLLanguageHandler.
Import VMLSyntax.

(** [r'^::\s*(\w+)'], the pattern of the structural scan *)
Definition SECTION_MARKER : Re.regex :=
  Re.seq [Re.lits "::"; Re.star PyChar.is_space;
          Re.Grp 1 (Re.plus PyChar.is_word)].

Definition line_label (i : nat) : string :=
  ("Line " ++ PyStr.of_nat (i + 1) ++ ": ")%string.

(** [open_sections[-1] != section_name], on a non-empty list *)
Definition top_differs (open_sections : list string) (section_name : string)
  : bool :=
  negb (String.eqb (last open_sections EmptyString) section_name).

(** The section check of one line: the stack of open sections and the
    diagnostics afterwards. *)
Definition check_section (i : nat) (line : string)
           (open_sections errors : list string)
  : list string * list string :=
  match Re.re_match SECTION_MARKER line with
  | Some (m, _) =>
      if PyStr.ends_with "/" (Re.group_or_empty 0 m) then
        let section_name := Re.group_or_empty 1 m in
        if match open_sections with [] => true | _ => false end
           || top_differs open_sections section_name
        then (open_sections,
              errors ++ [(line_label i ++ "Unmatched section closing tag: "
                                       ++ section_name)%string])
        else (removelast open_sections, errors)
      else (open_sections ++ [Re.group_or_empty 1 m], errors)
  | None => (open_sections, errors)
  end.

(** One iteration of the loop over [CUSTOM_MARKUP.items()]. *)
Definition check_markup (i : nat) (line : string) (errors : list string)
           (item : string * (string * string)) : list string :=
  let '(markup_type, (start, stop)) := item in
  if negb (PyStr.count start line =? PyStr.count stop line)
  then errors
         ++ [(line_label i ++ "Unclosed " ++ markup_type ++ " markup")%string]
  else errors.

(** [for i, line in enumerate(lines)], from index [i] on. *)
Fixpoint scan_lines (lines : list string) (i : nat)
         (open_sections errors : list string) : list string * list string :=
  match lines with
  | [] => (open_sections, errors)
  | line :: lines' =>
      let (open_sections, errors) :=
        check_section i line open_sections errors in
      let errors := fold_left (check_markup i line) CUSTOM_MARKUP errors in
      scan_lines lines' (i + 1) open_sections errors
  end.

(** [self.validate_syntax(code)], [md] being the metadata of
    [self.parser]: the pair returned and the metadata afterwards. *)
Definition validate_syntax (depth : nat) (code : string) (md : metadata)
  : (bool * list string) * metadata :=
  match VMLParser.parse depth code md with
  | (Returned _, md') =>
      let lines := VMLParser.split_lines code in
      let (open_sections, errors) := scan_lines lines 0 [] [] in
      let errors :=
        match open_sections with
        | [] => errors
        | _ => errors ++ [("Unclosed sections: "
                             ++ PyStr.join ", " open_sections)%string]
        end in
      ((List.length errors =? 0, errors), md')
  | (Raised msg, md') => ((false, [("Parser error: " ++ msg)%string]), md')
  end.

(** [r'^#{1,6}\s+'], the heading test of the formatter *)
Definition HEADING_START : Re.regex :=
  Re.seq [Re.Rep true 1 (Some 6) (only hash); Re.plus PyChar.is_space].

Definition metadata_header (md : metadata) : list string :=
  if PyDict.is_empty md then []
  else ["---"]
         ++ map (fun kv => (fst kv ++ ": " ++ snd kv)%string) md
         ++ [String.append "---" (String PyChar.newline EmptyString)].

(** One iteration of the loop over the lines of the source text. *)
Definition format_line (formatted_lines : list string) (line : string)
  : list string :=
  if String.eqb (PyStr.strip line) "---" then formatted_lines
  else if Re.matches HEADING_START line
  then formatted_lines ++ [PyStr.strip line; EmptyString]
  else formatted_lines ++ [line].

(** [self.format_code(code)]: the text returned and the metadata of
    [self.parser] afterwards. *)
Definition format_code (depth : nat) (code : string) (md : metadata)
  : string * metadata :=
  match VMLParser.parse depth code md with
  | (Returned _, md') =>
      let formatted_lines := metadata_header md' in
      let formatted_lines :=
        fold_left format_line (VMLParser.split_lines code) formatted_lines in
      (VMLParser.join_lines formatted_lines, md')
  | (Raised _, md') => (code, md')
  end.

End VMLLanguageHandler.

(* ================================================================= *)
(** ** Operations on attribute values *)

Module PyObj.

Definition nl : string := String PyChar.newline EmptyString.
Definition dq : string := String PyChar.dquote EmptyString.

(** Sequencing of calls that may raise. *)
Definition bind {A B : Type} (o : outcome A) (k : A -> outcome B)
  : outcome B :=
  match o with
  | Returned a => k a
  | Raised msg => Raised msg
  end.

Notation "x <- e ;; k" := (bind e (fun x => k))
  (at level 61, e at next level, right associativity).

(** [type(v).__name__] *)
Definition type_name (v : PyVal) : string :=
  match v with
  | PStr _ => "str"
  | PBool _ => "bool"
  | PInt _ => "int"
  | PList _ => "list"
  | PDict _ => "dict"
  end.

(** The characters of a string, as iterating over it gives them. *)
Fixpoint chars (s : string) : list PyVal :=
  match s with
  | EmptyString => []
  | String c s' => PStr (String c EmptyString) :: chars s'
  end.

(** [iter(v)]: the items a [for] loop over [v] sees. *)
Definition iterate (v : PyVal) : outcome (list PyVal) :=
  match v with
  | PList l => Returned l
  | PStr s => Returned (chars s)
  | PDict d => Returned (map (fun kv => PStr (fst kv)) d)
  | _ => Raised ("'" ++ type_name v ++ "' object is not iterable")%string
  end.

(** [len(v)] *)
Definition len (v : PyVal) : outcome nat :=
  match v with
  | PList l => Returned (List.length l)
  | PStr s => Returned (String.length s)
  | PDict d => Returned (List.length d)
  | _ => Raised ("object of type '" ++ type_name v ++ "' has no len()")%string
  end.

(** [v[i]] for an index [i] that is not negative; a mapping has string
    keys only, so it has no key [i]. *)
Definition index (v : PyVal) (i : nat) : outcome PyVal :=
  match v with
  | PList l =>
      match nth_error l i with
      | Some x => Returned x
      | None => Raised "list index out of range"
      end
  | PStr s =>
      match nth_error (chars s) i with
      | Some x => Returned x
      | None => Raised "string index out of range"
      end
  | PDict _ => Raised (PyStr.of_nat i)
  | _ => Raised ("'" ++ type_name v ++ "' object is not subscriptable")%string
  end.

(** [v == s] for a string [s] *)
Definition is_str (v : PyVal) (s : string) : bool :=
  match v with
  | PStr t => String.eqb t s
  | _ => false
  end.

(** The items of [sep.join(...)], which must all be strings; [i] is the
    position of the first of [items]. *)
Fixpoint join_items (items : list PyVal) (i : nat) : outcome (list string) :=
  match items with
  | [] => Returned []
  | PStr s :: rest =>
      match join_items rest (i + 1) with
      | Returned ss => Returned (s :: ss)
      | Raised msg => Raised msg
      end
  | v :: _ =>
      Raised ("sequence item " ++ PyStr.of_nat i
                ++ ": expected str instance, " ++ type_name v ++ " found")%string
  end.

(** [sep.join(v)] *)
Definition join (sep : string) (v : PyVal) : outcome string :=
  match iterate v with
  | Raised _ => Raised "can only join an iterable"
  | Returned items =>
      ss <- join_items items 0 ;; Returned (PyStr.join sep ss)
  end.

Fixpoint repeat_string (s : string) (n : nat) : string :=
  match n with
  | O => EmptyString
  | S n' => (s ++ repeat_string s n')%string
  end.

(** [s * v] *)
Definition times (s : string) (v : PyVal) : outcome string :=
  match v with
  | PInt n => Returned (repeat_string s n)
  | PBool b => Returned (if b then s else EmptyString)
  | _ => Raised ("can't multiply sequence by non-int of type '"
                   ++ type_name v ++ "'")%string
  end.

(** [d[key]] *)
Definition item (key : string) (d : attrs) : outcome PyVal :=
  match PyDict.get key d with
  | Some v => Returned v
  | None => Raised ("'" ++ key ++ "'")%string
  end.

(** [d.get(key, default)] *)
Definition get_or (key : string) (default : PyVal) (d : attrs) : PyVal :=
  match PyDict.get key d with
  | Some v => v
  | None => default
  end.

(** [str(v)] as an f-string inserts it; [container_repr] is the
    interpreter's [repr] of lists and mappings. *)
Definition format (container_repr : PyVal -> string) (v : PyVal) : string :=
  match v with
  | PStr s => s
  | PInt n => PyStr.of_nat n
  | PBool true => "True"
  | PBool false => "False"
  | _ => container_repr v
  end.

(** [str(t)] for a member of the enumeration *)
Definition type_str (t : VMLElementType) : string :=
  ("VMLElementType." ++
   match t with
   | HEADING => "HEADING" | PARAGRAPH => "PARAGRAPH" | LIST => "LIST"
   | CODE_BLOCK => "CODE_BLOCK" | QUOTE => "QUOTE" | LINK => "LINK"
   | IMAGE => "IMAGE" | TABLE => "TABLE" | METADATA => "METADATA"
   | DIRECTIVE => "DIRECTIVE" | VARIABLE => "VARIABLE"
   | TEMPLATE => "TEMPLATE" | ANNOTATION => "ANNOTATION"
   | SECTION => "SECTION" | EMPHASIS => "EMPHASIS" | CUSTOM => "CUSTOM"
   end)%string.

End PyObj.

(* ================================================================= *)
(** ** The renderers: [class VMLConverter] *)

Module VMLConverter.
Import PyObj.

Section Render.

(** The interpreter's [repr] of lists and mappings, which only shows
    when an attribute holds one where the renderers insert it in
    text. *)
Variable container_repr : PyVal -> string.

Definition fmt (v : PyVal) : string := format container_repr v.

(** The header loop of the table branch of [_element_to_html]. *)
Fixpoint html_headers (attributes : attrs) (headers : list PyVal) (i : nat)
         (html : string) : outcome string :=
  match headers with
  | [] => Returned html
  | header :: rest =>
      alignment <- item "alignment" attributes ;;
      align <- index alignment i ;;
      html_headers attributes rest (i + 1)
                   (html ++ "<th style=" ++ dq ++ "text-align: " ++ fmt align
                         ++ dq ++ ">" ++ fmt header ++ "</th>" ++ nl)%string
  end.

(** The cell loop of one row. *)
Fixpoint html_cells (attributes : attrs) (cells : list PyVal) (i : nat)
         (html : string) : outcome string :=
  match cells with
  | [] => Returned html
  | cell :: rest =>
      alignment <- item "alignment" attributes ;;
      n <- len alignment ;;
      align <- (if i <? n then index alignment i
                else Returned (PStr "left")) ;;
      html_cells attributes rest (i + 1)
                 (html ++ "<td style=" ++ dq ++ "text-align: " ++ fmt align
                       ++ dq ++ ">" ++ fmt cell ++ "</td>" ++ nl)%string
  end.

(** The row loop. *)
Fixpoint html_rows (attributes : attrs) (rows : list PyVal) (html : string)
  : outcome string :=
  match rows with
  | [] => Returned html
  | row :: rest =>
      cells <- iterate row ;;
      html <- html_cells attributes cells 0 (html ++ "<tr>" ++ nl)%string ;;
      html_rows attributes rest (html ++ "</tr>" ++ nl)%string
  end.

Definition html_table (attributes : attrs) : outcome string :=
  headers <- item "headers" attributes ;;
  headers <- iterate headers ;;
  html <- html_headers attributes headers 0
                       ("<table>" ++ nl ++ "<thead>" ++ nl ++ "<tr>" ++ nl)%string ;;
  rows <- item "rows" attributes ;;
  rows <- iterate rows ;;
  html <- html_rows attributes rows
                    (html ++ "</tr>" ++ nl ++ "</thead>" ++ nl
                          ++ "<tbody>" ++ nl)%string ;;
  Returned (html ++ "</tbody>" ++ nl ++ "</table>" ++ nl)%string.

Definition html_directive (content : string) (attributes : attrs)
  : outcome string :=
  directive <- item "directive" attributes ;;
  if is_str directive "include"
  then Returned ("<!-- Include: " ++ content ++ " -->" ++ nl)%string
  else Returned ("<!-- Directive: " ++ fmt directive ++ " -->" ++ nl)%string.

(** [for child in element.children: html += render(child)] *)
Fixpoint html_children (render : VMLElement -> outcome string)
         (children : list VMLElement) (html : string) : outcome string :=
  match children with
  | [] => Returned html
  | child :: rest =>
      s <- render child ;;
      html_children render rest (html ++ s)%string
  end.

Fixpoint _element_to_html (element : VMLElement) : outcome string :=
  match element with
  | Element type content attributes children _ =>
      match type with
      | HEADING =>
          let level := get_or "level" (PInt 1) attributes in
          Returned ("<h" ++ fmt level ++ ">" ++ content
                         ++ "</h" ++ fmt level ++ ">" ++ nl)%string
      | PARAGRAPH => Returned ("<p>" ++ content ++ "</p>" ++ nl)%string
      | SECTION =>
          let html :=
            ("<section class=" ++ dq ++ content ++ dq ++ ">" ++ nl)%string in
          html <- match children with
                  | Some ((_ :: _) as children) =>
                      html_children _element_to_html children html
                  | _ => Returned html
                  end ;;
          Returned (html ++ "</section>" ++ nl)%string
      | TABLE => html_table attributes
      | DIRECTIVE => html_directive content attributes
      | _ =>
          Returned ("<!-- Unsupported element type: " ++ type_str type
                      ++ " -->" ++ nl)%string
      end
  end.

(** [html_parts.append(self._element_to_html(element))] for every
    element. *)
Fixpoint html_elements (elements : list VMLElement)
         (html_parts : list string) : outcome (list string) :=
  match elements with
  | [] => Returned html_parts
  | element :: rest =>
      s <- _element_to_html element ;;
      html_elements rest (html_parts ++ [s])
  end.

Definition html_head : string :=
  ("<!DOCTYPE html>" ++ nl ++ "<html>" ++ nl ++ "<head>" ++ nl
     ++ "<meta charset=" ++ dq ++ "UTF-8" ++ dq ++ ">" ++ nl)%string.

(** The parts [vml_to_html] starts with: the shell and the title. *)
Definition html_prologue (md : metadata) : list string :=
  let html_parts := [html_head] in
  let html_parts :=
    if negb (PyDict.is_empty md) then
      match PyDict.get "title" md with
      | Some title =>
          html_parts ++ [("<title>" ++ title ++ "</title>" ++ nl)%string]
      | None => html_parts
      end
    else html_parts in
  html_parts ++ [("</head>" ++ nl ++ "<body>" ++ nl)%string].

(** [self.vml_to_html(vml_content)], [md] being the metadata of
    [self.parser]: the text returned (or the exception) and the
    metadata afterwards. *)
Definition vml_to_html (depth : nat) (vml_content : string) (md : metadata)
  : outcome string * metadata :=
  match VMLParser.parse depth vml_content md with
  | (Raised msg, md') => (Raised msg, md')
  | (Returned elements, md') =>
      match html_elements elements (html_prologue md') with
      | Raised msg => (Raised msg, md')
      | Returned html_parts =>
          (Returned
             (PyStr.join EmptyString
                         (html_parts
                            ++ [(nl ++ "</body>" ++ nl ++ "</html>")%string])),
           md')
      end
  end.

(** [r'<b>(.+?)</b>'], [r'<i>(.+?)</i>'], [r'<code>(.+?)</code>'] *)
Definition tag_pattern (tag : string) : Re.regex :=
  Re.seq [Re.lits ("<" ++ tag ++ ">")%string;
          Re.Grp 1 (Re.plus_lazy PyChar.is_dot);
          Re.lits ("</" ++ tag ++ ">")%string].

(** The replacement that puts group 1 between two marks. *)
Definition marked (mark : string) (g : Re.groups) : string :=
  (mark ++ Re.group_or_empty 1 g ++ mark)%string.

(** The paragraph branch: the pseudo-tags back to Markdown marks. *)
Definition markdown_inline (content : string) : string :=
  let content := Re.re_sub (tag_pattern "b") (marked "**") content in
  let content := Re.re_sub (tag_pattern "i") (marked "*") content in
  let content := Re.re_sub (tag_pattern "code") (marked "`") content in
  content.

(** The separator cell of one column. *)
Definition alignment_mark (align : PyVal) : string :=
  if is_str align "left" then "---"
  else if is_str align "center" then ":---:"
  else "---:".

Definition table_line (cells : string) : string :=
  ("| " ++ cells ++ " |" ++ nl)%string.

(** The row loop of the table branch of [_element_to_markdown]. *)
Fixpoint markdown_rows (rows : list PyVal) (md : string) : outcome string :=
  match rows with
  | [] => Returned md
  | row :: rest =>
      cells <- join " | " row ;;
      markdown_rows rest (md ++ table_line cells)%string
  end.

Definition markdown_table (attributes : attrs) : outcome string :=
  headers <- item "headers" attributes ;;
  headers <- join " | " headers ;;
  alignment <- item "alignment" attributes ;;
  alignment <- iterate alignment ;;
  let md :=
    (table_line headers
       ++ table_line (PyStr.join " | " (map alignment_mark alignment)))%string
  in
  rows <- item "rows" attributes ;;
  rows <- iterate rows ;;
  md <- markdown_rows rows md ;;
  Returned (md ++ nl)%string.

Definition _element_to_markdown (element : VMLElement) : outcome string :=
  match element with
  | Element type content attributes _ _ =>
      match type with
      | HEADING =>
          let level := get_or "level" (PInt 1) attributes in
          hashes <- times "#" level ;;
          Returned (hashes ++ " " ++ content ++ nl ++ nl)%string
      | PARAGRAPH => Returned (markdown_inline content ++ nl ++ nl)%string
      | TABLE => markdown_table attributes
      | _ =>
          Returned ("<!-- " ++ type_str type ++ ": " ++ content ++ " -->"
                            ++ nl ++ nl)%string
      end
  end.

(** The metadata as front matter: the parts [vml_to_markdown] starts
    with. *)
Definition front_matter (md : metadata) : list string :=
  if negb (PyDict.is_empty md) then
    [("---" ++ nl)%string]
      ++ map (fun kv => (fst kv ++ ": " ++ snd kv ++ nl)%string) md
      ++ [("---" ++ nl ++ nl)%string]
  else [].

Fixpoint markdown_elements (elements : list VMLElement)
         (md_parts : list string) : outcome (list string) :=
  match elements with
  | [] => Returned md_parts
  | element :: rest =>
      s <- _element_to_markdown element ;;
      markdown_elements rest (md_parts ++ [s])
  end.

(** [self.vml_to_markdown(vml_content)] *)
Definition vml_to_markdown (depth : nat) (vml_content : string)
           (md : metadata) : outcome string * metadata :=
  match VMLParser.parse depth vml_content md with
  | (Raised msg, md') => (Raised msg, md')
  | (Returned elements, md') =>
      match markdown_elements elements (front_matter md') with
      | Raised msg => (Raised msg, md')
      | Returned md_parts => (Returned (PyStr.join EmptyString md_parts), md')
      end
  end.

End Render.

End VMLConverter.

(* ================================================================= *)
(** ** The vocabulary of the specification *)

Module Spec.
Import VMLSyntax VMLParser.

(** *** The substitution cascade, as the specification lists it *)

(** One substitution rule: every match of the pattern is replaced by
    its first group between an opening and a closing pseudo-tag. *)
Definition substitute (text : string) (rule : Re.regex * string) : string :=
  Re.re_sub (fst rule) (tagged (snd rule)) text.

(** The rule of the custom markup pair called [name] in the table. *)
Definition markup_rule (name : string) : Re.regex * string :=
  match PyDict.get name CUSTOM_MARKUP with
  | Some (start, stop) => (markup_pattern start stop, name)
  | None => (Re.Eps, name)
  end.

(** Variables, templates, annotations, the six custom pairs, bold,
    italic, inline code. *)
Definition inline_rules : list (Re.regex * string) :=
  [(VARIABLE_PATTERN, "var");
   (TEMPLATE_PATTERN, "template");
   (ANNOTATION_PATTERN, "annotation");
   markup_rule "emphasis";
   markup_rule "context";
   markup_rule "note";
   markup_rule "warning";
   markup_rule "success";
   markup_rule "code_ref";
   (BOLD_PATTERN, "b");
   (ITALIC_PATTERN, "i");
   (CODE_INLINE_PATTERN, "code")].

(** Each rule applied to the output of the rules before it. *)
Definition inline_cascade (text : string) : string :=
  fold_left substitute inline_rules text.

(** *** Attribute strings *)

Definition is_quote (c : ascii) : bool := PyStr.mem c quote_chars.

(** One layer of quotes: at most one quote character off each end. *)
Definition drop_leading_quote (s : string) : string :=
  match s with
  | String c s' => if is_quote c then s' else s
  | EmptyString => EmptyString
  end.

Definition strip_one_layer (s : string) : string :=
  PyStr.rev (drop_leading_quote (PyStr.rev (drop_leading_quote s))).

(** Attribute parsing as the specification words it, with one layer of
    quotes stripped from a value. *)
Definition add_attribute_one_layer (attributes : attrs) (pair : string)
  : attrs :=
  if PyStr.contains "=" pair then
    let (key, value) := PyStr.split_once "=" pair in
    PyDict.set (PyStr.strip key)
               (PStr (strip_one_layer (PyStr.strip value))) attributes
  else
    PyDict.set (PyStr.strip pair) (PBool true) attributes.

Definition parse_attributes_one_layer (attr_string : string) : attrs :=
  fold_left add_attribute_one_layer (PyStr.split "," attr_string)
            (PyDict.empty PyVal).

(** The key and the value a token of an attribute string stands for. *)
Definition token_key (token : string) : string :=
  if PyStr.contains "=" token
  then PyStr.strip (fst (PyStr.split_once "=" token))
  else PyStr.strip token.

Definition token_text (token : string) : string :=
  PyStr.strip_chars quote_chars
                    (PyStr.strip (snd (PyStr.split_once "=" token))).

Definition token_value (token : string) : PyVal :=
  if PyStr.contains "=" token then PStr (token_text token) else PBool true.

(** [s] neither starts nor ends with a quote character. *)
Definition no_outer_quote (s : string) : Prop :=
  match s with
  | EmptyString => True
  | String c _ => is_quote c = false
  end /\
  match PyStr.rev s with
  | EmptyString => True
  | String c _ => is_quote c = false
  end.

(** *** The dispatch of the parse loop *)

(** The line is a metadata delimiter. *)
Definition is_delimiter (line : string) : bool :=
  Re.matches METADATA_PATTERN line.

(** The line has the shape of none of the structural constructs, and
    is no table separator that would make the line before it a table
    header. *)
Definition plain (line : string) : bool :=
  negb (Re.matches METADATA_PATTERN line)
  && negb (Re.matches DIRECTIVE_PATTERN line)
  && negb (Re.matches SECTION_START_PATTERN line)
  && negb (Re.matches HEADING_PATTERN line)
  && negb (Re.matches TABLE_SEPARATOR line).

(** The line after a position, if there is one, is no table
    separator. *)
Definition no_separator_next (after : list string) : Prop :=
  match after with
  | [] => True
  | next :: _ => Re.matches TABLE_SEPARATOR next = false
  end.

(** The paragraphs of a run of plain lines that starts at index [i]:
    one for every line that is not blank. *)
Fixpoint paragraphs_from (i : nat) (run : list string) : list VMLElement :=
  match run with
  | [] => []
  | line :: run' =>
      (if is_blank line then [] else [_parse_paragraph line i])
        ++ paragraphs_from (i + 1) run'
  end.

(** The number of lines that open a section. *)
Definition count_section_starts (lines : list string) : nat :=
  List.length (filter (Re.matches SECTION_START_PATTERN) lines).

(** The line after index [i] has the shape of a table separator. *)
Definition separator_follows (lines : list string) (i : nat) : bool :=
  (i + 1 <? List.length lines)
  && Re.matches TABLE_SEPARATOR (line_at lines (i + 1)).

(** The line at index [i] is recognised by none of the structural
    rules: it is not blank, no metadata delimiter, no directive, no
    section start, no heading, and no table starts at it. *)
Definition unrecognized (lines : list string) (i : nat) : bool :=
  let line := line_at lines i in
  negb (is_blank line)
  && negb (Re.matches METADATA_PATTERN line)
  && negb (Re.matches DIRECTIVE_PATTERN line)
  && negb (Re.matches SECTION_START_PATTERN line)
  && negb (Re.matches HEADING_PATTERN line)
  && negb (separator_follows lines i).

(** *** Headings *)

Definition leading_hashes (line : string) : nat :=
  PyStr.run_length (only hash) line.

(** A heading carries a level between one and six, here and in every
    section below. *)
Fixpoint levels_in_range (e : VMLElement) : Prop :=
  match e with
  | Element type _ attributes children _ =>
      (type = HEADING ->
       exists level,
         attributes = [("level", PInt level)] /\ 1 <= level <= 6) /\
      match children with
      | None => True
      | Some elements =>
          (fix all (l : list VMLElement) : Prop :=
             match l with
             | [] => True
             | x :: l' => levels_in_range x /\ all l'
             end) elements
      end
  end.

(** The level of a heading is the number of [#] its line starts
    with. *)
Definition level_is_run (lines : list string) (e : VMLElement) : Prop :=
  el_type e = HEADING ->
  el_attributes e
  = [("level", PInt (leading_hashes (line_at lines (el_line_number e))))].

End Spec.

(* ================================================================= *)
(** ** The vocabulary of further properties *)

Module Props.
Import VMLSyntax VMLParser VMLLanguageHandler.

(** *** The structural scan in closed form *)

(** The diagnostic of one markup pair on the line at index [i]. *)
Definition markup_diagnostic (i : nat) (line : string)
           (item : string * (string * string)) : list string :=
  let '(markup_type, (start, stop)) := item in
  if PyStr.count start line =? PyStr.count stop line then []
  else [(line_label i ++ "Unclosed " ++ markup_type ++ " markup")%string].

(** The markup diagnostics of the lines from index [i] on, line by
    line, pair by pair. *)
Fixpoint markup_diagnostics (lines : list string) (i : nat) : list string :=
  match lines with
  | [] => []
  | line :: lines' =>
      flat_map (markup_diagnostic i line) CUSTOM_MARKUP
               ++ markup_diagnostics lines' (i + 1)
  end.

(** The names after the section markers of the lines. *)
Definition marked_names (lines : list string) : list string :=
  flat_map (fun line =>
              match Re.re_match SECTION_MARKER line with
              | Some (m, _) => [Re.group_or_empty 1 m]
              | None => []
              end) lines.

Definition unclosed_diagnostic (names : list string) : list string :=
  match names with
  | [] => []
  | _ => [("Unclosed sections: " ++ PyStr.join ", " names)%string]
  end.

(** Every markup pair has as many opening as closing strings on the
    line. *)
Definition balanced (line : string) : bool :=
  forallb (fun item : string * (string * string) =>
             PyStr.count (fst (snd item)) line
             =? PyStr.count (snd (snd item)) line)
          CUSTOM_MARKUP.

(** *** Sections *)

(** The line opens a section. *)
Definition opens (line : string) : bool :=
  Re.matches SECTION_START_PATTERN line.

(** The line is an end marker with the name [name]. *)
Definition closes (name line : string) : bool :=
  match Re.re_match SECTION_END_PATTERN line with
  | Some (m, _) => String.eqb (Re.group_or_empty 1 m) name
  | None => false
  end.

(** The name in a line that opens a section. *)
Definition section_name (header : string) : string :=
  match Re.re_match SECTION_START_PATTERN header with
  | Some (g, _) => Re.group_or_empty 1 g
  | None => EmptyString
  end.

(** The attributes [_parse_section] gives the section of a header. *)
Definition section_attributes (header : string) : attrs :=
  match Re.re_match SECTION_START_PATTERN header with
  | Some (g, _) =>
      PyDict.set "name" (PStr (Re.group_or_empty 1 g))
                 (_parse_attributes (Re.group_or_empty 2 g))
  | None => PyDict.empty PyVal
  end.

(** The section element of a header line at index [line_number], with
    the children the parse of its body gave; the exception of that
    parse otherwise. *)
Definition section_of (header : string)
           (body : outcome (list VMLElement)) (line_number : nat)
           (following : list VMLElement) : outcome (list VMLElement) :=
  match body with
  | Returned children =>
      Returned (Element SECTION (section_name header)
                        (section_attributes header) (Some children)
                        line_number :: following)
  | Raised msg => Raised msg
  end.

(** *** The shape of parsed elements *)

(** The attributes [_parse_table] builds from cells. *)
Definition table_attributes (headers alignment : list string)
           (rows : list (list string)) : attrs :=
  [("headers", PList (map PStr headers));
   ("alignment", PList (map PStr alignment));
   ("rows", PList (map (fun row => PList (map PStr row)) rows))].

(** An element as the parser builds it: a heading with a level from
    one to six, a paragraph, a directive with its name and parameters,
    a table of string cells (at least one header, at least one
    alignment, each left, center or right, and rows, any number of
    them, of at least one cell each), or a section whose children are
    such elements; no other kind. *)
Fixpoint well_formed (e : VMLElement) : Prop :=
  match e with
  | Element type _ attributes children _ =>
      match type with
      | HEADING =>
          (exists level,
              attributes = [("level", PInt level)] /\ 1 <= level <= 6)
          /\ children = None
      | PARAGRAPH => attributes = [] /\ children = None
      | DIRECTIVE =>
          (exists name params,
              attributes = [("directive", PStr name);
                            ("params", PDict params)])
          /\ children = None
      | TABLE =>
          (exists headers alignment rows,
              attributes = table_attributes headers alignment rows
              /\ headers <> [] /\ alignment <> []
              /\ Forall (fun a => a = "left" \/ a = "center" \/ a = "right")
                        alignment
              /\ Forall (fun row => row <> []) rows)
          /\ children = None
      | SECTION =>
          match children with
          | Some elements =>
              (fix all (l : list VMLElement) : Prop :=
                 match l with
                 | [] => True
                 | x :: l' => well_formed x /\ all l'
                 end) elements
          | None => False
          end
      | _ => False
      end
  end.

(** The number of items of the list an attribute holds. *)
Definition cells (key : string) (attributes : attrs) : nat :=
  match PyDict.get key attributes with
  | Some (PList l) => List.length l
  | _ => 0
  end.

(** Every table, here and in every section below, has no more header
    cells than alignment cells. *)
Fixpoint tables_fit (e : VMLElement) : Prop :=
  match e with
  | Element type _ attributes children _ =>
      (type = TABLE -> cells "headers" attributes <= cells "alignment" attributes)
      /\ match children with
         | Some elements =>
             (fix all (l : list VMLElement) : Prop :=
                match l with
                | [] => True
                | x :: l' => tables_fit x /\ all l'
                end) elements
         | None => True
         end
  end.

Definition index_error : string := "list index out of range".

(** The nesting of sections in an element. *)
Fixpoint height (e : VMLElement) : nat :=
  match e with
  | Element _ _ _ children _ =>
      match children with
      | Some elements =>
          S ((fix highest (l : list VMLElement) : nat :=
                match l with
                | [] => 0
                | x :: l' => Nat.max (height x) (highest l')
                end) elements)
      | None => 0
      end
  end.

(** *** The Markdown of a table *)

(** One line of a pipe table. *)
Definition pipe_row (row : list string) : string :=
  VMLConverter.table_line (PyStr.join " | " row).

(** The separator cell of an alignment. *)
Definition separator_cell (alignment : string) : string :=
  VMLConverter.alignment_mark (PStr alignment).

(** The lines of the pipe table of headers, alignments and rows. *)
Definition pipe_table_lines (headers alignment : list string)
           (rows : list (list string)) : list string :=
  [PyStr.join " | " headers; PyStr.join " | " (map separator_cell alignment)]
    ++ map (PyStr.join " | ") rows.

(** The text [_element_to_markdown] gives for a table. *)
Definition pipe_table (headers alignment : list string)
           (rows : list (list string)) : string :=
  (PyStr.join EmptyString
              (map VMLConverter.table_line
                   (pipe_table_lines headers alignment rows))
     ++ PyObj.nl)%string.

(** *** Plain prose *)

(** The characters an inline substitution pattern can start with. *)
Definition inline_triggers : string := "$%[!<(/@*`".

(** The text holds none of them. *)
Definition neutral (text : string) : bool :=
  PyStr.all_chars (fun c => negb (PyStr.mem c inline_triggers)) text.

(** A line of prose: no structural construct, no inline markup, no
    line break. *)
Definition prose (line : string) : Prop :=
  Spec.plain line = true /\ neutral line = true
  /\ PyStr.no_char PyChar.newline line.

(** The Markdown of paragraphs: every line that is not blank, with an
    empty line after it. *)
Definition markdown_paragraphs (lines : list string) : string :=
  PyStr.join EmptyString
             (map (fun l => (l ++ PyObj.nl ++ PyObj.nl)%string)
                  (filter (fun l => negb (is_blank l)) lines)).

(** The HTML of paragraphs on a converter without metadata: the shell
    of the document around one [p] element for every line that is not
    blank, the line put in as it is. *)
Definition html_paragraphs (lines : list string) : string :=
  PyStr.join EmptyString
             ([VMLConverter.html_head;
               ("</head>" ++ PyObj.nl ++ "<body>" ++ PyObj.nl)%string]
                ++ map (fun l => ("<p>" ++ l ++ "</p>" ++ PyObj.nl)%string)
                       (filter (fun l => negb (is_blank l)) lines)
                ++ [(PyObj.nl ++ "</body>" ++ PyObj.nl ++ "</html>")%string]).

(** *** Metadata that front matter can carry *)

(** The line front matter has for an entry. *)
Definition entry_line (kv : string * string) : string :=
  fst kv ++ ": " ++ snd kv.

(** A key and a value that [_process_metadata] can have stored: both
    are stripped and without line break, the key without colon. *)
Definition storable_entry (kv : string * string) : Prop :=
  PyStr.strip (fst kv) = fst kv
  /\ PyStr.no_char ":" (fst kv)
  /\ PyStr.no_char PyChar.newline (fst kv)
  /\ PyStr.strip (snd kv) = snd kv
  /\ PyStr.no_char PyChar.newline (snd kv).

(** A dictionary of such entries; the keys of a dictionary differ. *)
Definition storable (md : metadata) : Prop :=
  NoDup (map fst md) /\ Forall storable_entry md.

(** The Markdown of metadata and paragraphs: the front matter, then
    every line that is not blank with an empty line after it. *)
Definition markdown_document (md : metadata) (lines : list string)
  : string :=
  PyStr.join EmptyString
             (VMLConverter.front_matter md
                ++ map (fun l => (l ++ PyObj.nl ++ PyObj.nl)%string)
                       (filter (fun l => negb (is_blank l)) lines)).

(** The lines of that text, for metadata that is not empty. *)
Definition document_lines (md : metadata) (lines : list string)
  : list string :=
  "---" :: map entry_line md
        ++ "---" :: EmptyString
        :: flat_map (fun l => [l; EmptyString]) lines ++ [EmptyString].

(** *** Tables that Markdown can carry *)

(** A cell [_parse_table_row] can have produced and that the row syntax
    keeps: stripped, without bar and without line break. *)
Definition cell (c : string) : Prop :=
  PyStr.strip c = c /\ PyStr.no_char "|" c
  /\ PyStr.no_char PyChar.newline c.

(** A row of cells; [_parse_table_row] never gives an empty one. *)
Definition row (r : list string) : Prop := r <> [] /\ Forall cell r.

(** The alignments [_parse_table_alignment] gives. *)
Definition alignment_value (a : string) : Prop :=
  a = "left" \/ a = "center" \/ a = "right".

Definition portable_table (headers alignment : list string)
           (rows : list (list string)) : Prop :=
  row headers /\ alignment <> [] /\ Forall alignment_value alignment
  /\ Forall row rows.

(** A line of a pipe table, without its line break. *)
Definition bar (cells : string) : string := "| " ++ cells ++ " |".

(** A cell between blanks. *)
Definition pad (c : string) : string := " " ++ c ++ " ".

(** The lines of the text [_element_to_markdown] gives for a table:
    the lines of the table, and the two empty lines that the line
    breaks at its end leave. *)
Definition pipe_lines (headers alignment : list string)
           (rows : list (list string)) : list string :=
  map bar (pipe_table_lines headers alignment rows)
      ++ [EmptyString; EmptyString].

(** *** Headings that Markdown can carry *)

(** The text of a heading that [_parse_heading] reads back as it is:
    without inline markup and line break, and with a first character
    that is no white space. *)
Definition heading_text (content : string) : Prop :=
  neutral content = true
  /\ PyStr.no_char PyChar.newline content
  /\ match content with
     | String c _ => PyChar.is_space c = false
     | EmptyString => False
     end.

(** The line [_element_to_markdown] gives for a heading. *)
Definition heading_line (level : nat) (content : string) : string :=
  PyObj.repeat_string "#" level ++ " " ++ content.

(** *** Lines the formatter keeps *)

(** A line of the body of a document that the parser reads as a
    paragraph or skips, and that the formatter copies. *)
Definition body_line (l : string) : Prop :=
  Spec.plain l = true /\ PyStr.no_char PyChar.newline l
  /\ PyStr.strip l <> "---" /\ Re.matches HEADING_START l = false.

(** *** The lines at the top level of a text *)

(** The longest run of lines that satisfy [p] at the head of a list. *)
Fixpoint leading (p : string -> bool) (lines : list string) : list string :=
  match lines with
  | line :: rest => if p line then line :: leading p rest else []
  | [] => []
  end.

(** The number of lines a metadata block takes after its opening
    delimiter, [rest] being the lines after it: the lines before the
    next delimiter and that delimiter, or all the lines when no
    delimiter follows. *)
Definition block_extent (rest : list string) : nat :=
  Nat.min
    (S (List.length (leading (fun l => negb (Spec.is_delimiter l)) rest)))
    (List.length rest).

(** With [pending] sections open besides the one named [name], line [k]
    of [rest] is an end marker with that name before which the lines
    that open a section and the end markers with the name balance. *)
Definition closes_at (pending : nat) (name : string) (rest : list string)
           (k : nat) : bool :=
  closes name (nth k rest EmptyString)
  && (pending + List.length (filter opens (firstn k rest))
      =? List.length (filter (closes name) (firstn k rest))).

(** The end marker that closes a section named [name], [rest] being the
    lines after the line that opens it: the first end marker with the
    name before which as many lines open a section as are end markers
    with the name. *)
Definition closing_marker (name : string) (rest : list string)
  : option nat :=
  find (closes_at 0 name rest) (seq 0 (List.length rest)).

(** The number of lines a section takes after the line that opens it:
    up to and including its closing marker, and one more than there
    are when no marker closes it. *)
Definition section_extent (name : string) (rest : list string) : nat :=
  match closing_marker name rest with
  | Some k => S k
  | None => S (List.length rest)
  end.

(** The index of the top-level line that comes after the top-level
    line at [i]: the next line after a blank line, a directive, a
    heading or a line no rule recognises; the line after its block
    after a delimiter; the line after its closing marker after a line
    that opens a section; the first line that has not the shape of a
    row after the head of a table and its separator. *)
Definition next_top_level (lines : list string) (i : nat) : nat :=
  let line := line_at lines i in
  if is_blank line then i + 1
  else if Spec.is_delimiter line
  then i + 1 + block_extent (skipn (i + 1) lines)
  else if Re.matches DIRECTIVE_PATTERN line then i + 1
  else if opens line
  then i + 1 + section_extent (section_name line) (skipn (i + 1) lines)
  else if Re.matches HEADING_PATTERN line then i + 1
  else if Spec.separator_follows lines i
  then i + 2
       + List.length (leading (Re.matches TABLE_ROW) (skipn (i + 2) lines))
  else i + 1.

(** The top-level indices from [i] on, at most [fuel] of them. *)
Fixpoint top_level_from (fuel : nat) (lines : list string) (i : nat)
  : list nat :=
  match fuel with
  | O => []
  | S fuel' =>
      if i <? List.length lines
      then i :: top_level_from fuel' lines (next_top_level lines i)
      else []
  end.

(** The indices of the lines at the top level of a text: the first
    line and, after a top-level line, the line [next_top_level] gives,
    as long as the text has such a line. *)
Definition top_level (lines : list string) : list nat :=
  top_level_from (List.length lines) lines 0.

Definition is_paragraph (e : VMLElement) : bool :=
  match el_type e with PARAGRAPH => true | _ => false end.

(** The paragraph of the line at index [i]. *)
Definition paragraph_at (lines : list string) (i : nat) : VMLElement :=
  Element PARAGRAPH (_process_inline_elements (line_at lines i)) [] None i.

(** The cells of a line read as a row of a table: the line without
    the bars at its ends, cut at every bar, each piece stripped. *)
Definition row_cells (line : string) : list string :=
  map PyStr.strip (PyStr.split "|" (PyStr.strip_chars "|" line)).

(** What the iteration of the parse loop at index [k] appends. *)
Definition emitted (section_parse : string -> outcome (list VMLElement))
           (lines : list string) (k : nat) : list VMLElement :=
  match fst (parse_step section_parse lines k init) with
  | Returned (Some e, _) => [e]
  | _ => []
  end.


End Props.

(* ================================================================= *)
(** ** Facts about strings and lines *)

Module StrFacts.
Import PyStr.

Lemma split_not_nil (sep : ascii) (s : string) : split sep s <> [].
Proof.
  induction s as [|c s IH]; simpl; [discriminate|].
  destruct (Ascii.eqb c sep); [discriminate|].
  destruct (split sep s); discriminate.
Qed.

Lemma split_no_sep (sep : ascii) (s : string) :
  no_char sep s -> split sep s = [s].
Proof.
  unfold no_char.
  induction s as [|c s IH]; simpl; intros H; [reflexivity|].
  apply orb_false_elim in H as [Hc Hs].
  rewrite Ascii.eqb_sym, Hc, (IH Hs). reflexivity.
Qed.

Lemma split_app_sep (sep : ascii) (s rest : string) :
  no_char sep s ->
  split sep (s ++ String sep rest) = s :: split sep rest.
Proof.
  unfold no_char.
  induction s as [|c s IH]; simpl; intros H.
  - rewrite Ascii.eqb_refl. reflexivity.
  - apply orb_false_elim in H as [Hc Hs].
    rewrite Ascii.eqb_sym, Hc, (IH Hs). reflexivity.
Qed.

(** Splitting what [join] built gives the parts back. *)
Lemma split_join (sep : ascii) (parts : list string) :
  parts <> [] ->
  Forall (no_char sep) parts ->
  split sep (join (String sep EmptyString) parts) = parts.
Proof.
  induction parts as [|p ps IH]; intros Hne Hall; [congruence|].
  inversion Hall as [|? ? Hp Hps]; subst.
  destruct ps as [|q ps].
  - simpl. apply split_no_sep, Hp.
  - change (join (String sep EmptyString) (p :: q :: ps))
      with (p ++ String sep (join (String sep EmptyString) (q :: ps)))%string.
    rewrite split_app_sep by assumption.
    rewrite IH by (assumption || discriminate). reflexivity.
Qed.

(** The parts [split] gives do not contain the separator. *)
Lemma split_parts_no_sep (sep : ascii) (s : string) :
  Forall (no_char sep) (split sep s).
Proof.
  induction s as [|c s IH]; simpl.
  - repeat constructor.
  - destruct (Ascii.eqb c sep) eqn:E.
    + constructor; [reflexivity | exact IH].
    + destruct (split sep s) as [|w ws]; [repeat constructor; unfold no_char; simpl; now rewrite Ascii.eqb_sym, E|].
      inversion IH; subst. constructor; [|assumption].
      unfold no_char in *. simpl. now rewrite Ascii.eqb_sym, E.
Qed.

Lemma append_assoc (s t u : string) :
  ((s ++ t) ++ u)%string = (s ++ (t ++ u))%string.
Proof. induction s as [|c s IH]; simpl; congruence. Qed.

Lemma append_empty_r (s : string) : (s ++ "")%string = s.
Proof. induction s; simpl; congruence. Qed.

Lemma length_append (s t : string) :
  String.length (s ++ t) = String.length s + String.length t.
Proof. induction s as [|c s IH]; simpl; congruence. Qed.

Lemma rev_onto_app (s acc : string) :
  rev_onto s acc = (rev s ++ acc)%string.
Proof.
  unfold rev. revert acc.
  induction s as [|c s IH]; intros acc; simpl; [reflexivity|].
  rewrite (IH (String c acc)), (IH (String c EmptyString)).
  rewrite append_assoc. reflexivity.
Qed.

Lemma rev_cons (c : ascii) (s : string) :
  rev (String c s) = (rev s ++ String c EmptyString)%string.
Proof. unfold rev at 1. simpl. apply rev_onto_app. Qed.

Lemma rev_app (s t : string) : rev (s ++ t) = (rev t ++ rev s)%string.
Proof.
  induction s as [|c s IH]; simpl.
  - now rewrite append_empty_r.
  - rewrite !rev_cons, IH, append_assoc. reflexivity.
Qed.

Lemma rev_involutive (s : string) : rev (rev s) = s.
Proof.
  induction s as [|c s IH]; [reflexivity|].
  rewrite rev_cons, rev_app, IH. reflexivity.
Qed.

Lemma all_chars_app (p : ascii -> bool) (s t : string) :
  all_chars p (s ++ t) = all_chars p s && all_chars p t.
Proof.
  induction s as [|c s IH]; simpl; [reflexivity|].
  now rewrite IH, andb_assoc.
Qed.

Lemma all_chars_rev (p : ascii -> bool) (s : string) :
  all_chars p (rev s) = all_chars p s.
Proof.
  induction s as [|c s IH]; [reflexivity|].
  rewrite rev_cons, all_chars_app, IH. simpl.
  now rewrite andb_true_r, andb_comm.
Qed.

Lemma lstrip_empty_iff (p : ascii -> bool) (s : string) :
  lstrip_by p s = EmptyString <-> all_chars p s = true.
Proof.
  induction s as [|c s IH]; simpl; [tauto|].
  destruct (p c); simpl; [exact IH|].
  split; discriminate.
Qed.

Lemma rev_empty_iff (s : string) : rev s = EmptyString <-> s = EmptyString.
Proof.
  split; intros H; [|now subst].
  rewrite <- (rev_involutive s), H. reflexivity.
Qed.

Lemma lstrip_all_chars (p : ascii -> bool) (s : string) :
  all_chars p (lstrip_by p s) = all_chars p s.
Proof.
  induction s as [|c s IH]; simpl; [reflexivity|].
  destruct (p c) eqn:E; simpl; [exact IH | now rewrite E].
Qed.

(** [s.strip()] is empty exactly when [s] is all white space. *)
Lemma strip_by_empty_iff (p : ascii -> bool) (s : string) :
  strip_by p s = EmptyString <-> all_chars p s = true.
Proof.
  unfold strip_by, rstrip_by.
  rewrite rev_empty_iff, lstrip_empty_iff, all_chars_rev.
  rewrite lstrip_all_chars. tauto.
Qed.

End StrFacts.

(* ================================================================= *)
(** ** Facts about the matcher *)

Module ReFacts.
Import Re PyStr StrFacts.

Lemma or_else_some (R : Type) (a b : option R) (r : R) :
  or_else a b = Some r -> a = Some r \/ b = Some r.
Proof. destruct a; simpl; intros H; [left | right]; exact H. Qed.

(** A repetition that succeeds has taken a run of [pre] characters of
    the class, of a length the bounds allow, and continued on the
    rest. *)
Lemma rep_sound (R : Type) (greedy : bool) (p : ascii -> bool)
      (s : string) :
  forall (lo : nat) (hi : option nat) (k : string -> option R) (r : R),
    rep greedy p lo hi s k = Some r ->
    exists pre rest,
      s = (pre ++ rest)%string /\ all_chars p pre = true /\
      lo <= String.length pre /\ within hi (String.length pre) /\
      k rest = Some r.
Proof.
  induction s as [|c s IH]; intros lo hi k r H.
  - simpl in H. destruct (Nat.eqb_spec lo 0); [|discriminate].
    exists EmptyString, EmptyString. subst; simpl.
    repeat split; auto; destruct hi; simpl; lia.
  - simpl in H.
    assert (Hstop : (if lo =? 0 then k (String c s) else None) = Some r ->
                    exists pre rest,
                      String c s = (pre ++ rest)%string /\
                      all_chars p pre = true /\
                      lo <= String.length pre /\
                      within hi (String.length pre) /\ k rest = Some r).
    { intros Hs. destruct (Nat.eqb_spec lo 0); [|discriminate].
      exists EmptyString, (String c s). subst; simpl.
      repeat split; auto; destruct hi; simpl; lia. }
    destruct (p c) eqn:Hp; simpl in H; [|auto].
    destruct (may_take hi) eqn:Hm; [|auto].
    assert (Hmore : rep greedy p (Nat.pred lo) (less hi) s k = Some r ->
                    exists pre rest,
                      String c s = (pre ++ rest)%string /\
                      all_chars p pre = true /\
                      lo <= String.length pre /\
                      within hi (String.length pre) /\ k rest = Some r).
    { intros Hr. apply IH in Hr as (pre & rest & -> & Hall & Hlo & Hhi & Hk).
      exists (String c pre), rest. simpl. rewrite Hp, Hall.
      repeat split; auto; [lia|].
      destruct hi as [[|h]|]; simpl in *; try discriminate; lia. }
    destruct greedy; apply or_else_some in H as [H|H]; auto.
Qed.

(** Unfolds the matcher on a pattern of the rule set. *)
Ltac run_pattern :=
  unfold Re.matches; unfold Re.re_match, Re.star, Re.plus, Re.plus_lazy;
  cbn [Re.run Re.seq Re.lits].

Lemma take_app (pre rest : string) :
  PyStr.take (PyStr.len (pre ++ rest) - PyStr.len rest) (pre ++ rest) = pre.
Proof.
  unfold PyStr.len. rewrite length_append, Nat.add_sub.
  induction pre as [|c pre IH]; simpl; [now destruct rest | now rewrite IH].
Qed.

Lemma run_length_app (p : ascii -> bool) (pre rest : string) :
  all_chars p pre = true ->
  run_length p (pre ++ rest) = String.length pre + run_length p rest.
Proof.
  induction pre as [|c pre IH]; simpl; intros H; [reflexivity|].
  apply andb_prop in H as [Hc Hpre]. now rewrite Hc, IH.
Qed.

Lemma run_length_stop (p : ascii -> bool) (c : ascii) (s : string) :
  p c = false -> run_length p (String c s) = 0.
Proof. intros H. simpl. now rewrite H. Qed.

Lemma space_is_not_hash (c : ascii) :
  PyChar.is_space c = true -> VMLSyntax.only VMLSyntax.hash c = false.
Proof.
  unfold VMLSyntax.only. intros H.
  destruct (Ascii.eqb_spec VMLSyntax.hash c) as [<-|]; [|reflexivity].
  discriminate H.
Qed.

(** A line the heading pattern matches is a run of one to six [#], then
    white space; group 1 is that run, which is the whole run of [#] the
    line starts with. *)
Lemma heading_match (line : string) (g : groups) (rest : string) :
  re_match VMLSyntax.HEADING_PATTERN line = Some (g, rest) ->
  exists hashes,
    group_or_empty 1 g = hashes /\
    String.length hashes = run_length (VMLSyntax.only VMLSyntax.hash) line /\
    1 <= String.length hashes <= 6.
Proof.
  unfold re_match, VMLSyntax.HEADING_PATTERN. simpl. intros H.
  apply rep_sound in H as (hs & s1 & -> & Hhs & Hlo & Hhi & H).
  apply rep_sound in H as (ws & s2 & -> & Hws & Hwlo & _ & H).
  apply rep_sound in H as (body & s3 & -> & _ & _ & _ & H).
  destruct (at_end s3); [|discriminate].
  injection H as <- <-.
  exists hs. unfold group_or_empty. simpl.
  rewrite take_app. split; [reflexivity|]. simpl in Hhi.
  split; [|lia].
  rewrite run_length_app by assumption.
  destruct ws as [|w ws]; [simpl in Hwlo; lia|].
  simpl in Hws. apply andb_prop in Hws as [Hw _].
  change (String w ws ++ body ++ s3)%string
    with (String w (ws ++ body ++ s3)%string).
  rewrite (run_length_stop _ _ _ (space_is_not_hash w Hw)). lia.
Qed.

End ReFacts.

(* ================================================================= *)
(** ** Facts about the parser's loops *)

Module ParserFacts.
Import VMLParser PyStr StrFacts.
Import ReFacts.

Lemma metadata_scan_index (rest : list string) :
  forall i acc r j, metadata_scan rest i acc = (r, j) -> i <= j.
Proof.
  induction rest as [|line rest IH]; simpl; intros i acc r j H.
  - injection H as _ <-. lia.
  - destruct (Re.matches VMLSyntax.METADATA_PATTERN line).
    + injection H as _ <-. lia.
    + apply IH in H. lia.
Qed.

(** The content lines a section scan adds are a prefix of the lines it
    is given. *)
Lemma section_scan_prefix (name : string) (rest : list string) :
  forall i n acc content j,
    section_scan name rest i n acc = (content, j) ->
    i <= j /\ exists pre suf, content = acc ++ pre /\ rest = pre ++ suf.
Proof.
  induction rest as [|line rest IH]; simpl; intros i n acc content j H.
  - injection H as <- <-. split; [lia|]. exists [], [].
    now rewrite app_nil_r.
  - assert (Hstop : (acc, i) = (content, j) ->
                    i <= j /\ exists pre suf,
                        content = acc ++ pre /\ line :: rest = pre ++ suf).
    { intros E. injection E as <- <-. split; [lia|].
      exists [], (line :: rest). now rewrite app_nil_r. }
    assert (Hgo : forall n',
               section_scan name rest (i + 1) n' (acc ++ [line])
               = (content, j) ->
               i <= j /\ exists pre suf,
                   content = acc ++ pre /\ line :: rest = pre ++ suf).
    { intros n' E. apply IH in E as (Hle & pre & suf & -> & ->).
      split; [lia|]. exists (line :: pre), suf.
      now rewrite <- app_assoc. }
    destruct (n =? 0); [auto|].
    destruct (Re.matches VMLSyntax.SECTION_START_PATTERN line); [eauto|].
    destruct (Re.re_match VMLSyntax.SECTION_END_PATTERN line)
      as [[end_match ?]|]; [|eauto].
    destruct (String.eqb _ name); [|eauto].
    destruct (n - 1 =? 0); eauto.
Qed.

Lemma table_rows_index (rest : list string) :
  forall i rows rows' j, table_rows rest i rows = (rows', j) -> i <= j.
Proof.
  induction rest as [|line rest IH]; simpl; intros i rows rows' j H.
  - injection H as _ <-. lia.
  - destruct (Re.matches VMLSyntax.TABLE_ROW line).
    + apply IH in H. lia.
    + injection H as _ <-. lia.
Qed.

(** A metadata block that is closed: the scan collects its lines and
    stops after the closing delimiter. *)
Lemma metadata_scan_block (block : list string) :
  forall (d : string) (rest : list string) (i : nat) (acc : list string),
    Forall (fun l => Spec.is_delimiter l = false) block ->
    Spec.is_delimiter d = true ->
    metadata_scan (block ++ d :: rest) i acc
    = (Some (acc ++ block), i + List.length block + 1).
Proof.
  induction block as [|l block IH]; intros d rest i acc Hb Hd; simpl.
  - unfold Spec.is_delimiter in Hd. rewrite Hd, app_nil_r. f_equal. lia.
  - inversion Hb as [|? ? Hl Hb']; subst. unfold Spec.is_delimiter in Hl.
    rewrite Hl, IH by assumption. rewrite <- app_assoc. f_equal. lia.
Qed.

Lemma line_at_app (before : list string) (line : string)
      (after : list string) :
  line_at (before ++ line :: after) (List.length before) = line.
Proof. unfold line_at. now rewrite nth_middle. Qed.

Lemma skipn_after (before : list string) (line : string)
      (after : list string) :
  skipn (List.length before + 1) (before ++ line :: after) = after.
Proof.
  rewrite Nat.add_1_r.
  induction before as [|b before IH]; simpl; [reflexivity | exact IH].
Qed.

(** A delimiter starts with a dash: it is not a blank line. *)
Lemma delimiter_not_blank (line : string) :
  Spec.is_delimiter line = true -> is_blank line = false.
Proof.
  unfold Spec.is_delimiter, VMLSyntax.METADATA_PATTERN.
  ReFacts.run_pattern. intros H.
  destruct line as [|c line]; [discriminate|].
  destruct (Ascii.eqb_spec "-" c) as [<-|]; [|discriminate].
  unfold is_blank. apply String.eqb_neq. intros E.
  apply strip_by_empty_iff in E. discriminate E.
Qed.

(** A delimiter starts with a dash: it is no table separator. *)
Lemma delimiter_not_separator (line : string) :
  Spec.is_delimiter line = true ->
  Re.matches VMLSyntax.TABLE_SEPARATOR line = false.
Proof.
  unfold Spec.is_delimiter, VMLSyntax.METADATA_PATTERN.
  ReFacts.run_pattern. intros H.
  destruct line as [|c line]; [discriminate|].
  destruct (Ascii.eqb_spec "-" c) as [<-|]; [|discriminate].
  reflexivity.
Qed.

Lemma matches_none (r : Re.regex) (s : string) :
  Re.matches r s = false -> Re.re_match r s = None.
Proof.
  unfold Re.matches. destruct (Re.re_match r s); [discriminate | reflexivity].
Qed.

Lemma line_at_next (before : list string) (line next : string)
      (after : list string) :
  line_at (before ++ line :: next :: after) (List.length before + 1) = next.
Proof.
  replace (before ++ line :: next :: after)
    with ((before ++ [line]) ++ next :: after)
    by (now rewrite <- app_assoc).
  replace (List.length before + 1) with (List.length (before ++ [line]))
    by (rewrite length_app; reflexivity).
  apply line_at_app.
Qed.

Section Loop.
Variable section_parse : string -> outcome (list VMLElement).

(** Every iteration of the loop of [parse] moves the index forward. *)
Lemma parse_step_advances (lines : list string) (i : nat) (md : metadata)
      (element : option VMLElement) (j : nat) (md' : metadata) :
  parse_step section_parse lines i md = (Returned (element, j), md') ->
  i < j.
Proof.
  unfold parse_step. intros H.
  destruct (is_blank _); [injection H as _ <- _; lia|].
  destruct (Re.matches VMLSyntax.METADATA_PATTERN _).
  { unfold _parse_metadata_block in H.
    destruct (metadata_scan _ _ _) as [[ml|] k] eqn:E;
      apply metadata_scan_index in E; injection H as _ <- _; lia. }
  destruct (Re.re_match VMLSyntax.DIRECTIVE_PATTERN _) as [[dm ?]|].
  { injection H as _ <- _; lia. }
  destruct (Re.matches VMLSyntax.SECTION_START_PATTERN _).
  { unfold _parse_section in H.
    destruct (Re.re_match VMLSyntax.SECTION_START_PATTERN _) as [[g ?]|];
      [|discriminate].
    destruct (section_scan _ _ _ _ _) as [content k] eqn:E.
    apply section_scan_prefix in E as [Hle _].
    destruct (section_parse _); [|discriminate].
    injection H as _ <- _. lia. }
  destruct (Re.matches VMLSyntax.HEADING_PATTERN _).
  { destruct (_parse_heading _ _); [|discriminate].
    injection H as _ <- _. lia. }
  destruct (_ && _).
  { unfold _parse_table in H.
    destruct (table_rows _ _ _) as [rows k] eqn:E.
    apply table_rows_index in E. injection H as _ <- _. lia. }
  injection H as _ <- _. lia.
Qed.

(** The loop does not depend on [gas] once there is one unit of it for
    every line still ahead: the loop of the model ends where the
    [while] of the source ends. *)
Lemma parse_loop_gas (lines : list string) (g1 : nat) :
  forall g2 i elements md,
    List.length lines - i <= g1 -> List.length lines - i <= g2 ->
    parse_loop section_parse g1 lines i elements md
    = parse_loop section_parse g2 lines i elements md.
Proof.
  induction g1 as [|g1 IH]; intros g2 i elements md H1 H2.
  - destruct g2; simpl; destruct (Nat.leb_spec (List.length lines) i);
      try reflexivity; lia.
  - destruct g2; simpl; destruct (Nat.leb_spec (List.length lines) i);
      try reflexivity; try lia.
    destruct (parse_step section_parse lines i md) as [[[e j]|msg] md'] eqn:E;
      [|reflexivity].
    apply parse_step_advances in E. apply IH; lia.
Qed.

(** The loop, one iteration unfolded. *)
Lemma parse_loop_unfold (lines : list string) (gas i : nat)
      (elements : list VMLElement) (md : metadata) :
  i < List.length lines -> List.length lines - i <= gas ->
  parse_loop section_parse gas lines i elements md
  = match parse_step section_parse lines i md with
    | (Returned (element, j), md') =>
        parse_loop section_parse (List.length lines - j) lines j
                   (append_element elements element) md'
    | (Raised msg, md') => (Raised msg, md')
    end.
Proof.
  intros Hi Hg. destruct gas as [|gas]; [lia|]. simpl.
  destruct (Nat.leb_spec (List.length lines) i); [lia|].
  destruct (parse_step section_parse lines i md) as [[[e j]|msg] md'] eqn:E;
    [|reflexivity].
  apply parse_step_advances in E. apply parse_loop_gas; lia.
Qed.

Lemma parse_loop_done (lines : list string) (gas i : nat)
      (elements : list VMLElement) (md : metadata) :
  List.length lines <= i ->
  parse_loop section_parse gas lines i elements md = (Returned elements, md).
Proof.
  intros H. destruct gas; simpl;
    destruct (Nat.leb_spec (List.length lines) i); try reflexivity; lia.
Qed.

(** At the opening delimiter of a closed metadata block the loop
    merges the block into the metadata and resumes after the closing
    delimiter. *)
Lemma parse_step_metadata_block
      (before : list string) (d1 : string) (block : list string)
      (d2 : string) (after : list string) (md : metadata) :
  Spec.is_delimiter d1 = true -> Spec.is_delimiter d2 = true ->
  Forall (fun l => Spec.is_delimiter l = false) block ->
  parse_step section_parse (before ++ d1 :: block ++ d2 :: after)
             (List.length before) md
  = (Returned (None, List.length before + List.length block + 2),
     _process_metadata block md).
Proof.
  intros H1 H2 Hb. unfold parse_step.
  rewrite line_at_app, (delimiter_not_blank _ H1).
  unfold Spec.is_delimiter in H1. rewrite H1.
  unfold _parse_metadata_block. rewrite skipn_after.
  rewrite metadata_scan_block by assumption. cbn [app]. do 3 f_equal. lia.
Qed.

(** At a plain line the loop skips a blank and makes a paragraph of
    anything else. *)
Lemma parse_step_plain (before : list string) (line : string)
      (after : list string) (md : metadata) :
  Spec.plain line = true -> Spec.no_separator_next after ->
  parse_step section_parse (before ++ line :: after) (List.length before) md
  = (Returned (if is_blank line then None
               else Some (_parse_paragraph line (List.length before)),
               List.length before + 1), md).
Proof.
  unfold Spec.plain. intros H Hnext.
  apply andb_prop in H as [H _]. apply andb_prop in H as [H Hhead].
  apply andb_prop in H as [H Hsec]. apply andb_prop in H as [Hmeta Hdir].
  apply negb_true_iff in Hhead, Hsec, Hdir, Hmeta.
  unfold parse_step. rewrite line_at_app.
  destruct (is_blank line); [reflexivity|].
  rewrite Hmeta, (matches_none _ _ Hdir), Hsec, Hhead.
  destruct after as [|next after].
  - rewrite length_app. cbn [List.length].
    destruct (Nat.ltb_spec (List.length before + 1) (List.length before + 1));
      [lia | reflexivity].
  - rewrite line_at_next. cbn [Spec.no_separator_next] in Hnext.
    now rewrite Hnext, andb_false_r.
Qed.

(** Over a run of plain lines the loop collects the paragraphs of the
    run and leaves the metadata alone. *)
Lemma parse_loop_plain_run (run : list string) :
  forall (before after : list string) (acc : list VMLElement) (md : metadata),
    Forall (fun l => Spec.plain l = true) run ->
    Spec.no_separator_next after ->
    parse_loop section_parse
               (List.length (before ++ run ++ after) - List.length before)
               (before ++ run ++ after) (List.length before) acc md
    = parse_loop section_parse
                 (List.length (before ++ run ++ after)
                  - (List.length before + List.length run))
                 (before ++ run ++ after)
                 (List.length before + List.length run)
                 (acc ++ Spec.paragraphs_from (List.length before) run) md.
Proof.
  induction run as [|line run IH]; intros before after acc md Hrun Hafter.
  - cbn [List.length Spec.paragraphs_from app].
    now rewrite Nat.add_0_r, app_nil_r.
  - inversion Hrun as [|? ? Hline Hrun']; subst.
    assert (Hplain : Spec.plain line = true) by exact Hline.
    rewrite parse_loop_unfold;
      [| rewrite !length_app; cbn [List.length]; lia | lia].
    change ((line :: run) ++ after) with (line :: run ++ after).
    rewrite parse_step_plain; [|assumption|].
    2: { destruct run as [|next run]; [exact Hafter|].
         inversion Hrun' as [|? ? Hn _]; subst. cbn [app Spec.no_separator_next].
         unfold Spec.plain in Hn. apply andb_prop in Hn as [_ Hn].
         now apply negb_true_iff in Hn. }
    replace (before ++ line :: run ++ after)
      with ((before ++ [line]) ++ run ++ after)
      by (now rewrite <- app_assoc).
    replace (List.length before + 1) with (List.length (before ++ [line]))
      by (rewrite length_app; reflexivity).
    rewrite IH by assumption.
    rewrite !length_app. cbn [List.length Spec.paragraphs_from].
    replace (List.length before + 1 + List.length run)
      with (List.length before + S (List.length run)) by lia.
    f_equal.
    destruct (is_blank line); cbn [append_element];
      [reflexivity | now rewrite <- app_assoc].
Qed.

(** The two lemmas above, for the loop at an index of any list of
    lines that has the block, or the run, at that index. *)
Lemma parse_loop_over_block
      (lines before : list string) (d1 : string) (block : list string)
      (d2 : string) (after : list string) (gas i : nat)
      (acc : list VMLElement) (md : metadata) :
  lines = before ++ d1 :: block ++ d2 :: after ->
  i = List.length before ->
  List.length lines - i <= gas ->
  Spec.is_delimiter d1 = true -> Spec.is_delimiter d2 = true ->
  Forall (fun l => Spec.is_delimiter l = false) block ->
  parse_loop section_parse gas lines i acc md
  = parse_loop section_parse
               (List.length lines - (i + List.length block + 2))
               lines (i + List.length block + 2) acc
               (_process_metadata block md).
Proof.
  intros El Ei Hgas H1 H2 Hb.
  rewrite parse_loop_unfold;
    [| rewrite El, Ei, !length_app; cbn [List.length]; lia | assumption].
  rewrite El at 1. rewrite Ei at 1.
  rewrite parse_step_metadata_block by assumption.
  cbn [append_element]. now rewrite <- Ei.
Qed.

Lemma parse_loop_over_plain_run
      (lines before run after : list string) (gas i : nat)
      (acc : list VMLElement) (md : metadata) :
  lines = before ++ run ++ after ->
  i = List.length before ->
  List.length lines - i <= gas ->
  Forall (fun l => Spec.plain l = true) run ->
  Spec.no_separator_next after ->
  parse_loop section_parse gas lines i acc md
  = parse_loop section_parse
               (List.length lines - (i + List.length run))
               lines (i + List.length run)
               (acc ++ Spec.paragraphs_from i run) md.
Proof.
  intros El Ei Hgas Hrun Hafter.
  rewrite (@parse_loop_gas lines gas (List.length lines - i)) by lia.
  subst lines i. now apply parse_loop_plain_run.
Qed.

End Loop.

End ParserFacts.

(* ================================================================= *)
(** ** Facts about the structural scan *)

Module ScanFacts.
Import VMLLanguageHandler PyStr StrFacts ReFacts.

Lemma slash_is_not_word (c : ascii) :
  PyChar.is_word c = true -> Ascii.eqb "/" c = false.
Proof.
  intros H. destruct (Ascii.eqb_spec "/"%char c) as [<-|]; [|reflexivity].
  discriminate H.
Qed.

Lemma ends_with_slash_app (pre w : string) :
  all_chars PyChar.is_word w = true -> w <> EmptyString ->
  PyStr.ends_with "/" (pre ++ w) = false.
Proof.
  intros Hall Hne. unfold PyStr.ends_with.
  rewrite rev_app.
  assert (Hrev : all_chars PyChar.is_word (PyStr.rev w) = true)
    by now rewrite all_chars_rev.
  destruct (PyStr.rev w) as [|c t] eqn:E.
  - apply (proj1 (rev_empty_iff w)) in E. contradiction.
  - simpl in Hrev. apply andb_prop in Hrev as [Hc _].
    change (PyStr.rev "/") with "/"%string.
    cbn [PyStr.starts_with String.append].
    now rewrite (slash_is_not_word c Hc).
Qed.

(** Whatever the scan's pattern matches ends in a word character: the
    test that recognises a closing tag never succeeds. *)
Lemma marker_never_closing (line : string) (m : Re.groups) (rest : string) :
  Re.re_match SECTION_MARKER line = Some (m, rest) ->
  PyStr.ends_with "/" (Re.group_or_empty 0 m) = false.
Proof.
  unfold SECTION_MARKER. run_pattern. intros H.
  destruct line as [|c1 line]; [discriminate|].
  destruct (Ascii.eqb ":" c1) eqn:E1; [|discriminate].
  destruct line as [|c2 line]; [discriminate|].
  destruct (Ascii.eqb ":" c2) eqn:E2; [|discriminate].
  apply rep_sound in H as (ws & s1 & -> & _ & _ & _ & H).
  apply rep_sound in H as (w & s2 & -> & Hw & Hlo & _ & H).
  replace (String c1 (String c2 (ws ++ w ++ s2)))%string
    with ((String c1 (String c2 ws) ++ w) ++ s2)%string in H
    by (simpl; now rewrite append_assoc).
  rewrite !take_app in H. injection H as <- <-.
  unfold Re.group_or_empty. cbn [Re.group Nat.eqb].
  apply (@ends_with_slash_app (String c1 (String c2 ws)) w); [assumption|].
  destruct w; [simpl in Hlo; lia | discriminate].
Qed.

(** So the section check only ever pushes: it reports no closing tag
    and closes no section. *)
Lemma check_section_pushes (i : nat) (line : string)
      (open_sections errors : list string) :
  check_section i line open_sections errors
  = match Re.re_match SECTION_MARKER line with
    | Some (m, _) => (open_sections ++ [Re.group_or_empty 1 m], errors)
    | None => (open_sections, errors)
    end.
Proof.
  unfold check_section.
  destruct (Re.re_match SECTION_MARKER line) as [[m rest]|] eqn:E;
    [|reflexivity].
  now rewrite (marker_never_closing _ E).
Qed.

(** The emphasis delimiters are one and the same string, so their
    counts never differ. *)
Lemma emphasis_never_flagged (i : nat) (line : string)
      (errors : list string) :
  check_markup i line errors ("emphasis", ("!!", "!!")) = errors.
Proof. unfold check_markup. now rewrite Nat.eqb_refl. Qed.

(** The stack of open sections never shrinks: it is not empty at the
    end when it was not empty before or a line opens a section. *)
Lemma scan_lines_open (lines : list string) :
  forall i open_sections errors open_sections' errors',
    scan_lines lines i open_sections errors = (open_sections', errors') ->
    open_sections <> []
    \/ Exists (fun l => Re.matches SECTION_MARKER l = true) lines ->
    open_sections' <> [].
Proof.
  induction lines as [|line lines IH];
    intros i os errs os' errs' Hscan Hopen.
  - simpl in Hscan. injection Hscan as <- _.
    destruct Hopen as [H|H]; [exact H | inversion H].
  - cbn [scan_lines] in Hscan. rewrite check_section_pushes in Hscan.
    unfold Re.matches in Hopen.
    destruct (Re.re_match SECTION_MARKER line) as [[m rest]|] eqn:E.
    + eapply IH; [exact Hscan|]. left. now destruct os.
    + eapply IH; [exact Hscan|].
      destruct Hopen as [H|H]; [now left|].
      inversion H as [? ? Hm|? ? Hl]; subst.
      * rewrite E in Hm. discriminate.
      * right. exact Hl.
Qed.

(** So the validator rejects every text in which a line opens a
    section, however the section is closed. *)
Lemma validate_rejects_sections (depth : nat) (text : string)
      (md : metadata) :
  Exists (fun l => Re.matches SECTION_MARKER l = true)
         (VMLParser.split_lines text) ->
  fst (fst (validate_syntax depth text md)) = false.
Proof.
  intros H. unfold validate_syntax.
  destruct (VMLParser.parse depth text md) as [[elements|msg] md'];
    [|reflexivity].
  destruct (scan_lines _ _ _ _) as [os errs] eqn:Hscan.
  apply scan_lines_open in Hscan; [|now right].
  destruct os as [|o os]; [contradiction|]. cbn [fst].
  rewrite length_app. cbn [List.length].
  now rewrite Nat.add_1_r.
Qed.

End ScanFacts.

(* ================================================================= *)
(** ** Facts about dictionaries and stripping *)

Module AttrFacts.
Import VMLParser PyStr StrFacts.

Lemma get_set_same (V : Type) (k : string) (v : V) (d : PyDict.t V) :
  PyDict.get k (PyDict.set k v d) = Some v.
Proof.
  induction d as [|[k' v'] d IH]; simpl.
  - now rewrite String.eqb_refl.
  - destruct (String.eqb_spec k k') as [->|Hne]; simpl.
    + now rewrite String.eqb_refl.
    + apply String.eqb_neq in Hne. now rewrite Hne.
Qed.

Lemma get_set_other (V : Type) (k k' : string) (v : V) (d : PyDict.t V) :
  k <> k' -> PyDict.get k (PyDict.set k' v d) = PyDict.get k d.
Proof.
  intros Hne. induction d as [|[k2 v2] d IH]; simpl.
  - apply String.eqb_neq in Hne. now rewrite Hne.
  - destruct (String.eqb_spec k' k2) as [->|Hne2]; simpl.
    + apply String.eqb_neq in Hne. now rewrite Hne.
    + now rewrite IH.
Qed.

(** One iteration of the attribute loop assigns the token's value to
    the token's key. *)
Lemma add_attribute_sets (attributes : attrs) (token : string) :
  add_attribute attributes token
  = PyDict.set (Spec.token_key token) (Spec.token_value token) attributes.
Proof.
  unfold add_attribute, Spec.token_key, Spec.token_value, Spec.token_text.
  destruct (contains "=" token); [|reflexivity].
  now destruct (split_once "=" token).
Qed.

Lemma fold_add_attribute_other (k : string) (tokens : list string) :
  forall attributes,
    Forall (fun t => Spec.token_key t <> k) tokens ->
    PyDict.get k (fold_left add_attribute tokens attributes)
    = PyDict.get k attributes.
Proof.
  induction tokens as [|t tokens IH]; intros attributes H; [reflexivity|].
  inversion H as [|? ? Ht Hts]; subst. simpl.
  rewrite IH by assumption. rewrite add_attribute_sets.
  apply get_set_other. congruence.
Qed.

Lemma lstrip_decompose (p : ascii -> bool) (s : string) :
  exists pre, s = (pre ++ lstrip_by p s)%string /\ all_chars p pre = true.
Proof.
  induction s as [|c s (pre & E & H)]; simpl.
  - now exists EmptyString.
  - destruct (p c) eqn:Hc.
    + exists (String c pre). simpl. now rewrite Hc, H, <- E.
    + now exists EmptyString.
Qed.

Lemma lstrip_head (p : ascii -> bool) (s : string) :
  match lstrip_by p s with
  | String c _ => p c = false
  | EmptyString => True
  end.
Proof.
  induction s as [|c s IH]; simpl; [exact I|].
  destruct (p c) eqn:Hc; [exact IH | exact Hc].
Qed.

Lemma rstrip_decompose (p : ascii -> bool) (s : string) :
  exists suf, s = (rstrip_by p s ++ suf)%string /\ all_chars p suf = true.
Proof.
  unfold rstrip_by.
  destruct (lstrip_decompose p (rev s)) as (pre & E & H).
  exists (rev pre). split; [|now rewrite all_chars_rev].
  rewrite <- rev_app, <- E. now rewrite rev_involutive.
Qed.

(** [strip] removes characters of the class at both ends, and nothing
    else; what is left neither starts nor ends with one. *)
Lemma strip_by_spec (p : ascii -> bool) (s : string) :
  (exists pre suf,
      s = (pre ++ strip_by p s ++ suf)%string
      /\ all_chars p pre = true /\ all_chars p suf = true)
  /\ match strip_by p s with
     | String c _ => p c = false
     | EmptyString => True
     end
  /\ match rev (strip_by p s) with
     | String c _ => p c = false
     | EmptyString => True
     end.
Proof.
  unfold strip_by.
  destruct (lstrip_decompose p s) as (pre & E & Hpre).
  destruct (rstrip_decompose p (lstrip_by p s)) as (suf & E' & Hsuf).
  split; [|split].
  - exists pre, suf. now rewrite <- E', <- E.
  - pose proof (lstrip_head p s) as Hh.
    destruct (rstrip_by p (lstrip_by p s)) as [|c r] eqn:Er; [exact I|].
    rewrite E' in Hh. exact Hh.
  - unfold rstrip_by. rewrite rev_involutive. apply lstrip_head.
Qed.

End AttrFacts.

(* ================================================================= *)
(** ** Invariants of the parse loop *)

Module LoopFacts.
Import VMLParser PyStr StrFacts ParserFacts.

Lemma matches_true (r : Re.regex) (s : string) :
  Re.matches r s = true -> exists g rest, Re.re_match r s = Some (g, rest).
Proof.
  unfold Re.matches. destruct (Re.re_match r s) as [[g rest]|];
    [eauto | discriminate].
Qed.

Section Loop.
Variable section_parse : string -> outcome (list VMLElement).
Variable lines : list string.

(** A property every iteration gives its element holds of every
    element of the result. *)
Lemma parse_loop_forall (Q : VMLElement -> Prop) :
  (forall i md e j md',
      i < List.length lines ->
      parse_step section_parse lines i md = (Returned (Some e, j), md') ->
      Q e) ->
  forall gas i acc md elements md_end,
    Forall Q acc ->
    parse_loop section_parse gas lines i acc md = (Returned elements, md_end) ->
    Forall Q elements.
Proof.
  intros Hstep. induction gas as [|gas IH];
    intros i acc md elements md_end Hacc Hloop; simpl in Hloop;
    destruct (Nat.leb_spec (List.length lines) i) as [Hend|Hin];
    try (injection Hloop as <- <-; assumption).
  destruct (parse_step section_parse lines i md)
    as [[[element j]|msg] md1] eqn:Hs; [|discriminate].
  apply IH in Hloop; [assumption|].
  destruct element as [e|]; simpl; [|assumption].
  apply Forall_app. split; [assumption|].
  constructor; [|constructor]. eapply Hstep; eassumption.
Qed.

(** If every iteration returns, the loop returns. *)
Lemma parse_loop_returns :
  (forall i md, i < List.length lines ->
                exists element j md',
                  parse_step section_parse lines i md
                  = (Returned (element, j), md')) ->
  forall gas i acc md,
  exists elements md_end,
    parse_loop section_parse gas lines i acc md = (Returned elements, md_end).
Proof.
  intros Hstep. induction gas as [|gas IH]; intros i acc md; simpl;
    destruct (Nat.leb_spec (List.length lines) i) as [Hend|Hin]; eauto.
  destruct (Hstep i md Hin) as (element & j & md' & ->). apply IH.
Qed.

(** The element an iteration emits, the index it moves to and the
    exception it lets through do not depend on the metadata. *)
Lemma parse_step_fresh (i : nat) (md1 md2 : metadata) :
  fst (parse_step section_parse lines i md1)
  = fst (parse_step section_parse lines i md2).
Proof.
  unfold parse_step.
  destruct (is_blank _); [reflexivity|].
  destruct (Re.matches VMLSyntax.METADATA_PATTERN _).
  { unfold _parse_metadata_block.
    now destruct (metadata_scan _ _ _) as [[ml|] k]. }
  destruct (Re.re_match VMLSyntax.DIRECTIVE_PATTERN _) as [[dm ?]|];
    [reflexivity|].
  destruct (Re.matches VMLSyntax.SECTION_START_PATTERN _).
  { now destruct (_parse_section _ _ _) as [[e j]|]. }
  destruct (Re.matches VMLSyntax.HEADING_PATTERN _).
  { now destruct (_parse_heading _ _). }
  destruct (_ && _); [|reflexivity].
  now destruct (_parse_table _ _).
Qed.

Lemma parse_loop_fresh (gas : nat) :
  forall i acc md1 md2,
    fst (parse_loop section_parse gas lines i acc md1)
    = fst (parse_loop section_parse gas lines i acc md2).
Proof.
  induction gas as [|gas IH]; intros i acc md1 md2; simpl;
    destruct (Nat.leb_spec (List.length lines) i); try reflexivity.
  pose proof (parse_step_fresh i md1 md2) as Hstep.
  destruct (parse_step section_parse lines i md1) as [[[e1 j1]|m1] md1'];
    destruct (parse_step section_parse lines i md2) as [[[e2 j2]|m2] md2'];
    cbn [fst] in Hstep; try discriminate.
  - injection Hstep as <- <-. apply IH.
  - injection Hstep as <-. reflexivity.
Qed.

End Loop.

(** The list [parse] returns is the list a new parser returns: only
    the metadata is carried from call to call. *)
Lemma parse_elements_fresh (depth : nat) (text : string)
      (md1 md2 : metadata) :
  fst (parse depth text md1) = fst (parse depth text md2).
Proof. destruct depth; [reflexivity|]. cbn [parse]. apply parse_loop_fresh. Qed.

End LoopFacts.

(* ================================================================= *)
(** ** What one iteration of the parse loop emits *)

Module StepFacts.
Import VMLParser PyStr StrFacts ParserFacts LoopFacts.

Section Step.
Variable section_parse : string -> outcome (list VMLElement).
Variable lines : list string.

(** A line no structural rule recognises becomes a paragraph. *)
Lemma parse_step_unrecognized (i : nat) (md : metadata) :
  Spec.unrecognized lines i = true ->
  parse_step section_parse lines i md
  = (Returned (Some (_parse_paragraph (line_at lines i) i), i + 1), md).
Proof.
  unfold Spec.unrecognized, Spec.separator_follows. intros H.
  apply andb_prop in H as [H Hsep]. apply andb_prop in H as [H Hhead].
  apply andb_prop in H as [H Hsec]. apply andb_prop in H as [H Hdir].
  apply andb_prop in H as [Hblank Hmeta].
  apply negb_true_iff in Hsep, Hhead, Hsec, Hdir, Hblank, Hmeta.
  unfold parse_step.
  rewrite Hblank, Hmeta, (matches_none _ _ Hdir), Hsec, Hhead, Hsep.
  reflexivity.
Qed.

(** A line that starts with [#]. *)
Lemma hash_line (line : string) :
  1 <= Spec.leading_hashes line ->
  exists rest, line = String VMLSyntax.hash rest.
Proof.
  unfold Spec.leading_hashes.
  destruct line as [|c rest]; cbn [run_length]; [lia|].
  unfold VMLSyntax.only.
  destruct (Ascii.eqb_spec VMLSyntax.hash c) as [<-|]; [eauto | lia].
Qed.

Lemma seven_hashes_no_heading (line : string) :
  7 <= Spec.leading_hashes line ->
  Re.matches VMLSyntax.HEADING_PATTERN line = false.
Proof.
  intros H. unfold Re.matches.
  destruct (Re.re_match VMLSyntax.HEADING_PATTERN line) as [[g rest]|] eqn:E;
    [|reflexivity].
  apply ReFacts.heading_match in E as (hs & _ & Hlen & Hrange).
  unfold Spec.leading_hashes in H. lia.
Qed.

(** A line with seven or more leading [#] is no heading: the loop
    makes it the header row of a table when a separator line follows,
    and a paragraph otherwise. *)
Lemma parse_step_seven_hashes (i : nat) (md : metadata) :
  7 <= Spec.leading_hashes (line_at lines i) ->
  parse_step section_parse lines i md
  = if Spec.separator_follows lines i
    then (Returned (Some (fst (_parse_table lines i)),
                    snd (_parse_table lines i)), md)
    else (Returned (Some (_parse_paragraph (line_at lines i) i), i + 1), md).
Proof.
  intros H. pose proof (seven_hashes_no_heading _ H) as Hh.
  destruct (hash_line (line_at lines i)) as [rest E]; [lia|].
  unfold parse_step, Spec.separator_follows. rewrite Hh. rewrite E.
  replace (is_blank (String VMLSyntax.hash rest)) with false.
  2: { symmetry. unfold is_blank. apply String.eqb_neq. intros B.
       apply strip_by_empty_iff in B. discriminate B. }
  change (Re.matches VMLSyntax.METADATA_PATTERN (String VMLSyntax.hash rest))
    with false.
  change (Re.re_match VMLSyntax.DIRECTIVE_PATTERN (String VMLSyntax.hash rest))
    with (@None (Re.groups * string)).
  change (Re.matches VMLSyntax.SECTION_START_PATTERN
                     (String VMLSyntax.hash rest)) with false.
  cbv iota. destruct (_ && _); [|reflexivity].
  now destruct (_parse_table lines i).
Qed.

(** The element of an iteration carries the index of its line; a
    heading carries the number of [#] its line starts with, which is
    between one and six, and no children. *)
Lemma parse_step_element (i : nat) (md : metadata) (e : VMLElement)
      (j : nat) (md' : metadata) :
  parse_step section_parse lines i md = (Returned (Some e, j), md') ->
  el_line_number e = i
  /\ (el_type e = HEADING ->
      el_attributes e
      = [("level", PInt (Spec.leading_hashes (line_at lines i)))]
      /\ 1 <= Spec.leading_hashes (line_at lines i) <= 6
      /\ el_children e = None).
Proof.
  unfold parse_step. intros H.
  destruct (is_blank _); [discriminate|].
  destruct (Re.matches VMLSyntax.METADATA_PATTERN _).
  { destruct (_parse_metadata_block _ _ _). discriminate. }
  destruct (Re.re_match VMLSyntax.DIRECTIVE_PATTERN _) as [[dm ?]|].
  { injection H as <- _ _. split; [reflexivity | discriminate]. }
  destruct (Re.matches VMLSyntax.SECTION_START_PATTERN _).
  { unfold _parse_section in H.
    destruct (Re.re_match VMLSyntax.SECTION_START_PATTERN _) as [[g ?]|];
      [|discriminate].
    destruct (section_scan _ _ _ _ _) as [content k].
    destruct (section_parse _); [|discriminate].
    injection H as <- _ _. split; [reflexivity | discriminate]. }
  destruct (Re.matches VMLSyntax.HEADING_PATTERN _).
  { unfold _parse_heading in H.
    destruct (Re.re_match VMLSyntax.HEADING_PATTERN _) as [[g rest]|] eqn:E;
      [|discriminate].
    apply ReFacts.heading_match in E as (hs & Hg & Hlen & Hrange).
    injection H as <- _ _. split; [reflexivity|]. intros _.
    unfold Spec.leading_hashes. cbn [el_attributes el_children].
    unfold PyStr.len. rewrite Hg, Hlen. repeat split; lia. }
  destruct (_ && _).
  { unfold _parse_table in H. destruct (table_rows _ _ _).
    injection H as <- _ _. split; [reflexivity | discriminate]. }
  injection H as <- _ _. split; [reflexivity | discriminate].
Qed.

End Step.
End StepFacts.

(* ================================================================= *)
(** ** [parse] returns *)

Module TotalFacts.
Import VMLParser PyStr StrFacts ParserFacts LoopFacts StepFacts.

Lemma count_app (l1 l2 : list string) :
  Spec.count_section_starts (l1 ++ l2)
  = Spec.count_section_starts l1 + Spec.count_section_starts l2.
Proof.
  unfold Spec.count_section_starts. now rewrite filter_app, length_app.
Qed.

(** The body of a section opens fewer sections than the lines it is
    cut from: the line that opens the section is not in it. *)
Lemma section_body_smaller (lines : list string) (i : nat) (name : string)
      (n : nat) (content : list string) (j : nat) :
  Forall (no_char PyChar.newline) lines ->
  i < List.length lines ->
  Re.matches VMLSyntax.SECTION_START_PATTERN (line_at lines i) = true ->
  section_scan name (skipn (i + 1) lines) (i + 1) n [] = (content, j) ->
  Spec.count_section_starts (split_lines (join_lines content))
  < Spec.count_section_starts lines.
Proof.
  intros Hnl Hi Hm Hscan.
  destruct (nth_split lines EmptyString Hi) as (l1 & l2 & E & Hl1).
  fold (line_at lines i) in E.
  assert (Hskip : skipn (i + 1) lines = l2).
  { rewrite E at 1. rewrite <- Hl1. apply skipn_after. }
  rewrite Hskip in Hscan.
  apply section_scan_prefix in Hscan as (_ & pre & suf & Hc & ->).
  rewrite app_nil_l in Hc. subst content.
  rewrite E, !count_app.
  change (line_at lines i :: pre ++ suf)
    with ([line_at lines i] ++ pre ++ suf).
  rewrite !count_app.
  assert (H1 : Spec.count_section_starts [line_at lines i] = 1).
  { unfold Spec.count_section_starts. cbn [filter]. now rewrite Hm. }
  destruct pre as [|p pre].
  - change (Spec.count_section_starts (split_lines (join_lines [])))
      with 0. lia.
  - unfold split_lines, join_lines. rewrite split_join; [lia | discriminate |].
    rewrite E in Hnl. apply Forall_app in Hnl as [_ Hnl].
    inversion Hnl as [|? ? _ Hnl']; subst.
    change (Forall (no_char PyChar.newline) ((p :: pre) ++ suf)) in Hnl'.
    now apply Forall_app in Hnl' as [Hpre _].
Qed.

Section Step.
Variable section_parse : string -> outcome (list VMLElement).
Variable lines : list string.
Variable budget : nat.

Hypothesis no_newlines : Forall (no_char PyChar.newline) lines.
Hypothesis few_sections : Spec.count_section_starts lines <= budget.
Hypothesis bodies_parse :
  forall body,
    Spec.count_section_starts (split_lines body) < budget ->
    exists children, section_parse body = Returned children.

(** With the section bodies parsed, an iteration raises nothing. *)
Lemma parse_step_returns (i : nat) (md : metadata) :
  i < List.length lines ->
  exists element j md',
    parse_step section_parse lines i md = (Returned (element, j), md').
Proof.
  intros Hi. unfold parse_step.
  destruct (is_blank _); [eauto|].
  destruct (Re.matches VMLSyntax.METADATA_PATTERN _).
  { destruct (_parse_metadata_block _ _ _). eauto. }
  destruct (Re.re_match VMLSyntax.DIRECTIVE_PATTERN _) as [[dm ?]|]; [eauto|].
  destruct (Re.matches VMLSyntax.SECTION_START_PATTERN _) eqn:Hsec.
  { unfold _parse_section.
    destruct (matches_true _ _ Hsec) as (g & rest & ->).
    destruct (section_scan _ _ _ _ _) as [content k] eqn:Hscan.
    pose proof (@section_body_smaller lines i _ _ content k
                                       no_newlines Hi Hsec Hscan) as Hlt.
    destruct (bodies_parse (join_lines content)) as [children ->]; [lia|].
    eauto. }
  destruct (Re.matches VMLSyntax.HEADING_PATTERN _) eqn:Hhead.
  { unfold _parse_heading.
    destruct (matches_true _ _ Hhead) as (g & rest & ->). eauto. }
  destruct (_ && _); [|eauto].
  destruct (_parse_table lines i). eauto.
Qed.

End Step.

(** [parse] returns when it may nest as deep as the text has lines
    that open a section. *)
Lemma parse_returns (depth : nat) :
  forall text md,
    Spec.count_section_starts (split_lines text) < depth ->
    exists elements md', parse depth text md = (Returned elements, md').
Proof.
  induction depth as [|depth IH]; intros text md H; [lia|].
  cbn [parse]. apply parse_loop_returns.
  intros i md_i Hi.
  apply (@parse_step_returns _ (split_lines text) depth); try assumption.
  - apply split_parts_no_sep.
  - lia.
  - intros body Hb. destruct (IH body init Hb) as (children & md' & E).
    exists children. now rewrite E.
Qed.

End TotalFacts.

(* ================================================================= *)
(** ** Heading levels *)

Module HeadingFacts.
Import VMLParser PyStr StrFacts ParserFacts LoopFacts StepFacts.

Lemma levels_of_children (children : list VMLElement) :
  Forall Spec.levels_in_range children ->
  forall type content attributes line_number,
    type <> HEADING ->
    Spec.levels_in_range
      (Element type content attributes (Some children) line_number).
Proof.
  intros H type content attributes line_number Ht. cbn [Spec.levels_in_range].
  split; [contradiction|].
  induction H as [|x l Hx Hl IH]; [exact I | split; assumption].
Qed.

Lemma levels_of_leaf (type : VMLElementType) (content : string)
      (attributes : attrs) (line_number : nat) :
  type <> HEADING ->
  Spec.levels_in_range (Element type content attributes None line_number).
Proof. intros Ht. cbn [Spec.levels_in_range]. split; [contradiction | exact I]. Qed.

Section Step.
Variable section_parse : string -> outcome (list VMLElement).
Variable lines : list string.

Hypothesis bodies_in_range :
  forall body children,
    section_parse body = Returned children ->
    Forall Spec.levels_in_range children.

Lemma parse_step_levels (i : nat) (md : metadata) (e : VMLElement)
      (j : nat) (md' : metadata) :
  parse_step section_parse lines i md = (Returned (Some e, j), md') ->
  Spec.levels_in_range e.
Proof.
  intros H. pose proof (parse_step_element _ _ _ _ H) as [_ Hhead].
  revert H. unfold parse_step. intros H.
  destruct (is_blank _); [discriminate|].
  destruct (Re.matches VMLSyntax.METADATA_PATTERN _).
  { destruct (_parse_metadata_block _ _ _). discriminate. }
  destruct (Re.re_match VMLSyntax.DIRECTIVE_PATTERN _) as [[dm ?]|].
  { injection H as <- _ _. now apply levels_of_leaf. }
  destruct (Re.matches VMLSyntax.SECTION_START_PATTERN _).
  { unfold _parse_section in H.
    destruct (Re.re_match VMLSyntax.SECTION_START_PATTERN _) as [[g ?]|];
      [|discriminate].
    destruct (section_scan _ _ _ _ _) as [content k].
    destruct (section_parse _) as [children|] eqn:E; [|discriminate].
    injection H as <- _ _.
    apply levels_of_children; [eapply bodies_in_range; eassumption|].
    discriminate. }
  destruct (Re.matches VMLSyntax.HEADING_PATTERN _).
  { unfold _parse_heading in H.
    destruct (Re.re_match VMLSyntax.HEADING_PATTERN _) as [[g rest]|];
      [|discriminate].
    injection H as <- _ _.
    destruct (Hhead eq_refl) as (Hattr & Hrange & _).
    cbn [el_attributes] in Hattr. cbn [Spec.levels_in_range].
    split; [|exact I]. intros _. eexists. split; [exact Hattr | exact Hrange]. }
  destruct (_ && _).
  { unfold _parse_table in H. destruct (table_rows _ _ _).
    injection H as <- _ _. now apply levels_of_leaf. }
  injection H as <- _ _. now apply levels_of_leaf.
Qed.

End Step.

(** Every heading [parse] produces, at any nesting, has a level between
    one and six. *)
Lemma parse_levels (depth : nat) :
  forall text md elements md',
    parse depth text md = (Returned elements, md') ->
    Forall Spec.levels_in_range elements.
Proof.
  induction depth as [|depth IH]; intros text md elements md' H;
    [discriminate|].
  cbn [parse] in H. revert H. apply parse_loop_forall; [|constructor].
  intros i md_i e j md_j _. apply parse_step_levels.
  intros body children E.
  destruct (parse depth body init) as [[els|msg] md_b] eqn:Eb;
    cbn [fst] in E; [|discriminate].
  injection E as <-. eapply IH. eassumption.
Qed.

(** A table element is what [_parse_table] builds. *)
Lemma parse_table_type (lines : list string) (i : nat) :
  el_type (fst (_parse_table lines i)) = TABLE
  /\ el_line_number (fst (_parse_table lines i)) = i.
Proof. unfold _parse_table. now destruct (table_rows _ _ _). Qed.

End HeadingFacts.

(* ================================================================= *)
(** ** The validator on sections and emphasis *)

Import VMLParser VMLLanguageHandler.

(** C1.  The validator is meant to accept every text whose sections
    are nested with name-matched markers.  It does not: on the text
    [:: foo / content / :: /foo] (three lines), whose one section is
    opened and closed by name, it answers invalid with the diagnostic
    that [foo] is unclosed, because the scan never recognises a closing
    tag ([ScanFacts.marker_never_closing]); it rejects every text in
    which a line opens a section ([ScanFacts.validate_rejects_sections]). *)
Theorem validate_rejects_matched_section (depth : nat) (md : metadata) :
  validate_syntax (S (S depth))
                  (join_lines [":: foo"; "content"; ":: /foo"]) md
  = ((false, ["Unclosed sections: foo"]), md).
Proof. vm_compute. reflexivity. Qed.

(** C2.  On [:: foo / content / :: /bar] the validator answers invalid
    and names the unclosed section [foo], but the diagnostic for the
    unmatched closing tag [bar] on line 3, which the scan is written to
    give, is missing: the list holds the one diagnostic below. *)
Theorem validate_misses_unmatched_closing_tag (depth : nat) (md : metadata) :
  validate_syntax (S (S depth))
                  (join_lines [":: foo"; "content"; ":: /bar"]) md
  = ((false, ["Unclosed sections: foo"]), md).
Proof. vm_compute. reflexivity. Qed.

(** C5.  The one-line text [!!urgent] has an emphasis that is never
    closed, and the validator reports nothing for it (the opening and
    the closing delimiter are the same string, so their counts agree on
    every line, [ScanFacts.emphasis_never_flagged]); [!!urgent!!] is
    accepted as well. *)
Theorem validate_accepts_unclosed_emphasis (depth : nat) (md : metadata) :
  validate_syntax (S depth) "!!urgent" md = ((true, []), md)
  /\ validate_syntax (S depth) "!!urgent!!" md = ((true, []), md).
Proof. split; vm_compute; reflexivity. Qed.

(* ================================================================= *)
(** ** The parser instance between calls *)

(** C3.  A second [parse] on the same instance returns the element
    list a fresh parser returns, but not its metadata mapping: [parse]
    empties [self.elements] and leaves [self.metadata] as the call
    before left it ([LoopFacts.parse_elements_fresh] is the half that
    holds).  After a first text with a metadata block, the mapping of a
    text without one still holds the old title. *)
Theorem metadata_survives_between_calls (depth : nat) :
  let first := join_lines ["---"; "title: Old"; "---"] in
  let second := "text" in
  let used := snd (parse (S depth) first init) in
  parse (S depth) second used
  = (Returned [Element PARAGRAPH "text" [] None 0], [("title", "Old")])
  /\ parse (S depth) second init
     = (Returned [Element PARAGRAPH "text" [] None 0], []).
Proof. vm_compute. split; reflexivity. Qed.

(* ================================================================= *)
(** ** Inline substitution *)

(** C6.  The inline substitution of the parser is the cascade of the
    specification: variables, templates, annotations, the custom
    markup pairs in the order emphasis, context, note, warning,
    success, code reference, then bold, italic and inline code, each
    applied to the output of those before it. *)
Theorem inline_elements_cascade (text : string) :
  _process_inline_elements text = Spec.inline_cascade text.
Proof. reflexivity. Qed.

(** The order can be seen in the output: bold before italic turns
    [**a**] into a bold [a]; italic before bold would not. *)
Lemma substitution_order_is_observable :
  _process_inline_elements "**a**" = "<b>a</b>"
  /\ Spec.substitute
       (Spec.substitute "**a**" (VMLSyntax.ITALIC_PATTERN, "i"))
       (VMLSyntax.BOLD_PATTERN, "b")
     = "<i>*a</i>*"
  /\ _process_inline_elements "/!${x}!/"
     = "<warning><var>x</var></warning>".
Proof. vm_compute. repeat split. Qed.

(* ================================================================= *)
(** ** The formatter *)

(** C8.  When [parse] raises on a text, [format_code] returns the text
    as it is. *)
Theorem format_code_returns_input_on_error
        (depth : nat) (X : string) (md md' : metadata) (msg : string) :
  parse depth X md = (Raised msg, md') ->
  fst (format_code depth X md) = X.
Proof. intros H. unfold format_code. rewrite H. reflexivity. Qed.

Lemma format_code_returns_input_on_error_witness :
  parse 1 (join_lines [":: a"; "b"]) init = (Raised recursion_error, init)
  /\ fst (format_code 1 (join_lines [":: a"; "b"]) init)
     = join_lines [":: a"; "b"].
Proof.
  split; [reflexivity|].
  apply (format_code_returns_input_on_error
           1 (join_lines [":: a"; "b"]) init (md' := init)
           (msg := recursion_error)).
  reflexivity.
Defined.

(* ================================================================= *)
(** ** Metadata blocks *)

(** C4, as the specification states it, fails: the pairs of a second
    delimited block do reach the metadata mapping. *)
Lemma second_metadata_block_is_read :
  let text := join_lines ["---"; "a: 1"; "---"; "text";
                          "---"; "b: 2"; "---"] in
  snd (parse 1 text init) = [("a", "1"); ("b", "2")]
  /\ PyDict.get "b" (snd (parse 1 text init)) = Some "2".
Proof. vm_compute. split; reflexivity. Qed.

(** C4, amended.  Every delimited metadata block the loop meets is
    merged into the metadata mapping, in order, not the first alone:
    for a text made of a delimited block, a run of plain lines and a
    second delimited block, the mapping afterwards is the mapping
    before with the pairs of the first block and then the pairs of the
    second block assigned to it (a pair of the second block replaces
    the value of an equal key of the first); the elements are the
    paragraphs of the run. *)
Theorem metadata_blocks_accumulate
        (depth : nat) (d1 d2 d3 d4 : string)
        (block1 middle block2 : list string) (md : metadata) :
  Forall (fun d => Spec.is_delimiter d = true) [d1; d2; d3; d4] ->
  Forall (fun l => Spec.is_delimiter l = false) (block1 ++ block2) ->
  Forall (fun l => Spec.plain l = true) middle ->
  Forall (PyStr.no_char PyChar.newline)
         ([d1; d2; d3; d4] ++ block1 ++ middle ++ block2) ->
  parse (S depth)
        (join_lines
           ([d1] ++ block1 ++ [d2] ++ middle ++ [d3] ++ block2 ++ [d4]))
        md
  = (Returned (Spec.paragraphs_from (List.length block1 + 2) middle),
     _process_metadata block2 (_process_metadata block1 md)).
Proof.
  intros Hd Hb Hm Hnl.
  apply Forall_app in Hb as [Hb1 Hb2].
  apply Forall_app in Hnl as [Hnd Hnl]. apply Forall_app in Hnl as [Hn1 Hnl].
  apply Forall_app in Hnl as [Hnm Hn2].
  inversion Hd as [|? ? D1 Hd']; subst. inversion Hd' as [|? ? D2 Hd'']; subst.
  inversion Hd'' as [|? ? D3 Hd3]; subst. inversion Hd3 as [|? ? D4 _]; subst.
  inversion Hnd as [|? ? N1 Hn']; subst. inversion Hn' as [|? ? N2 Hn'']; subst.
  inversion Hn'' as [|? ? N3 Hn3]; subst. inversion Hn3 as [|? ? N4 _]; subst.
  set (lines := [d1] ++ block1 ++ [d2] ++ middle ++ [d3] ++ block2 ++ [d4]).
  cbn [parse]. unfold split_lines, join_lines.
  rewrite StrFacts.split_join;
    [| discriminate
     | unfold lines;
       repeat (apply Forall_app; split);
       solve [assumption | repeat (constructor; try assumption)]].
  fold lines.
  set (sp := fun body : string => fst (parse depth body init)).
  assert (Hlen : List.length lines
                 = List.length block1 + List.length middle
                   + List.length block2 + 4).
  { unfold lines. rewrite !length_app. simpl. lia. }
  (* the first block, at index 0 *)
  rewrite (@ParserFacts.parse_loop_over_block
             sp lines [] d1 block1 d2 (middle ++ [d3] ++ block2 ++ [d4]));
    [| reflexivity | reflexivity | lia | assumption | assumption
     | assumption].
  (* the run of plain lines *)
  rewrite (@ParserFacts.parse_loop_over_plain_run
             sp lines (d1 :: block1 ++ [d2]) middle ([d3] ++ block2 ++ [d4]));
    [| unfold lines; simpl; now rewrite <- app_assoc
     | simpl; rewrite length_app; simpl; lia
     | lia
     | assumption
     | now apply ParserFacts.delimiter_not_separator].
  (* the second block *)
  rewrite (@ParserFacts.parse_loop_over_block
             sp lines ((d1 :: block1 ++ [d2]) ++ middle) d3 block2 d4 []);
    [| unfold lines; simpl; now rewrite <- !app_assoc
     | rewrite !length_app; simpl; rewrite length_app; simpl; lia
     | lia | assumption | assumption | assumption].
  rewrite ParserFacts.parse_loop_done by (rewrite Hlen; simpl; lia).
  reflexivity.
Qed.

Lemma metadata_blocks_accumulate_witness :
  parse 1 (join_lines (["---"] ++ ["a: 1"] ++ ["--- "] ++ ["text"; ""]
                         ++ ["---"] ++ ["b: 2"; "a: 3"] ++ ["---"])) init
  = (Returned [Element PARAGRAPH "text" [] None 3],
     [("a", "3"); ("b", "2")]).
Proof.
  apply (@metadata_blocks_accumulate
           0 "---" "--- " "---" "---" ["a: 1"] ["text"; ""]
           ["b: 2"; "a: 3"] init).
  - repeat constructor.
  - repeat constructor.
  - repeat constructor.
  - repeat constructor.
Defined.

(* ================================================================= *)
(** ** Attribute strings *)

(** C9, as the specification states it, fails: a value written with
    doubled surrounding quotes keeps none of them, where stripping one
    layer would keep the inner pair. *)
Lemma doubled_quotes_are_all_stripped :
  _parse_attributes "k=''v''" = [("k", PStr "v")]
  /\ Spec.parse_attributes_one_layer "k=''v''" = [("k", PStr "'v'")]
  /\ _parse_attributes "k=''v''" <> Spec.parse_attributes_one_layer "k=''v''".
Proof. vm_compute. repeat split; discriminate. Qed.

(** C9, amended.  The empty attribute string gives the empty mapping.
    A non-empty one is split on commas into tokens; a token without
    [=] maps its trimmed text to [True], a token with [=] maps the
    trimmed text before its first [=] to the trimmed text after it with
    every leading and trailing quote character stripped (what is left
    neither starts nor ends with a quote); of several tokens with one
    key the last decides the value. *)
Theorem parse_attributes_tokens
        (attr_string : string) (before : list string) (token : string)
        (after : list string) :
  attr_string <> EmptyString ->
  PyStr.split "," attr_string = before ++ token :: after ->
  Forall (fun t => Spec.token_key t <> Spec.token_key token) after ->
  _parse_attributes EmptyString = PyDict.empty PyVal
  /\ PyDict.get (Spec.token_key token) (_parse_attributes attr_string)
     = Some (Spec.token_value token)
  /\ (PyStr.contains "=" token = false ->
      Spec.token_key token = PyStr.strip token
      /\ Spec.token_value token = PBool true)
  /\ (PyStr.contains "=" token = true ->
      Spec.token_key token = PyStr.strip (fst (PyStr.split_once "=" token))
      /\ Spec.token_value token = PStr (Spec.token_text token)
      /\ (exists pre suf,
             PyStr.strip (snd (PyStr.split_once "=" token))
             = (pre ++ Spec.token_text token ++ suf)%string
             /\ PyStr.all_chars Spec.is_quote pre = true
             /\ PyStr.all_chars Spec.is_quote suf = true)
      /\ Spec.no_outer_quote (Spec.token_text token)).
Proof.
  intros Hne Hsplit Hafter.
  split; [reflexivity|]. split; [|split].
  - unfold _parse_attributes.
    destruct (String.eqb_spec attr_string EmptyString); [contradiction|].
    rewrite Hsplit, fold_left_app. cbn [fold_left].
    rewrite AttrFacts.fold_add_attribute_other by assumption.
    rewrite AttrFacts.add_attribute_sets. apply AttrFacts.get_set_same.
  - intros H. unfold Spec.token_key, Spec.token_value. now rewrite H.
  - intros H. unfold Spec.token_key, Spec.token_value. rewrite H.
    split; [reflexivity|]. split; [reflexivity|].
    destruct (AttrFacts.strip_by_spec
                Spec.is_quote
                (PyStr.strip (snd (PyStr.split_once "=" token))))
      as (Hdec & Hhead & Hlast).
    split; [exact Hdec|]. split; [exact Hhead | exact Hlast].
Qed.

Lemma parse_attributes_tokens_witness :
  PyDict.get "a" (_parse_attributes "a=1, b, a=''x''") = Some (PStr "x").
Proof.
  apply (@parse_attributes_tokens
           "a=1, b, a=''x''" ["a=1"; " b"] " a=''x''" []).
  - discriminate.
  - reflexivity.
  - constructor.
Defined.

(* ================================================================= *)
(** ** The structural scan in closed form *)

Module ValidateFacts.
Import VMLSyntax VMLParser VMLLanguageHandler.

Lemma check_markup_fold (i : nat) (line : string)
      (items : list (string * (string * string))) :
  forall errors,
    fold_left (check_markup i line) items errors
    = errors ++ flat_map (Props.markup_diagnostic i line) items.
Proof.
  induction items as [|[markup_type [start stop]] items IH]; intros errors.
  - simpl. now rewrite app_nil_r.
  - cbn [fold_left flat_map]. rewrite IH.
    unfold check_markup, Props.markup_diagnostic.
    destruct (PyStr.count start line =? PyStr.count stop line);
      cbn [negb app]; [reflexivity | now rewrite <- app_assoc].
Qed.

(** The scan only pushes names and appends markup diagnostics. *)
Lemma scan_lines_closed_form (lines : list string) :
  forall i open_sections errors,
    scan_lines lines i open_sections errors
    = (open_sections ++ Props.marked_names lines,
       errors ++ Props.markup_diagnostics lines i).
Proof.
  induction lines as [|line lines IH]; intros i os errs.
  - simpl. now rewrite !app_nil_r.
  - cbn [scan_lines]. rewrite ScanFacts.check_section_pushes.
    unfold Props.marked_names. cbn [flat_map Props.markup_diagnostics].
    fold (Props.marked_names lines).
    destruct (Re.re_match SECTION_MARKER line) as [[m rest]|];
      rewrite check_markup_fold, IH; now rewrite <- !app_assoc.
Qed.

Lemma markup_diagnostic_nil (i : nat) (line : string)
      (items : list (string * (string * string))) :
  flat_map (Props.markup_diagnostic i line) items = []
  <-> forallb (fun item : string * (string * string) =>
                 PyStr.count (fst (snd item)) line
                 =? PyStr.count (snd (snd item)) line) items = true.
Proof.
  induction items as [|[markup_type [start stop]] items IH]; simpl;
    [tauto|].
  destruct (PyStr.count start line =? PyStr.count stop line); simpl.
  - exact IH.
  - split; intros H; discriminate.
Qed.

Lemma markup_diagnostics_nil (lines : list string) :
  forall i,
    Props.markup_diagnostics lines i = []
    <-> Forall (fun l => Props.balanced l = true) lines.
Proof.
  induction lines as [|line lines IH]; intros i;
    cbn [Props.markup_diagnostics].
  - split; [constructor | reflexivity].
  - split.
    + intros H. apply app_eq_nil in H as [H1 H2].
      constructor; [now apply markup_diagnostic_nil in H1 | now apply IH in H2].
    + intros H. inversion H as [|? ? Hb Hl]; subst.
      apply (markup_diagnostic_nil i) in Hb. apply (IH (i + 1)) in Hl.
      now rewrite Hb, Hl.
Qed.

Lemma marked_names_nil (lines : list string) :
  Props.marked_names lines = []
  <-> Forall (fun l => Re.matches SECTION_MARKER l = false) lines.
Proof.
  unfold Props.marked_names, Re.matches.
  induction lines as [|line lines IH]; simpl.
  - split; [constructor | reflexivity].
  - destruct (Re.re_match SECTION_MARKER line) as [[m rest]|] eqn:E; simpl.
    + split; [discriminate|]. intros H. inversion H as [|? ? Hl _]; subst.
      rewrite E in Hl. discriminate.
    + rewrite IH. split; intros H.
      * constructor; [now rewrite E | exact H].
      * now inversion H.
Qed.

End ValidateFacts.

(* ================================================================= *)
(** ** More on the validator *)

(** The diagnostics of the validator, when [parse] returns: the markup
    diagnostics of the lines in line order, then, if any line has a
    section marker, one diagnostic that lists the name after every
    marker as unclosed.  No other diagnostic is ever given. *)
Theorem validate_diagnostics_closed_form
        (depth : nat) (code : string) (md : metadata)
        (elements : list VMLElement) (md' : metadata) :
  parse depth code md = (Returned elements, md') ->
  let errors :=
    Props.markup_diagnostics (split_lines code) 0
      ++ Props.unclosed_diagnostic (Props.marked_names (split_lines code)) in
  validate_syntax depth code md
  = ((match errors with [] => true | _ => false end, errors), md').
Proof.
  intros H. unfold validate_syntax. rewrite H.
  rewrite ValidateFacts.scan_lines_closed_form. cbn [List.app].
  unfold Props.unclosed_diagnostic.
  destruct (Props.marked_names (split_lines code)) as [|n names].
  - rewrite app_nil_r.
    now destruct (Props.markup_diagnostics (split_lines code) 0).
  - set (d := Props.markup_diagnostics (split_lines code) 0).
    set (u := ("Unclosed sections: " ++ PyStr.join ", " (n :: names))%string).
    destruct (d ++ [u]) eqn:E; [|reflexivity].
    apply app_eq_nil in E as [_ E]. discriminate.
Qed.

Lemma validate_diagnostics_closed_form_witness :
  validate_syntax 2 (join_lines [":: a"; "x <~ y"; ":: /a"; ":: b"]) init
  = ((false, ["Line 2: Unclosed context markup"; "Unclosed sections: a, b"]),
     init).
Proof.
  apply (@validate_diagnostics_closed_form
           2 (join_lines [":: a"; "x <~ y"; ":: /a"; ":: b"]) init
           [Element SECTION "a" [("name", PStr "a")]
                    (Some [Element PARAGRAPH "x <~ y" [] None 0]) 0;
            Element SECTION "b" [("name", PStr "b")] (Some []) 3]
           init).
  vm_compute. reflexivity.
Defined.

(** When [parse] returns, the validator accepts a text exactly when no
    line has a section marker and every line has, for every markup
    pair, as many opening as closing strings. *)
Theorem validate_accepts_iff
        (depth : nat) (code : string) (md : metadata)
        (elements : list VMLElement) (md' : metadata) :
  parse depth code md = (Returned elements, md') ->
  fst (fst (validate_syntax depth code md)) = true
  <-> Forall (fun l => Re.matches SECTION_MARKER l = false
                       /\ Props.balanced l = true)
             (split_lines code).
Proof.
  intros H. unfold validate_syntax. rewrite H.
  rewrite ValidateFacts.scan_lines_closed_form. cbn [List.app fst].
  pose proof (ValidateFacts.marked_names_nil (split_lines code)) as Hn.
  pose proof (ValidateFacts.markup_diagnostics_nil (split_lines code) 0)
    as Hd.
  assert (Hboth :
            Forall (fun l => Re.matches SECTION_MARKER l = false
                             /\ Props.balanced l = true) (split_lines code)
            <-> Forall (fun l => Re.matches SECTION_MARKER l = false)
                       (split_lines code)
                /\ Forall (fun l => Props.balanced l = true)
                          (split_lines code)).
  { split; [apply Forall_and_inv | intros []; now apply Forall_and]. }
  rewrite Hboth.
  destruct (Props.marked_names (split_lines code)) as [|n names].
  - destruct (Props.markup_diagnostics (split_lines code) 0) as [|d ds].
    + split; [|reflexivity]. intros _. split; [now apply Hn | now apply Hd].
    + split; [discriminate|]. intros [_ Hb]. apply Hd in Hb. discriminate.
  - rewrite length_app, Nat.add_1_r. cbn [Nat.eqb].
    split; [discriminate|]. intros [Hm _]. apply Hn in Hm. discriminate.
Qed.

Lemma validate_accepts_iff_witness :
  fst (fst (validate_syntax 1 (join_lines ["# t"; "a <~b~> !!c"]) init))
  = true.
Proof.
  apply (proj2 (@validate_accepts_iff
                  1 (join_lines ["# t"; "a <~b~> !!c"]) init
                  [Element HEADING "t" [("level", PInt 1)] None 0;
                   Element PARAGRAPH "a <context>b</context> !!c" [] None 1]
                  init eq_refl)).
  repeat constructor.
Defined.

(* ================================================================= *)
(** ** What [parse] leaves alone *)

Module FrameFacts.
Import VMLSyntax VMLParser.

Lemma line_at_in (lines : list string) (i : nat) :
  i < List.length lines -> In (line_at lines i) lines.
Proof. intros H. unfold line_at. now apply nth_In. Qed.

Section Loop.
Variable section_parse : string -> outcome (list VMLElement).
Variable lines : list string.

(** Only the iteration at a delimiter line touches the metadata. *)
Lemma parse_step_keeps_metadata (i : nat) (md : metadata) :
  Spec.is_delimiter (line_at lines i) = false ->
  snd (parse_step section_parse lines i md) = md.
Proof.
  unfold Spec.is_delimiter, parse_step. intros H. rewrite H.
  destruct (is_blank _); [reflexivity|].
  destruct (Re.re_match DIRECTIVE_PATTERN _) as [[dm ?]|]; [reflexivity|].
  destruct (Re.matches SECTION_START_PATTERN _).
  { now destruct (_parse_section _ _ _) as [[e j]|]. }
  destruct (Re.matches HEADING_PATTERN _).
  { now destruct (_parse_heading _ _). }
  destruct (_ && _); [|reflexivity].
  now destruct (_parse_table _ _).
Qed.

Lemma parse_loop_keeps_metadata (gas : nat) :
  Forall (fun l => Spec.is_delimiter l = false) lines ->
  forall i acc md,
    snd (parse_loop section_parse gas lines i acc md) = md.
Proof.
  intros Hall. rewrite Forall_forall in Hall.
  induction gas as [|gas IH]; intros i acc md; simpl;
    destruct (Nat.leb_spec (List.length lines) i) as [Hend|Hin];
    try reflexivity.
  pose proof (parse_step_keeps_metadata i md (Hall _ (line_at_in _ Hin)))
    as Hstep.
  destruct (parse_step section_parse lines i md) as [[[e j]|msg] md1];
    cbn [snd] in Hstep; subst md1; [apply IH | reflexivity].
Qed.

(** The line numbers the loop has given are below the index it stands
    at, and grow. *)
Lemma parse_loop_line_numbers (gas : nat) :
  forall i acc md elements md_end,
    StronglySorted lt (map el_line_number acc) ->
    Forall (fun e => el_line_number e < i) acc ->
    Forall (fun e => el_line_number e < List.length lines) acc ->
    parse_loop section_parse gas lines i acc md = (Returned elements, md_end) ->
    StronglySorted lt (map el_line_number elements)
    /\ Forall (fun e => el_line_number e < List.length lines) elements.
Proof.
  induction gas as [|gas IH]; intros i acc md elements md_end Hs Hi Hlen H;
    simpl in H;
    destruct (Nat.leb_spec (List.length lines) i) as [Hend|Hin];
    try (injection H as <- <-; split; assumption).
  destruct (parse_step section_parse lines i md)
    as [[[element j]|msg] md1] eqn:Hstep; [|discriminate].
  pose proof (ParserFacts.parse_step_advances _ _ _ _ Hstep) as Hadv.
  revert H. apply IH.
  - destruct element as [e|]; cbn [append_element]; [|assumption].
    apply StepFacts.parse_step_element in Hstep as [Hline _].
    rewrite map_app. cbn [map]. rewrite Hline.
    clear - Hs Hi. induction acc as [|a acc IHacc]; cbn [map List.app].
    + repeat constructor.
    + inversion Hs as [|? ? Hs' Ha]; subst.
      inversion Hi as [|? ? Hai Hi']; subst.
      constructor; [now apply IHacc|].
      apply Forall_app. split; [assumption | now repeat constructor].
  - destruct element as [e|]; cbn [append_element].
    + apply StepFacts.parse_step_element in Hstep as [Hline _].
      apply Forall_app. split.
      * eapply Forall_impl; [|exact Hi]. cbv beta. intros; lia.
      * repeat constructor. lia.
    + eapply Forall_impl; [|exact Hi]. cbv beta. intros; lia.
  - destruct element as [e|]; cbn [append_element]; [|assumption].
    apply StepFacts.parse_step_element in Hstep as [Hline _].
    apply Forall_app. split; [assumption|]. repeat constructor. lia.
Qed.

End Loop.

(** Joining what [split] gave restores the text. *)
Lemma join_split (sep : ascii) (s : string) :
  PyStr.join (String sep EmptyString) (PyStr.split sep s) = s.
Proof.
  induction s as [|c s IH]; [reflexivity|]. cbn [PyStr.split].
  pose proof (StrFacts.split_not_nil sep s) as Hne.
  destruct (Ascii.eqb_spec c sep) as [->|Hc];
    destruct (PyStr.split sep s) as [|w ws]; try contradiction.
  - change (PyStr.join (String sep "") ("" :: w :: ws))
      with (String sep (PyStr.join (String sep "") (w :: ws))).
    now rewrite IH.
  - destruct ws as [|w' ws].
    + cbn [PyStr.join] in *. now rewrite IH.
    + change (PyStr.join (String sep "") (String c w :: w' :: ws))
        with (String c (w ++ String sep (PyStr.join (String sep "") (w' :: ws)))).
      change (PyStr.join (String sep "") (w :: w' :: ws))
        with (w ++ String sep (PyStr.join (String sep "") (w' :: ws)))%string
        in IH.
      now rewrite IH.
Qed.

Lemma lstrip_app_all (p : ascii -> bool) (pre rest : string) :
  PyStr.all_chars p pre = true ->
  PyStr.lstrip_by p (pre ++ rest) = PyStr.lstrip_by p rest.
Proof.
  induction pre as [|c pre IH]; simpl; intros H; [reflexivity|].
  apply andb_prop in H as [Hc Hpre]. now rewrite Hc, IH.
Qed.

Lemma rstrip_app_all (p : ascii -> bool) (s pad : string) :
  PyStr.all_chars p pad = true ->
  PyStr.rstrip_by p (s ++ pad) = PyStr.rstrip_by p s.
Proof.
  intros H. unfold PyStr.rstrip_by. rewrite StrFacts.rev_app.
  now rewrite lstrip_app_all by (now rewrite StrFacts.all_chars_rev).
Qed.

(** A delimiter line is three dashes and white space. *)
Lemma delimiter_strip (line : string) :
  Spec.is_delimiter line = true -> PyStr.strip line = "---".
Proof.
  unfold Spec.is_delimiter, METADATA_PATTERN.
  ReFacts.run_pattern. intros H.
  destruct line as [|c1 line]; [discriminate|].
  destruct (Ascii.eqb_spec "-" c1) as [<-|]; [|discriminate].
  destruct line as [|c2 line]; [discriminate|].
  destruct (Ascii.eqb_spec "-" c2) as [<-|]; [|discriminate].
  destruct line as [|c3 line]; [discriminate|].
  destruct (Ascii.eqb_spec "-" c3) as [<-|]; [|discriminate].
  destruct (Re.rep _ _ _ _ _ _) as [[g rest]|] eqn:E; [|discriminate].
  apply ReFacts.rep_sound in E as (ws & tail & -> & Hws & _ & _ & E).
  assert (Htail : PyStr.all_chars PyChar.is_space tail = true).
  { destruct tail as [|t tail]; [reflexivity|].
    destruct tail as [|? ?]; cbn [Re.at_end] in E; [|discriminate].
    destruct (Ascii.eqb_spec t PyChar.newline) as [->|]; [reflexivity|].
    discriminate. }
  assert (Hall : PyStr.all_chars PyChar.is_space (ws ++ tail) = true)
    by (now rewrite StrFacts.all_chars_app, Hws, Htail).
  change (PyStr.strip (String "-" (String "-" (String "-" (ws ++ tail)))))
    with (PyStr.rstrip_by PyChar.is_space ("---" ++ (ws ++ tail))).
  now rewrite rstrip_app_all.
Qed.

Lemma parse_keeps_metadata (depth : nat) (text : string) (md : metadata) :
  Forall (fun l => Spec.is_delimiter l = false) (split_lines text) ->
  snd (parse depth text md) = md.
Proof.
  intros H. destruct depth as [|depth]; [reflexivity|]. cbn [parse].
  now apply parse_loop_keeps_metadata.
Qed.

End FrameFacts.

(** The metadata of the parser changes at delimiter lines only: a text
    without one leaves it as it was, whether [parse] returns or
    raises. *)
Theorem parse_without_delimiter_keeps_metadata
        (depth : nat) (text : string) (md : metadata) :
  Forall (fun l => Spec.is_delimiter l = false) (split_lines text) ->
  snd (parse depth text md) = md.
Proof. apply FrameFacts.parse_keeps_metadata. Qed.

Lemma parse_without_delimiter_keeps_metadata_witness :
  snd (parse 1 (join_lines ["# a"; ":: s"; "-- x"]) [("title", "Old")])
  = [("title", "Old")].
Proof.
  apply (@parse_without_delimiter_keeps_metadata
           1 (join_lines ["# a"; ":: s"; "-- x"]) [("title", "Old")]).
  repeat constructor.
Defined.

(** The list [parse] returns, or the exception it raises, does not
    depend on the metadata the parser holds from earlier calls. *)
Theorem parse_result_ignores_metadata
        (depth : nat) (text : string) (md1 md2 : metadata) :
  fst (parse depth text md1) = fst (parse depth text md2).
Proof. apply LoopFacts.parse_elements_fresh. Qed.

(** The elements [parse] returns carry line numbers that grow along
    the list and are indices of lines of the text. *)
Theorem parse_line_numbers_increase
        (depth : nat) (text : string) (md : metadata)
        (elements : list VMLElement) (md' : metadata) :
  parse depth text md = (Returned elements, md') ->
  StronglySorted lt (map el_line_number elements)
  /\ Forall (fun e => el_line_number e < List.length (split_lines text))
            elements.
Proof.
  destruct depth as [|depth]; [discriminate|]. cbn [parse].
  apply FrameFacts.parse_loop_line_numbers; constructor.
Qed.

Lemma parse_line_numbers_increase_witness :
  StronglySorted lt [0; 2; 5]
  /\ Forall (fun e => el_line_number e < 6)
            [Element HEADING "t" [("level", PInt 1)] None 0;
             Element SECTION "s" [("name", PStr "s")]
                     (Some [Element PARAGRAPH "x" [] None 0]) 2;
             Element PARAGRAPH "y" [] None 5].
Proof.
  apply (@parse_line_numbers_increase
           2 (join_lines ["# t"; ""; ":: s"; "x"; ":: /s"; "y"]) init
           [Element HEADING "t" [("level", PInt 1)] None 0;
            Element SECTION "s" [("name", PStr "s")]
                    (Some [Element PARAGRAPH "x" [] None 0]) 2;
            Element PARAGRAPH "y" [] None 5]
           init).
  reflexivity.
Defined.

(* ================================================================= *)
(** ** Texts the formatter leaves alone *)

Module FormatFacts.
Import VMLSyntax VMLParser VMLLanguageHandler.

Lemma format_lines_kept (lines : list string) :
  Forall (fun l => PyStr.strip l <> "---"
                   /\ Re.matches HEADING_START l = false) lines ->
  forall formatted_lines,
    fold_left format_line lines formatted_lines = formatted_lines ++ lines.
Proof.
  induction 1 as [|line lines [Hd Hh] _ IH]; intros acc; cbn [fold_left].
  - now rewrite app_nil_r.
  - rewrite IH. unfold format_line.
    destruct (String.eqb_spec (PyStr.strip line) "---"); [contradiction|].
    rewrite Hh. now rewrite <- app_assoc.
Qed.

End FormatFacts.

(** A text in which no line is three dashes (white space around them
    aside) and no line starts like a heading comes back from
    [format_code] character for character, when the parser of the
    handler holds no metadata; and the parser holds none afterwards. *)
Theorem format_code_fixed_point (depth : nat) (code : string) :
  Forall (fun l => PyStr.strip l <> "---"
                   /\ Re.matches HEADING_START l = false)
         (split_lines code) ->
  format_code depth code init = (code, init).
Proof.
  intros H. unfold format_code.
  assert (Hmd : snd (parse depth code init) = init).
  { apply FrameFacts.parse_keeps_metadata.
    eapply Forall_impl; [|exact H]. cbv beta. intros l [Hd _].
    destruct (Spec.is_delimiter l) eqn:E; [|reflexivity].
    apply FrameFacts.delimiter_strip in E. contradiction. }
  destruct (parse depth code init) as [[elements|msg] md'];
    cbn [snd] in Hmd; subst md'; [|reflexivity].
  change (metadata_header init) with (@nil string).
  rewrite FormatFacts.format_lines_kept by assumption.
  cbn [List.app]. unfold join_lines, split_lines.
  now rewrite FrameFacts.join_split.
Qed.

Lemma format_code_fixed_point_witness :
  format_code 2 (join_lines [":: s"; "text **b**"; ":: /s"; ""; "| a |"])
              init
  = (join_lines [":: s"; "text **b**"; ":: /s"; ""; "| a |"], init).
Proof.
  apply (@format_code_fixed_point
           2 (join_lines [":: s"; "text **b**"; ":: /s"; ""; "| a |"])).
  repeat constructor; discriminate.
Defined.

(* ================================================================= *)
(** ** Where a section ends *)

Module SectionFacts.
Import VMLSyntax VMLParser PyStr.

(** A line that opens a section starts with two colons. *)
Lemma opens_shape (line : string) :
  Props.opens line = true ->
  exists rest, line = String ":" (String ":" rest).
Proof.
  unfold Props.opens, SECTION_START_PATTERN. ReFacts.run_pattern. intros H.
  destruct line as [|c1 line]; [discriminate|].
  destruct (Ascii.eqb_spec ":" c1) as [<-|]; [|discriminate].
  destruct line as [|c2 line]; [discriminate|].
  destruct (Ascii.eqb_spec ":" c2) as [<-|]; [|discriminate].
  eauto.
Qed.

Lemma word_is_not_space (c : ascii) :
  PyChar.is_word c = true -> PyChar.is_space c = false.
Proof.
  intros H. destruct c as [[] [] [] [] [] [] [] []];
    try reflexivity; discriminate H.
Qed.

(** The white space after the two colons, then a word character. *)
Lemma opens_then_word (line : string) :
  Props.opens line = true ->
  exists ws w rest,
    line = String ":" (String ":" (ws ++ String w rest))
    /\ all_chars PyChar.is_space ws = true /\ PyChar.is_word w = true.
Proof.
  unfold Props.opens, SECTION_START_PATTERN. ReFacts.run_pattern. intros H.
  destruct line as [|c1 line]; [discriminate|].
  destruct (Ascii.eqb_spec ":" c1) as [<-|]; [|discriminate].
  destruct line as [|c2 line]; [discriminate|].
  destruct (Ascii.eqb_spec ":" c2) as [<-|]; [|discriminate].
  destruct (Re.rep _ _ _ _ _ _) as [[g rest]|] eqn:E; [|discriminate].
  apply ReFacts.rep_sound in E as (ws & s1 & -> & Hws & _ & _ & E).
  apply ReFacts.rep_sound in E as (w & s2 & -> & Hw & Hlo & _ & _).
  destruct w as [|w0 w]; [simpl in Hlo; lia|].
  cbn [all_chars] in Hw. apply andb_prop in Hw as [Hw0 _].
  exists ws, w0, (w ++ s2)%string. auto.
Qed.

(** The white space after the two colons, then a slash. *)
Lemma closes_then_slash (name line : string) :
  Props.closes name line = true ->
  exists ws rest,
    line = String ":" (String ":" (ws ++ String "/" rest))
    /\ all_chars PyChar.is_space ws = true.
Proof.
  unfold Props.closes, SECTION_END_PATTERN. ReFacts.run_pattern. intros H.
  destruct line as [|c1 line]; [discriminate|].
  destruct (Ascii.eqb_spec ":" c1) as [<-|]; [|discriminate].
  destruct line as [|c2 line]; [discriminate|].
  destruct (Ascii.eqb_spec ":" c2) as [<-|]; [|discriminate].
  destruct (Re.rep _ _ _ _ _ _) as [[g rest]|] eqn:E; [|discriminate].
  apply ReFacts.rep_sound in E as (ws & s1 & -> & Hws & _ & _ & E).
  destruct s1 as [|c3 s1]; [discriminate|].
  destruct (Ascii.eqb_spec "/" c3) as [<-|]; [|discriminate].
  eauto.
Qed.

Lemma same_length_same_next (ws ws' : string) (x y : ascii)
      (r r' : string) :
  String.length ws = String.length ws' ->
  (ws ++ String x r)%string = (ws' ++ String y r')%string -> x = y.
Proof.
  revert ws'. induction ws as [|a ws IH]; intros [|b ws'] Hlen E;
    try discriminate; cbn [String.append] in E.
  - now injection E.
  - injection E as _ E. injection Hlen as Hlen. eapply IH; eassumption.
Qed.

(** No line both opens a section and closes one. *)
Lemma closes_not_opens (name line : string) :
  Props.closes name line = true -> Props.opens line = false.
Proof.
  intros Hc. destruct (Props.opens line) eqn:Ho; [|reflexivity].
  apply closes_then_slash in Hc as (ws & rest & E & Hws).
  apply opens_then_word in Ho as (ws' & w & rest' & E' & Hws' & Hw).
  rewrite E in E'. injection E' as E'.
  assert (Hl : run_length PyChar.is_space (ws ++ String "/" rest)
               = run_length PyChar.is_space (ws' ++ String w rest'))
    by now rewrite E'.
  rewrite !ReFacts.run_length_app in Hl by assumption.
  rewrite (ReFacts.run_length_stop PyChar.is_space "/" rest eq_refl) in Hl.
  rewrite (ReFacts.run_length_stop PyChar.is_space w rest'
                                   (word_is_not_space w Hw)) in Hl.
  assert (Hlen : String.length ws = String.length ws') by lia.
  pose proof (same_length_same_next _ _ _ _ _ _ Hlen E') as Hx.
  subst w. discriminate Hw.
Qed.

Lemma count_cons (line : string) (lines : list string) :
  Spec.count_section_starts (line :: lines)
  = (if Props.opens line then 1 else 0) + Spec.count_section_starts lines.
Proof.
  unfold Spec.count_section_starts, Props.opens. cbn [filter].
  now destruct (Re.matches SECTION_START_PATTERN line).
Qed.

(** Over lines that do not close the section the scan takes every
    line and counts the sections they open. *)
Lemma section_scan_run (name : string) (run : list string) :
  forall rest i n acc,
    Forall (fun l => Props.closes name l = false) run ->
    1 <= n ->
    section_scan name (run ++ rest) i n acc
    = section_scan name rest (i + List.length run)
                   (n + Spec.count_section_starts run) (acc ++ run).
Proof.
  induction run as [|line run IH]; intros rest i n acc Hrun Hn.
  - cbn [List.app List.length]. unfold Spec.count_section_starts.
    cbn [filter List.length]. now rewrite !Nat.add_0_r, app_nil_r.
  - inversion Hrun as [|? ? Hline Hrun']; subst.
    cbn [List.app section_scan]. rewrite count_cons.
    destruct (Nat.eqb_spec n 0); [lia|].
    unfold Props.closes in Hline. unfold Props.opens.
    destruct (Re.matches SECTION_START_PATTERN line).
    + rewrite IH by (assumption || lia). cbn [List.length].
      rewrite <- app_assoc. f_equal; lia.
    + assert (Hgo : section_scan name (run ++ rest) (i + 1) n (acc ++ [line])
                    = section_scan name rest (i + List.length (line :: run))
                                   (n + (0 + Spec.count_section_starts run))
                                   (acc ++ line :: run)).
      { rewrite IH by (assumption || lia). cbn [List.length].
        rewrite <- app_assoc. f_equal; lia. }
      destruct (Re.re_match SECTION_END_PATTERN line) as [[m ?]|];
        [|exact Hgo].
      rewrite Hline. exact Hgo.
Qed.

(** At the end marker of the section the scan stops if no section was
    opened since, and goes on otherwise. *)
Lemma section_scan_stop (name stop : string) (rest : list string)
      (i n : nat) (acc : list string) :
  Props.closes name stop = true -> 1 <= n ->
  section_scan name (stop :: rest) i n acc
  = if n =? 1 then (acc, i)
    else section_scan name rest (i + 1) (n - 1) (acc ++ [stop]).
Proof.
  intros Hc Hn. cbn [section_scan].
  destruct (Nat.eqb_spec n 0); [lia|].
  pose proof (closes_not_opens _ _ Hc) as Ho. unfold Props.opens in Ho.
  rewrite Ho. unfold Props.closes in Hc.
  destruct (Re.re_match SECTION_END_PATTERN stop) as [[m ?]|];
    [|discriminate].
  rewrite Hc.
  destruct (Nat.eqb_spec n 1) as [->|]; [reflexivity|].
  destruct (Nat.eqb_spec (n - 1) 0); [lia | reflexivity].
Qed.

Section Loop.
Variable section_parse : string -> outcome (list VMLElement).

(** The iteration at a line that opens a section, written with what
    the scan gives. *)
Lemma parse_step_section (before : list string) (header : string)
      (after : list string) (md : metadata) :
  Props.opens header = true ->
  parse_step section_parse (before ++ header :: after) (List.length before)
             md
  = (let (content_lines, i) :=
       section_scan (Props.section_name header) after
                    (List.length before + 1) 1 [] in
     match section_parse (join_lines content_lines) with
     | Returned children =>
         Returned (Some (Element SECTION (Props.section_name header)
                                 (Props.section_attributes header)
                                 (Some children) (List.length before)),
                   i + 1)
     | Raised msg => Raised msg
     end, md).
Proof.
  intros Ho. destruct (opens_shape _ Ho) as [tail E].
  unfold parse_step. rewrite ParserFacts.line_at_app.
  unfold Props.opens in Ho. rewrite Ho.
  replace (is_blank header) with false.
  2: { symmetry. rewrite E. unfold is_blank. apply String.eqb_neq. intros B.
       apply StrFacts.strip_by_empty_iff in B. discriminate B. }
  replace (Re.matches METADATA_PATTERN header) with false
    by (now rewrite E).
  replace (Re.re_match DIRECTIVE_PATTERN header)
    with (@None (Re.groups * string)) by (now rewrite E).
  unfold _parse_section, Props.section_name, Props.section_attributes.
  rewrite ParserFacts.line_at_app, ParserFacts.skipn_after.
  destruct (LoopFacts.matches_true _ _ Ho) as (g & r & ->).
  destruct (section_scan _ _ _ _ _) as [content k].
  now destruct (section_parse (join_lines content)).
Qed.

End Loop.

End SectionFacts.

Module SectionParse.
Import VMLSyntax VMLParser PyStr.

Lemma count_exists (run : list string) :
  Exists (fun l => Props.opens l = true) run ->
  1 <= Spec.count_section_starts run.
Proof.
  induction 1 as [line run H|line run _ IH];
    rewrite SectionFacts.count_cons; [rewrite H|]; lia.
Qed.

Lemma count_none (run : list string) :
  Forall (fun l => Props.opens l = false) run ->
  Spec.count_section_starts run = 0.
Proof.
  induction 1 as [|line run H _ IH]; [reflexivity|].
  now rewrite SectionFacts.count_cons, H, IH.
Qed.

(** The parse of a text whose first line opens a section, given where
    the scan for the end of the section stops and what it takes. *)
Lemma parse_section_first (depth : nat) (header : string)
      (rest content : list string) (stop_index : nat) (md : metadata) :
  Props.opens header = true ->
  Forall (no_char PyChar.newline) (header :: rest) ->
  section_scan (Props.section_name header) rest 1 1 [] = (content, stop_index) ->
  parse (S depth) (join_lines (header :: rest)) md
  = match fst (parse depth (join_lines content) init) with
    | Returned children =>
        parse_loop (fun body => fst (parse depth body init))
                   (List.length (header :: rest) - (stop_index + 1))
                   (header :: rest) (stop_index + 1)
                   [Element SECTION (Props.section_name header)
                            (Props.section_attributes header)
                            (Some children) 0] md
    | Raised msg => (Raised msg, md)
    end.
Proof.
  intros Ho Hnl Hscan. cbn [parse]. unfold split_lines, join_lines.
  rewrite StrFacts.split_join by (assumption || discriminate).
  rewrite ParserFacts.parse_loop_unfold by (cbn [List.length]; lia).
  pose proof (SectionFacts.parse_step_section
                (fun body => fst (parse depth body init))
                [] header rest md Ho) as Hstep.
  cbn [List.app List.length Nat.add] in Hstep. rewrite Hstep, Hscan.
  unfold join_lines.
  now destruct (fst (parse depth _ init)).
Qed.

End SectionParse.

(** A section whose end marker never comes takes the rest of the text:
    when the first line opens a section and no later line is an end
    marker with its name, [parse] returns that one section, with the
    parse of all the other lines as its children (or raises what that
    parse raises), and leaves the metadata alone. *)
Theorem section_without_end_takes_the_rest
        (depth : nat) (header : string) (rest : list string)
        (md : metadata) :
  Props.opens header = true ->
  Forall (fun l => Props.closes (Props.section_name header) l = false) rest ->
  Forall (PyStr.no_char PyChar.newline) (header :: rest) ->
  parse (S depth) (join_lines (header :: rest)) md
  = (Props.section_of header (fst (parse depth (join_lines rest) init)) 0 [],
     md).
Proof.
  intros Ho Hrest Hnl.
  rewrite (@SectionParse.parse_section_first
             depth header rest rest (1 + List.length rest) md Ho Hnl).
  - unfold Props.section_of.
    destruct (fst (parse depth (join_lines rest) init)); [|reflexivity].
    apply ParserFacts.parse_loop_done. cbn [List.length]. lia.
  - rewrite <- (app_nil_r rest) at 1.
    rewrite SectionFacts.section_scan_run by (assumption || lia).
    reflexivity.
Qed.

Lemma section_without_end_takes_the_rest_witness :
  parse 2 (join_lines [":: note[kind=tip]"; "# inside"; ":: /other"; "text"])
        init
  = (Returned
       [Element SECTION "note" [("kind", PStr "tip"); ("name", PStr "note")]
                (Some [Element HEADING "inside" [("level", PInt 1)] None 0;
                       Element PARAGRAPH ":: /other" [] None 1;
                       Element PARAGRAPH "text" [] None 2])
                0],
     init).
Proof.
  apply (@section_without_end_takes_the_rest
           1 ":: note[kind=tip]" ["# inside"; ":: /other"; "text"] init).
  - reflexivity.
  - repeat constructor.
  - repeat constructor.
Defined.

(** An end marker does not close its section when a line between the
    start and it opens a section, of whatever name: if no other end
    marker with the name follows, the section takes the end marker and
    everything after it as content, to the end of the text. *)
Theorem nested_start_keeps_section_open
        (depth : nat) (header : string) (run : list string) (stop : string)
        (run2 : list string) (md : metadata) :
  Props.opens header = true ->
  Exists (fun l => Props.opens l = true) run ->
  Props.closes (Props.section_name header) stop = true ->
  Forall (fun l => Props.closes (Props.section_name header) l = false)
         (run ++ run2) ->
  Forall (PyStr.no_char PyChar.newline) (header :: run ++ stop :: run2) ->
  parse (S depth) (join_lines (header :: run ++ stop :: run2)) md
  = (Props.section_of
       header (fst (parse depth (join_lines (run ++ stop :: run2)) init)) 0 [],
     md).
Proof.
  intros Ho Hnested Hstop Hruns Hnl.
  apply Forall_app in Hruns as [Hrun Hrun2].
  pose proof (SectionParse.count_exists Hnested) as Hk.
  rewrite (@SectionParse.parse_section_first
             depth header (run ++ stop :: run2) (run ++ stop :: run2)
             (1 + List.length (run ++ stop :: run2)) md Ho Hnl).
  - unfold Props.section_of.
    destruct (fst (parse depth (join_lines (run ++ stop :: run2)) init));
      [|reflexivity].
    apply ParserFacts.parse_loop_done. cbn [List.length]. lia.
  - rewrite SectionFacts.section_scan_run by (assumption || lia).
    rewrite SectionFacts.section_scan_stop by (assumption || lia).
    destruct (Nat.eqb_spec (1 + Spec.count_section_starts run) 1); [lia|].
    rewrite <- (app_nil_r run2) at 1.
    rewrite SectionFacts.section_scan_run by (assumption || lia).
    cbn [section_scan List.app]. rewrite <- !app_assoc.
    f_equal. rewrite length_app. cbn [List.length]. lia.
Qed.

Lemma nested_start_keeps_section_open_witness :
  parse 3 (join_lines [":: a"; ":: b"; "x"; ":: /b"; ":: /a"; "after"]) init
  = (Returned
       [Element SECTION "a" [("name", PStr "a")]
                (Some [Element SECTION "b" [("name", PStr "b")]
                               (Some [Element PARAGRAPH "x" [] None 0]) 0;
                       Element PARAGRAPH ":: /a" [] None 3;
                       Element PARAGRAPH "after" [] None 4])
                0],
     init).
Proof.
  apply (@nested_start_keeps_section_open
           2 ":: a" [":: b"; "x"; ":: /b"] ":: /a" ["after"] init).
  - reflexivity.
  - constructor. reflexivity.
  - reflexivity.
  - repeat constructor.
  - repeat constructor.
Defined.

(** A section whose body opens no section ends at the first end marker
    with its name: [parse] returns the section, with the parse of the
    body as its children, and goes on after the end marker, here over
    plain lines, which give their paragraphs. *)
Theorem flat_section_closes_at_end_marker
        (depth : nat) (header : string) (body : list string) (stop : string)
        (after : list string) (md : metadata) :
  Props.opens header = true ->
  Forall (fun l => Props.opens l = false
                   /\ Props.closes (Props.section_name header) l = false)
         body ->
  Props.closes (Props.section_name header) stop = true ->
  Forall (fun l => Spec.plain l = true) after ->
  Forall (PyStr.no_char PyChar.newline) (header :: body ++ stop :: after) ->
  parse (S depth) (join_lines (header :: body ++ stop :: after)) md
  = (Props.section_of
       header (fst (parse depth (join_lines body) init)) 0
       (Spec.paragraphs_from (List.length body + 2) after),
     md).
Proof.
  intros Ho Hbody Hstop Hafter Hnl.
  apply Forall_and_inv in Hbody as [Hflat Hopen].
  rewrite (@SectionParse.parse_section_first
             depth header (body ++ stop :: after) body
             (1 + List.length body) md Ho Hnl).
  - unfold Props.section_of.
    destruct (fst (parse depth (join_lines body) init)) as [children|msg];
      [|reflexivity].
    rewrite (@ParserFacts.parse_loop_over_plain_run
               (fun b => fst (parse depth b init))
               (header :: body ++ stop :: after)
               (header :: body ++ [stop]) after []);
      [| cbn [List.app]; now rewrite <- app_assoc, app_nil_r
       | cbn [List.length]; rewrite length_app; cbn [List.length]; lia
       | lia | assumption | exact I].
    rewrite ParserFacts.parse_loop_done
      by (cbn [List.length]; rewrite !length_app; cbn [List.length]; lia).
    replace (1 + List.length body + 1) with (List.length body + 2) by lia.
    reflexivity.
  - rewrite SectionFacts.section_scan_run by (assumption || lia).
    rewrite SectionFacts.section_scan_stop by (assumption || lia).
    rewrite (SectionParse.count_none Hflat). reflexivity.
Qed.

Lemma flat_section_closes_at_end_marker_witness :
  parse 2 (join_lines [":: a"; "x"; ":: /b"; ":: /a"; "after"; ""]) init
  = (Returned
       [Element SECTION "a" [("name", PStr "a")]
                (Some [Element PARAGRAPH "x" [] None 0;
                       Element PARAGRAPH ":: /b" [] None 1])
                0;
        Element PARAGRAPH "after" [] None 4],
     init).
Proof.
  apply (@flat_section_closes_at_end_marker
           1 ":: a" ["x"; ":: /b"] ":: /a" ["after"; ""] init).
  - reflexivity.
  - repeat constructor.
  - reflexivity.
  - repeat constructor.
  - repeat constructor.
Defined.

(* ================================================================= *)
(** ** The lines the loop dispatches *)

Module LayoutFacts.
Import VMLSyntax VMLParser PyStr.

(** The scan of a metadata block stops after the next delimiter, or at
    the end of the text. *)
Lemma metadata_scan_extent (rest : list string) :
  forall i acc,
    snd (metadata_scan rest i acc) = i + Props.block_extent rest.
Proof.
  unfold Props.block_extent.
  induction rest as [|line rest IH]; intros i acc; cbn [metadata_scan].
  - cbn. lia.
  - cbn [Props.leading List.length]. unfold Spec.is_delimiter at 1.
    destruct (Re.matches METADATA_PATTERN line); cbn [negb snd List.length].
    + lia.
    + rewrite IH. lia.
Qed.

(** The row loop of a table takes the rows that lead the lines after
    the separator. *)
Lemma table_rows_leading (rest : list string) :
  forall i acc,
    table_rows rest i acc
    = (acc ++ map _parse_table_row (Props.leading (Re.matches TABLE_ROW) rest),
       i + List.length (Props.leading (Re.matches TABLE_ROW) rest)).
Proof.
  induction rest as [|line rest IH]; intros i acc;
    cbn [table_rows Props.leading].
  - cbn. now rewrite app_nil_r, Nat.add_0_r.
  - destruct (Re.matches TABLE_ROW line).
    + rewrite IH. cbn [map List.length]. rewrite <- app_assoc.
      f_equal. lia.
    + cbn. now rewrite app_nil_r, Nat.add_0_r.
Qed.

Lemma find_ext (A : Type) (f g : A -> bool) (l : list A) :
  (forall x, f x = g x) -> find f l = find g l.
Proof.
  intros H. induction l as [|x l IH]; [reflexivity|].
  cbn [find]. now rewrite H, IH.
Qed.

Lemma find_shift (f : nat -> bool) (n : nat) :
  find f (seq 1 n)
  = option_map S (find (fun k => f (S k)) (seq 0 n)).
Proof.
  rewrite <- seq_shift. generalize (seq 0 n). intros l.
  induction l as [|x l IH]; [reflexivity|].
  cbn [map find]. destruct (f (S x)); [reflexivity | exact IH].
Qed.

(** How many sections are open, besides the one scanned for, after a
    line that does not close it. *)
Lemma closes_at_next (pending : nat) (name line : string)
      (rest : list string) (k : nat) :
  Props.closes name line && (pending =? 0) = false ->
  Props.closes_at pending name (line :: rest) (S k)
  = Props.closes_at
      (if Props.opens line then S pending
       else if Props.closes name line then Nat.pred pending
            else pending)
      name rest k.
Proof.
  intros Hgo. unfold Props.closes_at. cbn [nth firstn filter].
  destruct (Props.opens line) eqn:Ho.
  - assert (Hc : Props.closes name line = false).
    { destruct (Props.closes name line) eqn:Hc; [|reflexivity].
      apply SectionFacts.closes_not_opens in Hc. congruence. }
    rewrite Hc. cbn [List.length]. now rewrite Nat.add_succ_r.
  - destruct (Props.closes name line) eqn:Hc; cbn [List.length];
      [|reflexivity].
    destruct pending as [|p]; [discriminate|]. reflexivity.
Qed.

(** The scan for the end of a section stops at the end marker the
    balance of starts and end markers singles out, or at the end of
    the text. *)
Lemma section_scan_index (name : string) (rest : list string) :
  forall i pending acc,
    snd (section_scan name rest i (S pending) acc)
    = i + match find (Props.closes_at pending name rest)
                     (seq 0 (List.length rest)) with
          | Some k => k
          | None => List.length rest
          end.
Proof.
  induction rest as [|line rest IH]; intros i pending acc.
  - cbn. lia.
  - cbn [List.length seq find].
    assert (H0 : Props.closes_at pending name (line :: rest) 0
                 = Props.closes name line && (pending =? 0)).
    { unfold Props.closes_at. cbn [nth firstn filter List.length].
      now rewrite Nat.add_0_r. }
    rewrite H0. cbn [section_scan Nat.eqb].
    destruct (Props.closes name line && (pending =? 0)) eqn:Hstop.
    + apply andb_prop in Hstop as [Hc Hp]. apply Nat.eqb_eq in Hp. subst.
      pose proof (SectionFacts.closes_not_opens _ _ Hc) as Ho.
      unfold Props.opens in Ho. rewrite Ho. unfold Props.closes in Hc.
      destruct (Re.re_match SECTION_END_PATTERN line) as [[m r]|];
        [|discriminate].
      rewrite Hc. cbn. lia.
    + rewrite find_shift.
      rewrite (@find_ext _ _ _ (seq 0 (List.length rest))
                         (fun k => @closes_at_next pending name line rest k
                                                   Hstop)).
      assert (Hscan :
                forall pending',
                  snd (section_scan name rest (i + 1) (S pending')
                                    (acc ++ [line]))
                  = i + match option_map S
                                (find (Props.closes_at pending' name rest)
                                      (seq 0 (List.length rest))) with
                        | Some k => k
                        | None => S (List.length rest)
                        end).
      { intros p. rewrite IH. destruct (find _ _); cbn [option_map]; lia. }
      destruct (Props.opens line) eqn:Ho.
      * unfold Props.opens in Ho. rewrite Ho.
        replace (S pending + 1) with (S (S pending)) by lia. apply Hscan.
      * unfold Props.opens in Ho. rewrite Ho.
        unfold Props.closes in Hstop |- *.
        destruct (Re.re_match SECTION_END_PATTERN line) as [[m r]|];
          [|apply Hscan].
        destruct (String.eqb (Re.group_or_empty 1 m) name); [|apply Hscan].
        destruct pending as [|p]; [discriminate|].
        cbn [Nat.sub Nat.eqb Nat.pred]. rewrite ?Nat.sub_0_r. apply Hscan.
Qed.

Lemma matches_def (r : Re.regex) (s : string) :
  Re.matches r s
  = match Re.re_match r s with Some _ => true | None => false end.
Proof. reflexivity. Qed.

Section Step.
Variable section_parse : string -> outcome (list VMLElement).
Variable lines : list string.

(** The index an iteration moves to is the one the shape of the text
    gives. *)
Lemma parse_step_next (i : nat) (md : metadata) (e : option VMLElement)
      (j : nat) (md' : metadata) :
  parse_step section_parse lines i md = (Returned (e, j), md') ->
  j = Props.next_top_level lines i.
Proof.
  unfold parse_step, Props.next_top_level. cbv zeta. intros H.
  destruct (is_blank _); [now injection H as _ <- _|].
  unfold Spec.is_delimiter.
  destruct (Re.matches METADATA_PATTERN _).
  { unfold _parse_metadata_block in H.
    pose proof (metadata_scan_extent (skipn (i + 1) lines) (i + 1) []) as Hs.
    destruct (metadata_scan _ _ _) as [[ml|] k]; cbn [snd] in Hs;
      injection H as _ <- _; exact Hs. }
  rewrite (matches_def DIRECTIVE_PATTERN).
  destruct (Re.re_match DIRECTIVE_PATTERN _) as [[dm ?]|].
  { now injection H as _ <- _. }
  unfold Props.opens.
  destruct (Re.matches SECTION_START_PATTERN _).
  { unfold _parse_section in H. unfold Props.section_name.
    destruct (Re.re_match SECTION_START_PATTERN _) as [[g ?]|];
      [|discriminate].
    pose proof (section_scan_index (Re.group_or_empty 1 g)
                                   (skipn (i + 1) lines) (i + 1) 0 []) as Hs.
    destruct (section_scan _ _ _ _ _) as [content k]. cbn [snd] in Hs.
    destruct (section_parse _); [|discriminate]. injection H as _ <- _.
    unfold Props.section_extent, Props.closing_marker. rewrite Hs.
    destruct (find _ _); lia. }
  destruct (Re.matches HEADING_PATTERN _).
  { destruct (_parse_heading _ _); [|discriminate].
    now injection H as _ <- _. }
  unfold Spec.separator_follows.
  destruct (_ && _).
  { unfold _parse_table in H. rewrite table_rows_leading in H.
    now injection H as _ <- _. }
  now injection H as _ <- _.
Qed.

(** Only a line no structural rule recognises gives a paragraph. *)
Lemma parse_step_paragraph (i : nat) (md : metadata) (e : VMLElement)
      (j : nat) (md' : metadata) :
  parse_step section_parse lines i md = (Returned (Some e, j), md') ->
  el_type e = PARAGRAPH -> Spec.unrecognized lines i = true.
Proof.
  unfold parse_step, Spec.unrecognized. cbv zeta. intros H Ht.
  destruct (is_blank _); [discriminate|].
  destruct (Re.matches METADATA_PATTERN _).
  { destruct (_parse_metadata_block _ _ _). discriminate. }
  rewrite (matches_def DIRECTIVE_PATTERN).
  destruct (Re.re_match DIRECTIVE_PATTERN _) as [[dm ?]|].
  { injection H as <- _ _. discriminate. }
  destruct (Re.matches SECTION_START_PATTERN _).
  { unfold _parse_section in H.
    destruct (Re.re_match SECTION_START_PATTERN _) as [[g ?]|];
      [|discriminate].
    destruct (section_scan _ _ _ _ _) as [content k].
    destruct (section_parse _); [|discriminate].
    injection H as <- _ _. discriminate. }
  destruct (Re.matches HEADING_PATTERN _).
  { unfold _parse_heading in H.
    destruct (Re.re_match HEADING_PATTERN _) as [[g rest]|]; [|discriminate].
    injection H as <- _ _. discriminate. }
  unfold Spec.separator_follows.
  destruct (_ && _); [|reflexivity].
  unfold _parse_table in H. destruct (table_rows _ _ _).
  injection H as <- _ _. discriminate.
Qed.

(** The paragraph among what an iteration appends. *)
Lemma emitted_paragraphs (k : nat) :
  filter Props.is_paragraph (Props.emitted section_parse lines k)
  = if Spec.unrecognized lines k then [Props.paragraph_at lines k] else [].
Proof.
  unfold Props.emitted.
  destruct (Spec.unrecognized lines k) eqn:Hu.
  - rewrite (StepFacts.parse_step_unrecognized section_parse lines k init Hu).
    reflexivity.
  - destruct (parse_step section_parse lines k init)
      as [[[[e|] j]|msg] md'] eqn:E; cbn [fst filter]; try reflexivity.
    destruct (Props.is_paragraph e) eqn:Hp; [|reflexivity].
    assert (Ht : el_type e = PARAGRAPH).
    { unfold Props.is_paragraph in Hp.
      destruct (el_type e); try discriminate. reflexivity. }
    rewrite (parse_step_paragraph _ _ E Ht) in Hu. discriminate.
Qed.

Lemma paragraphs_of_positions (positions : list nat) :
  filter Props.is_paragraph
         (flat_map (Props.emitted section_parse lines) positions)
  = map (Props.paragraph_at lines)
        (filter (Spec.unrecognized lines) positions).
Proof.
  induction positions as [|k l IH]; [reflexivity|].
  cbn [flat_map filter]. rewrite filter_app, emitted_paragraphs, IH.
  now destruct (Spec.unrecognized lines k).
Qed.

(** What the loop returns: what it had, then what the iterations at
    the top-level lines append, in order. *)
Lemma parse_loop_top_level (gas : nat) :
  forall i acc md elements md',
    parse_loop section_parse gas lines i acc md = (Returned elements, md') ->
    elements
    = acc ++ flat_map (Props.emitted section_parse lines)
                      (Props.top_level_from gas lines i).
Proof.
  induction gas as [|gas IH]; intros i acc md elements md' H;
    cbn [parse_loop Props.top_level_from] in *.
  - cbn [flat_map]. rewrite app_nil_r.
    destruct (List.length lines <=? i); now injection H as <- _.
  - destruct (Nat.leb_spec (List.length lines) i) as [Hend|Hin].
    + injection H as <- _.
      destruct (Nat.ltb_spec i (List.length lines)); [lia|].
      cbn [flat_map]. now rewrite app_nil_r.
    + destruct (Nat.ltb_spec i (List.length lines)); [|lia].
      destruct (parse_step section_parse lines i md)
        as [[[element j]|msg] md1] eqn:Hstep; [|discriminate].
      apply IH in H. rewrite H.
      rewrite <- (parse_step_next _ _ Hstep).
      cbn [flat_map]. unfold Props.emitted at 2.
      rewrite (LoopFacts.parse_step_fresh section_parse lines i init md).
      rewrite Hstep. cbn [fst].
      destruct element as [e|]; cbn [append_element];
        [now rewrite <- app_assoc | reflexivity].
Qed.

(** The table that starts at a line has the cells of the line as its
    headers. *)
Lemma parse_table_header (i : nat) :
  exists alignment rows,
    fst (_parse_table lines i)
    = Element TABLE EmptyString
              (Props.table_attributes (Props.row_cells (line_at lines i))
                                      alignment rows)
              None i.
Proof.
  unfold _parse_table. rewrite table_rows_leading.
  eexists. eexists. reflexivity.
Qed.

(** What the iteration at a line of seven or more [#] appends. *)
Lemma emitted_seven_hashes (i : nat) :
  7 <= Spec.leading_hashes (line_at lines i) ->
  Props.emitted section_parse lines i
  = [if Spec.separator_follows lines i
     then fst (_parse_table lines i)
     else Props.paragraph_at lines i].
Proof.
  intros H. unfold Props.emitted.
  rewrite (StepFacts.parse_step_seven_hashes section_parse lines i init H).
  now destruct (Spec.separator_follows lines i).
Qed.

End Step.

(** What [parse] returns is what the iterations at the top-level lines
    of the text append. *)
Lemma parse_top_level (depth : nat) (text : string) (md : metadata)
      (elements : list VMLElement) (md' : metadata) :
  parse (S depth) text md = (Returned elements, md') ->
  elements
  = flat_map (Props.emitted (fun body => fst (parse depth body init))
                            (split_lines text))
             (Props.top_level (split_lines text)).
Proof.
  cbn [parse]. intros H. apply parse_loop_top_level in H. exact H.
Qed.

(** As many lines that open a section as the interpreter allows nested
    calls, none of them closed: the innermost call has no call left. *)
Lemma deep_nesting (depth : nat) :
  forall md,
    parse depth (join_lines (repeat ":: a" depth)) md
    = (Raised recursion_error, md).
Proof.
  induction depth as [|depth IH]; intros md; [reflexivity|].
  cbn [repeat].
  assert (Hnl : Forall (no_char PyChar.newline)
                       (":: a" :: repeat ":: a" depth)).
  { constructor; [reflexivity|]. apply Forall_forall. intros l Hl.
    apply repeat_spec in Hl. now subst. }
  rewrite (@SectionParse.parse_section_first
             depth ":: a" (repeat ":: a" depth) (repeat ":: a" depth)
             (1 + List.length (repeat ":: a" depth)) md eq_refl Hnl).
  - now rewrite IH.
  - rewrite <- (app_nil_r (repeat ":: a" depth)) at 1.
    rewrite SectionFacts.section_scan_run;
      [reflexivity | | lia].
    apply Forall_forall. intros l Hl. apply repeat_spec in Hl. now subst.
Qed.

End LayoutFacts.

(* ================================================================= *)
(** ** The failure policy of the parser *)


(** A bound on the nesting is needed for [parse] to return: whatever
    number of nested calls the interpreter allows, [parse] raises on
    the text of that many lines that open a section. *)
Remark parse_raises_on_deep_nesting (depth : nat) (md : metadata) :
  exists msg,
    fst (parse depth (join_lines (repeat ":: a" depth)) md) = Raised msg.
Proof.
  exists recursion_error. now rewrite LayoutFacts.deep_nesting.
Qed.



(* ================================================================= *)
(** ** Headings *)




(* ================================================================= *)
(** ** The shape of what [parse] returns *)

Module ShapeFacts.
Import VMLSyntax VMLParser PyStr.

Lemma well_formed_section (children : list VMLElement) :
  Forall Props.well_formed children ->
  forall content attributes line_number,
    Props.well_formed
      (Element SECTION content attributes (Some children) line_number).
Proof.
  intros H content attributes line_number. cbn [Props.well_formed].
  induction H as [|x l Hx Hl IH]; [exact I | split; assumption].
Qed.

Lemma well_formed_children (children : list VMLElement)
      (content : string) (attributes : attrs) (line_number : nat) :
  Props.well_formed
    (Element SECTION content attributes (Some children) line_number) ->
  Forall Props.well_formed children.
Proof.
  cbn [Props.well_formed].
  induction children as [|x l IH]; intros H; constructor; tauto.
Qed.

Lemma cell_alignment_values (cell : string) :
  cell_alignment cell = "left" \/ cell_alignment cell = "center"
  \/ cell_alignment cell = "right".
Proof.
  unfold cell_alignment.
  destruct (_ && _); [tauto|]. destruct (ends_with _ _); tauto.
Qed.

Lemma parse_table_row_not_nil (line : string) : _parse_table_row line <> [].
Proof.
  unfold _parse_table_row.
  pose proof (StrFacts.split_not_nil "|" (strip_chars "|" line)) as H.
  destruct (split "|" (strip_chars "|" line)); [contradiction | discriminate].
Qed.

(** The row loop gives no empty row. *)
Lemma table_rows_not_nil (rest : list string) :
  forall i acc rows j,
    Forall (fun row => row <> []) acc ->
    table_rows rest i acc = (rows, j) ->
    Forall (fun row : list string => row <> []) rows.
Proof.
  induction rest as [|line rest IH]; cbn [table_rows]; intros i acc rows j Ha H.
  - now injection H as <- _.
  - destruct (Re.matches TABLE_ROW line).
    + eapply IH; [|exact H]. apply Forall_app. split; [assumption|].
      constructor; [apply parse_table_row_not_nil | constructor].
    + now injection H as <- _.
Qed.

Section Step.
Variable section_parse : string -> outcome (list VMLElement).
Variable lines : list string.

Hypothesis bodies_well_formed :
  forall body children,
    section_parse body = Returned children ->
    Forall Props.well_formed children.

Lemma parse_step_well_formed (i : nat) (md : metadata) (e : VMLElement)
      (j : nat) (md' : metadata) :
  parse_step section_parse lines i md = (Returned (Some e, j), md') ->
  Props.well_formed e.
Proof.
  unfold parse_step. intros H.
  destruct (is_blank _); [discriminate|].
  destruct (Re.matches METADATA_PATTERN _).
  { destruct (_parse_metadata_block _ _ _). discriminate. }
  destruct (Re.re_match DIRECTIVE_PATTERN _) as [[dm ?]|].
  { injection H as <- _ _. cbn. eauto. }
  destruct (Re.matches SECTION_START_PATTERN _).
  { unfold _parse_section in H.
    destruct (Re.re_match SECTION_START_PATTERN _) as [[g ?]|];
      [|discriminate].
    destruct (section_scan _ _ _ _ _) as [content k].
    destruct (section_parse _) as [children|] eqn:E; [|discriminate].
    injection H as <- _ _.
    apply well_formed_section. eapply bodies_well_formed; eassumption. }
  destruct (Re.matches HEADING_PATTERN _).
  { unfold _parse_heading in H.
    destruct (Re.re_match HEADING_PATTERN _) as [[g rest]|] eqn:E;
      [|discriminate].
    apply ReFacts.heading_match in E as (hs & Hg & Hlen & Hrange).
    injection H as <- _ _. cbn [Props.well_formed]. split; [|reflexivity].
    eexists. split; [reflexivity|].
    unfold PyStr.len. rewrite Hg, Hlen. lia. }
  destruct (_ && _).
  { unfold _parse_table in H.
    destruct (table_rows _ _ _) as [rows k] eqn:Erows.
    injection H as <- _ _. cbn [Props.well_formed]. split; [|reflexivity].
    eexists _, _, rows. split; [reflexivity|].
    split; [apply parse_table_row_not_nil|].
    unfold _parse_table_alignment. split; [|split].
    - pose proof (parse_table_row_not_nil (line_at lines (i + 1))) as Hne.
      destruct (_parse_table_row (line_at lines (i + 1)));
        [contradiction | discriminate].
    - apply Forall_map, Forall_forall. intros c _.
      apply cell_alignment_values.
    - eapply table_rows_not_nil; [|exact Erows]. constructor. }
  injection H as <- _ _. cbn. auto.
Qed.

End Step.

Lemma parse_well_formed (depth : nat) :
  forall text md elements md',
    parse depth text md = (Returned elements, md') ->
    Forall Props.well_formed elements.
Proof.
  induction depth as [|depth IH]; intros text md elements md' H;
    [discriminate|].
  cbn [parse] in H. revert H.
  apply LoopFacts.parse_loop_forall; [|constructor].
  intros i md_i e j md_j _. apply parse_step_well_formed.
  intros body children E.
  destruct (parse depth body init) as [[els|msg] md_b] eqn:Eb;
    cbn [fst] in E; [|discriminate].
  injection E as <-. eapply IH. eassumption.
Qed.

End ShapeFacts.

(** Every element [parse] returns, at any nesting, is a heading with a
    level from one to six, a paragraph, a directive with a name and
    parameters, a table of string cells (at least one header, at least
    one alignment, each left, center or right, and rows, none of them
    empty, though there may be no row at all), or a section whose
    children are such elements: the other kinds of the enumeration are
    never produced. *)
Theorem parse_elements_well_formed
        (depth : nat) (text : string) (md : metadata)
        (elements : list VMLElement) (md' : metadata) :
  parse depth text md = (Returned elements, md') ->
  Forall Props.well_formed elements.
Proof. apply ShapeFacts.parse_well_formed. Qed.

Lemma parse_elements_well_formed_witness :
  Forall Props.well_formed
         [Element DIRECTIVE "x" [("directive", PStr "note");
                                 ("params", PDict [])] None 0;
          Element TABLE EmptyString
                  (Props.table_attributes ["a"] ["right"] []) None 1].
Proof.
  apply (@parse_elements_well_formed
           1 (join_lines ["@note x"; "| a |"; "|--:|"]) init _ init).
  reflexivity.
Defined.

(* ================================================================= *)
(** ** When the HTML renderer fails *)

Module HtmlFacts.
Import VMLConverter PyObj.

Section Render.
Variable container_repr : PyVal -> string.

(** The header loop needs an alignment for every header. *)
Lemma html_headers_fit (attributes : attrs) (alignment : list PyVal) :
  PyDict.get "alignment" attributes = Some (PList alignment) ->
  forall headers i html,
    i <= List.length alignment ->
    match html_headers container_repr attributes headers i html with
    | Returned _ => i + List.length headers <= List.length alignment
    | Raised msg =>
        msg = Props.index_error
        /\ List.length alignment < i + List.length headers
    end.
Proof.
  intros Hget. induction headers as [|header headers IH]; intros i html Hi.
  - cbn. lia.
  - cbn [html_headers]. unfold bind at 1, item. rewrite Hget.
    unfold bind at 1. cbn [index].
    destruct (nth_error alignment i) as [align|] eqn:E.
    + assert (i < List.length alignment)
        by (apply nth_error_Some; congruence).
      specialize (IH (i + 1)
                     (html ++ "<th style=" ++ dq ++ "text-align: "
                           ++ fmt container_repr align ++ dq ++ ">"
                           ++ fmt container_repr header ++ "</th>" ++ nl)%string).
      destruct (html_headers _ _ _ _ _); cbn [List.length];
        [lia | split; [apply IH; lia|]]. destruct IH; lia.
    + apply nth_error_None in E. cbn [List.length].
      split; [reflexivity | lia].
Qed.

(** The cell loop asks for an alignment only where there is one. *)
Lemma html_cells_return (attributes : attrs) (alignment : list PyVal) :
  PyDict.get "alignment" attributes = Some (PList alignment) ->
  forall cells i html,
  exists out, html_cells container_repr attributes cells i html = Returned out.
Proof.
  intros Hget. induction cells as [|cell cells IH]; intros i html;
    [cbn; eauto|].
  cbn [html_cells]. unfold bind at 1, item. rewrite Hget.
  unfold bind at 1. cbn [len]. unfold bind at 1.
  destruct (Nat.ltb_spec i (List.length alignment)) as [Hlt|Hge].
  - cbn [index].
    destruct (nth_error alignment i) as [align|] eqn:E;
      [apply IH | apply nth_error_None in E; lia].
  - apply IH.
Qed.

Lemma html_rows_return (attributes : attrs) (alignment : list PyVal)
      (rows : list (list string)) :
  PyDict.get "alignment" attributes = Some (PList alignment) ->
  forall html,
  exists out,
    html_rows container_repr attributes
              (map (fun row => PList (map PStr row)) rows) html
    = Returned out.
Proof.
  intros Hget. induction rows as [|row rows IH]; intros html; [cbn; eauto|].
  cbn [map html_rows iterate]. unfold bind at 1.
  destruct (@html_cells_return attributes alignment Hget (map PStr row) 0
                               (html ++ "<tr>" ++ nl)%string) as [out ->].
  unfold bind at 1. apply IH.
Qed.

(** The table branch returns exactly when the headers are no more than
    the alignments, and raises [IndexError] otherwise. *)
Lemma html_table_fit (headers alignment : list string)
      (rows : list (list string)) :
  match html_table container_repr
                   (Props.table_attributes headers alignment rows) with
  | Returned _ => List.length headers <= List.length alignment
  | Raised msg =>
      msg = Props.index_error
      /\ List.length alignment < List.length headers
  end.
Proof.
  set (attributes := Props.table_attributes headers alignment rows).
  assert (Hget : PyDict.get "alignment" attributes
                 = Some (PList (map PStr alignment))) by reflexivity.
  unfold html_table.
  change (item "headers" attributes) with (Returned (PList (map PStr headers))).
  unfold bind at 1. cbn [iterate]. unfold bind at 1.
  pose proof (@html_headers_fit
                attributes (map PStr alignment) Hget (map PStr headers) 0
                ("<table>" ++ nl ++ "<thead>" ++ nl ++ "<tr>" ++ nl)%string
                (Nat.le_0_l _)) as Hh.
  rewrite !length_map in Hh. cbn [Nat.add] in Hh.
  destruct (html_headers _ _ _ _ _) as [html|msg]; [|exact Hh].
  unfold bind at 1.
  change (item "rows" attributes)
    with (Returned (PList (map (fun row => PList (map PStr row)) rows))).
  unfold bind at 1. cbn [iterate]. unfold bind at 1.
  destruct (@html_rows_return
              attributes (map PStr alignment) rows Hget
              (html ++ "</tr>" ++ nl ++ "</thead>" ++ nl ++ "<tbody>" ++ nl)%string)
    as [out ->].
  exact Hh.
Qed.

Lemma cells_table (headers alignment : list string)
      (rows : list (list string)) :
  Props.cells "headers" (Props.table_attributes headers alignment rows)
  = List.length headers
  /\ Props.cells "alignment" (Props.table_attributes headers alignment rows)
     = List.length alignment.
Proof. unfold Props.cells. cbn. now rewrite !length_map. Qed.

Lemma tables_fit_children (type : VMLElementType) (content : string)
      (attributes : attrs) (children : list VMLElement) (n : nat) :
  type <> TABLE ->
  Props.tables_fit (Element type content attributes (Some children) n)
  <-> Forall Props.tables_fit children.
Proof.
  intros Ht. cbn [Props.tables_fit].
  split.
  - intros [_ H]. induction children as [|x l IH]; constructor; tauto.
  - intros H. split; [contradiction|].
    induction H as [|x l Hx Hl IH]; [exact I | split; assumption].
Qed.

Lemma height_child (type : VMLElementType) (content : string)
      (attributes : attrs) (children : list VMLElement) (n : nat)
      (x : VMLElement) :
  In x children ->
  Props.height x
  < Props.height (Element type content attributes (Some children) n).
Proof.
  cbn [Props.height]. induction children as [|y l IH]; [contradiction|].
  intros [->|H]; [lia|]. specialize (IH H). lia.
Qed.

(** The children loop returns when every child is rendered, and raises
    what the first failing child raises. *)
Lemma html_children_fit (children : list VMLElement) :
  (forall x, In x children ->
             match _element_to_html container_repr x with
             | Returned _ => Props.tables_fit x
             | Raised msg => msg = Props.index_error /\ ~ Props.tables_fit x
             end) ->
  forall html,
    match html_children (_element_to_html container_repr) children html with
    | Returned _ => Forall Props.tables_fit children
    | Raised msg =>
        msg = Props.index_error /\ ~ Forall Props.tables_fit children
    end.
Proof.
  induction children as [|x l IH]; intros Hx html; [constructor|].
  cbn [html_children]. unfold bind at 1.
  pose proof (Hx x (or_introl eq_refl)) as H1.
  destruct (_element_to_html container_repr x) as [s|msg].
  - specialize (IH (fun y Hy => Hx y (or_intror Hy)) (html ++ s)%string).
    destruct (html_children _ l _) as [out|msg].
    + now constructor.
    + destruct IH as [-> Hn]. split; [reflexivity|].
      intros H. inversion H. contradiction.
  - destruct H1 as [-> Hn]. split; [reflexivity|].
    intros H. inversion H. contradiction.
Qed.

(** On a well-formed element the renderer raises nothing but
    [IndexError], and that exactly when a table in it has more headers
    than alignments. *)
Lemma element_to_html_fit (n : nat) :
  forall e,
    Props.height e <= n -> Props.well_formed e ->
    match _element_to_html container_repr e with
    | Returned _ => Props.tables_fit e
    | Raised msg => msg = Props.index_error /\ ~ Props.tables_fit e
    end.
Proof.
  induction n as [|n IH]; intros [type content attributes children ln] Hh Hwf.
  - destruct type; cbn [Props.well_formed] in Hwf; try contradiction.
    + destruct Hwf as [_ ->]. cbn. split; [discriminate | exact I].
    + destruct Hwf as [_ ->]. cbn. split; [discriminate | exact I].
    + destruct Hwf as [(hs & al & rows & -> & _) ->].
      cbn [_element_to_html].
      pose proof (html_table_fit hs al rows) as Ht.
      destruct (cells_table hs al rows) as [Ch Ca].
      destruct (html_table _ _) as [out|msg]; cbn [Props.tables_fit].
      * rewrite Ch, Ca. split; [intros _; exact Ht | exact I].
      * destruct Ht as [-> Hlt]. split; [reflexivity|].
        rewrite Ch, Ca. intros [H _]. specialize (H eq_refl). lia.
    + destruct Hwf as [(name & params & ->) ->]. cbn [_element_to_html].
      unfold html_directive.
      change (item "directive" [("directive", PStr name);
                                ("params", PDict params)])
        with (Returned (PStr name)).
      unfold bind. destruct (is_str (PStr name) "include");
        cbn [Props.tables_fit]; (split; [discriminate | exact I]).
    + destruct children as [cs|]; [|contradiction].
      cbn [Props.height] in Hh. lia.
  - destruct type; cbn [Props.well_formed] in Hwf; try contradiction.
    + destruct Hwf as [_ ->]. cbn. split; [discriminate | exact I].
    + destruct Hwf as [_ ->]. cbn. split; [discriminate | exact I].
    + destruct Hwf as [(hs & al & rows & -> & _) ->].
      cbn [_element_to_html].
      pose proof (html_table_fit hs al rows) as Ht.
      destruct (cells_table hs al rows) as [Ch Ca].
      destruct (html_table _ _) as [out|msg]; cbn [Props.tables_fit].
      * rewrite Ch, Ca. split; [intros _; exact Ht | exact I].
      * destruct Ht as [-> Hlt]. split; [reflexivity|].
        rewrite Ch, Ca. intros [H _]. specialize (H eq_refl). lia.
    + destruct Hwf as [(name & params & ->) ->]. cbn [_element_to_html].
      unfold html_directive.
      change (item "directive" [("directive", PStr name);
                                ("params", PDict params)])
        with (Returned (PStr name)).
      unfold bind. destruct (is_str (PStr name) "include");
        cbn [Props.tables_fit]; (split; [discriminate | exact I]).
    + destruct children as [cs|]; [|contradiction].
      assert (Hwfs : Forall Props.well_formed cs)
        by exact (@ShapeFacts.well_formed_children
                    cs content attributes ln Hwf).
      assert (Hcs : forall x, In x cs ->
                  match _element_to_html container_repr x with
                  | Returned _ => Props.tables_fit x
                  | Raised msg =>
                      msg = Props.index_error /\ ~ Props.tables_fit x
                  end).
      { intros x Hx. apply IH.
        - pose proof (@height_child SECTION content attributes cs ln x Hx).
          lia.
        - rewrite Forall_forall in Hwfs. now apply Hwfs. }
      pose proof (@tables_fit_children SECTION content attributes cs ln)
        as Hiff.
      cbn [_element_to_html].
      destruct cs as [|c cs].
      { cbn. split; [discriminate | exact I]. }
      unfold bind at 1.
      pose proof (@html_children_fit
                    (c :: cs) Hcs
                    ("<section class=" ++ dq ++ content ++ dq ++ ">" ++ nl)%string)
        as Hloop.
      destruct (html_children _ (c :: cs) _) as [out|msg].
      * apply Hiff; [discriminate | exact Hloop].
      * destruct Hloop as [-> Hn]. split; [reflexivity|].
        intros Hfit. apply Hn. apply Hiff; [discriminate | exact Hfit].
Qed.

Lemma html_elements_fit (elements : list VMLElement) :
  Forall Props.well_formed elements ->
  forall html_parts,
    match html_elements container_repr elements html_parts with
    | Returned _ => Forall Props.tables_fit elements
    | Raised msg =>
        msg = Props.index_error /\ ~ Forall Props.tables_fit elements
    end.
Proof.
  induction 1 as [|x l Hx _ IH]; intros parts; [constructor|].
  cbn [html_elements]. unfold bind at 1.
  pose proof (@element_to_html_fit (Props.height x) x (le_n _) Hx) as H1.
  destruct (_element_to_html container_repr x) as [s|msg].
  - specialize (IH (parts ++ [s])).
    destruct (html_elements _ l _) as [out|msg].
    + now constructor.
    + destruct IH as [-> Hn]. split; [reflexivity|].
      intros H. inversion H. contradiction.
  - destruct H1 as [-> Hn]. split; [reflexivity|].
    intros H. inversion H. contradiction.
Qed.

End Render.

End HtmlFacts.

Import VMLConverter.

(** On what [parse] returns, [vml_to_html] returns when every table of
    the document, at any nesting, has no more header cells than
    alignment cells, and raises [IndexError] when one has more; it
    raises nothing else. *)
Theorem vml_to_html_fails_on_wide_headers
        (container_repr : PyVal -> string) (depth : nat) (text : string)
        (md : metadata) (elements : list VMLElement) (md' : metadata) :
  parse depth text md = (Returned elements, md') ->
  (Forall Props.tables_fit elements ->
   exists html,
     vml_to_html container_repr depth text md = (Returned html, md'))
  /\ (~ Forall Props.tables_fit elements ->
      vml_to_html container_repr depth text md
      = (Raised Props.index_error, md')).
Proof.
  intros H. unfold vml_to_html. rewrite H.
  pose proof (HtmlFacts.html_elements_fit
                container_repr (ShapeFacts.parse_well_formed _ _ _ H)
                (html_prologue md')) as Hfit.
  destruct (html_elements _ _ _) as [parts|msg].
  - split; [eauto | contradiction].
  - destruct Hfit as [-> Hn]. split; [contradiction | reflexivity].
Qed.

Lemma vml_to_html_fails_on_wide_headers_witness :
  vml_to_html (fun _ => EmptyString) 2
              (join_lines [":: s"; "| A | B |"; "|---|"]) init
  = (Raised Props.index_error, init).
Proof.
  refine (proj2 (@vml_to_html_fails_on_wide_headers
                   (fun _ => EmptyString) 2
                   (join_lines [":: s"; "| A | B |"; "|---|"]) init
                   _ init eq_refl) _).
  intros H. apply Forall_inv in H. cbn [Props.tables_fit] in H.
  destruct H as [_ [[Hfit _] _]].
  specialize (Hfit eq_refl). vm_compute in Hfit. lia.
Defined.

(* ================================================================= *)
(** ** The Markdown renderer on parsed elements *)

Module MarkdownFacts.
Import VMLConverter PyObj.

Lemma join_items_strings (cells : list string) :
  forall i, join_items (map PStr cells) i = Returned cells.
Proof.
  induction cells as [|c cells IH]; intros i; [reflexivity|].
  cbn [map join_items]. now rewrite IH.
Qed.

Lemma join_strings (sep : string) (cells : list string) :
  join sep (PList (map PStr cells)) = Returned (PyStr.join sep cells).
Proof.
  unfold join. cbn [iterate]. now rewrite join_items_strings.
Qed.

Lemma join_empty_cons (p : string) (ps : list string) :
  PyStr.join EmptyString (p :: ps) = (p ++ PyStr.join EmptyString ps)%string.
Proof.
  destruct ps as [|q ps]; cbn [PyStr.join];
    [now rewrite StrFacts.append_empty_r | reflexivity].
Qed.

Lemma join_empty_app (ps qs : list string) :
  PyStr.join EmptyString (ps ++ qs)
  = (PyStr.join EmptyString ps ++ PyStr.join EmptyString qs)%string.
Proof.
  induction ps as [|p ps IH]; [reflexivity|].
  change ((p :: ps) ++ qs) with (p :: (ps ++ qs)).
  now rewrite !join_empty_cons, IH, StrFacts.append_assoc.
Qed.

Lemma markdown_rows_strings (rows : list (list string)) :
  forall md,
    markdown_rows (map (fun row => PList (map PStr row)) rows) md
    = Returned (md ++ PyStr.join EmptyString (map Props.pipe_row rows))%string.
Proof.
  induction rows as [|row rows IH]; intros md.
  - cbn. now rewrite StrFacts.append_empty_r.
  - cbn [map markdown_rows]. rewrite join_strings. unfold bind at 1.
    rewrite IH, join_empty_cons, StrFacts.append_assoc. reflexivity.
Qed.

(** The table branch on the attributes the parser builds. *)
Lemma markdown_table_strings (headers alignment : list string)
      (rows : list (list string)) :
  markdown_table (Props.table_attributes headers alignment rows)
  = Returned (Props.pipe_table headers alignment rows).
Proof.
  unfold markdown_table.
  change (item "headers" (Props.table_attributes headers alignment rows))
    with (Returned (PList (map PStr headers))).
  unfold bind at 1. rewrite join_strings. unfold bind at 1.
  change (item "alignment" (Props.table_attributes headers alignment rows))
    with (Returned (PList (map PStr alignment))).
  unfold bind at 1. cbn [iterate]. unfold bind at 1.
  change (item "rows" (Props.table_attributes headers alignment rows))
    with (Returned (PList (map (fun row => PList (map PStr row)) rows))).
  unfold bind at 1. cbn [iterate]. unfold bind at 1.
  rewrite markdown_rows_strings. unfold bind.
  unfold Props.pipe_table, Props.pipe_table_lines.
  cbn [List.app map]. rewrite !join_empty_cons, map_map.
  rewrite !StrFacts.append_assoc. rewrite map_map. reflexivity.
Qed.

Lemma element_to_markdown_returns (e : VMLElement) :
  Props.well_formed e -> exists s, _element_to_markdown e = Returned s.
Proof.
  destruct e as [type content attributes children ln].
  destruct type; cbn [Props.well_formed]; try contradiction; intros Hwf;
    cbn [_element_to_markdown]; eauto.
  - destruct Hwf as [(level & -> & _) _]. cbn. eauto.
  - destruct Hwf as [(hs & al & rows & -> & _) _].
    rewrite markdown_table_strings. eauto.
Qed.

Lemma markdown_elements_return (elements : list VMLElement) :
  Forall Props.well_formed elements ->
  forall md_parts,
  exists more,
    markdown_elements elements md_parts = Returned (md_parts ++ more).
Proof.
  induction 1 as [|x l Hx _ IH]; intros parts.
  - exists []. cbn. now rewrite app_nil_r.
  - cbn [markdown_elements].
    destruct (element_to_markdown_returns x Hx) as [s ->]. unfold bind.
    destruct (IH (parts ++ [s])) as [more ->].
    exists (s :: more). now rewrite <- app_assoc.
Qed.

End MarkdownFacts.

(** [vml_to_markdown] raises nothing of its own: whenever [parse]
    returns, it returns, and the text starts with the front matter of
    the metadata. *)
Theorem vml_to_markdown_returns
        (depth : nat) (text : string) (md : metadata)
        (elements : list VMLElement) (md' : metadata) :
  parse depth text md = (Returned elements, md') ->
  exists body,
    vml_to_markdown depth text md
    = (Returned (PyStr.join EmptyString (front_matter md') ++ body)%string,
       md').
Proof.
  intros H. unfold vml_to_markdown. rewrite H.
  destruct (MarkdownFacts.markdown_elements_return
              (ShapeFacts.parse_well_formed _ _ _ H) (front_matter md'))
    as [more ->].
  exists (PyStr.join EmptyString more).
  now rewrite MarkdownFacts.join_empty_app.
Qed.

Lemma vml_to_markdown_returns_witness :
  exists body,
    vml_to_markdown 2 (join_lines ["---"; "k: v"; "---"; ":: s"; "| a | b |";
                                   "|---|"; "@d"]) init
    = (Returned (PyStr.join EmptyString (front_matter [("k", "v")]) ++ body)%string,
       [("k", "v")]).
Proof.
  apply (@vml_to_markdown_returns
           2 (join_lines ["---"; "k: v"; "---"; ":: s"; "| a | b |";
                          "|---|"; "@d"]) init
           [Element SECTION "s" [("name", PStr "s")]
                    (Some [Element TABLE EmptyString
                                   (Props.table_attributes
                                      ["a"; "b"] ["left"] [])
                                   None 0;
                           Element DIRECTIVE EmptyString
                                   [("directive", PStr "d");
                                    ("params", PDict [])] None 2]) 3]
           [("k", "v")]).
  reflexivity.
Defined.

(* ================================================================= *)
(** ** The title of an HTML document *)

Module TitleFacts.
Import VMLConverter PyObj.

Lemma html_elements_extend (container_repr : PyVal -> string)
      (elements : list VMLElement) :
  forall html_parts parts,
    html_elements container_repr elements html_parts = Returned parts ->
    exists more, parts = html_parts ++ more.
Proof.
  induction elements as [|x l IH]; intros init parts H.
  - cbn in H. injection H as <-. exists []. now rewrite app_nil_r.
  - cbn [html_elements] in H. unfold bind in H.
    destruct (_element_to_html container_repr x) as [s|msg]; [|discriminate].
    apply IH in H as [more ->]. exists (s :: more).
    now rewrite <- app_assoc.
Qed.

Lemma prologue_with_title (md : metadata) (title : string) :
  PyDict.get "title" md = Some title ->
  html_prologue md
  = [html_head; ("<title>" ++ title ++ "</title>" ++ nl)%string;
     ("</head>" ++ nl ++ "<body>" ++ nl)%string].
Proof.
  intros H. unfold html_prologue. rewrite H.
  destruct md; [discriminate | reflexivity].
Qed.

End TitleFacts.

(** The title of an HTML document comes from the metadata the
    converter's parser holds, also when the text converted has no
    metadata of its own: after a text with a title, a text without a
    delimiter line is still rendered with that title, and the metadata
    stays as it was. *)
Theorem vml_to_html_keeps_old_title
        (container_repr : PyVal -> string) (depth : nat) (text : string)
        (md : metadata) (title html : string) (md' : metadata) :
  PyDict.get "title" md = Some title ->
  Forall (fun l => Spec.is_delimiter l = false) (split_lines text) ->
  vml_to_html container_repr depth text md = (Returned html, md') ->
  md' = md
  /\ exists rest,
      html = (html_head ++ "<title>" ++ title ++ "</title>" ++ PyObj.nl
                ++ "</head>" ++ PyObj.nl ++ "<body>" ++ PyObj.nl
                ++ rest)%string.
Proof.
  intros Htitle Hlines H. unfold vml_to_html in H.
  pose proof (@FrameFacts.parse_keeps_metadata depth text md Hlines)
    as Hmd.
  destruct (parse depth text md) as [[elements|msg] md1];
    cbn [snd] in Hmd; subst md1; [|discriminate].
  destruct (html_elements _ _ _) as [parts|msg] eqn:E; [|discriminate].
  injection H as <- <-. split; [reflexivity|].
  apply TitleFacts.html_elements_extend in E as [more ->].
  rewrite (@TitleFacts.prologue_with_title md title Htitle).
  rewrite <- app_assoc. cbn [List.app].
  rewrite !MarkdownFacts.join_empty_cons.
  rewrite !StrFacts.append_assoc. eauto.
Qed.

Lemma vml_to_html_keeps_old_title_witness :
  exists rest,
    fst (vml_to_html (fun _ => EmptyString) 1 "plain text"
                     (snd (parse 1 (join_lines ["---"; "title: Old"; "---"])
                                 init)))
    = Returned (html_head ++ "<title>" ++ "Old" ++ "</title>" ++ PyObj.nl
                  ++ "</head>" ++ PyObj.nl ++ "<body>" ++ PyObj.nl
                  ++ rest)%string.
Proof.
  destruct (@vml_to_html_keeps_old_title
              (fun _ => EmptyString) 1 "plain text" [("title", "Old")]
              "Old"
              (PyStr.join EmptyString
                 [html_head; ("<title>Old</title>" ++ PyObj.nl)%string;
                  ("</head>" ++ PyObj.nl ++ "<body>" ++ PyObj.nl)%string;
                  ("<p>plain text</p>" ++ PyObj.nl)%string;
                  (PyObj.nl ++ "</body>" ++ PyObj.nl ++ "</html>")%string])
              [("title", "Old")] eq_refl)
    as [_ [rest E]].
  - repeat constructor.
  - reflexivity.
  - exists rest. cbn [fst]. now rewrite <- E.
Defined.

(* ================================================================= *)
(** ** Plain prose *)

Module PlainFacts.
Import VMLSyntax VMLParser VMLConverter PyStr.

(** A pattern that starts with a character the text does not hold
    matches nowhere in it. *)
Lemma sub_absent (c : ascii) (X Y : Re.regex) (repl : Re.groups -> string)
      (s : string) :
  no_char c s ->
  Re.re_sub (Re.Cat (Re.Cat (Re.Lit c) X) Y) repl s = s.
Proof.
  unfold Re.re_sub, no_char.
  induction s as [|c' s IH]; intros H; [reflexivity|].
  cbn [mem] in H. apply orb_false_elim in H as [Hc Hs].
  cbn [Re.sub_from]. unfold Re.re_match. cbn [Re.run].
  rewrite Hc. now rewrite IH.
Qed.

Lemma neutral_no_char (c : ascii) (s : string) :
  Props.neutral s = true -> mem c Props.inline_triggers = true ->
  no_char c s.
Proof.
  unfold Props.neutral, no_char. intros H Hc.
  induction s as [|d s IH]; [reflexivity|].
  cbn [all_chars] in H. apply andb_prop in H as [Hd Hs].
  cbn [mem]. rewrite (IH Hs), orb_false_r.
  destruct (Ascii.eqb_spec c d) as [<-|]; [|reflexivity].
  rewrite Hc in Hd. discriminate.
Qed.

Lemma inline_neutral (text : string) :
  Props.neutral text = true -> _process_inline_elements text = text.
Proof.
  intros H. unfold _process_inline_elements.
  unfold VARIABLE_PATTERN, TEMPLATE_PATTERN, ANNOTATION_PATTERN,
    BOLD_PATTERN, ITALIC_PATTERN, CODE_INLINE_PATTERN, CUSTOM_MARKUP.
  cbn [fold_left apply_markup]. unfold markup_pattern.
  cbn [Re.seq Re.lits].
  repeat (rewrite (@sub_absent _ _ _ _ text) by (apply neutral_no_char; [exact H|reflexivity])).
  reflexivity.
Qed.

Lemma markdown_inline_neutral (text : string) :
  Props.neutral text = true -> markdown_inline text = text.
Proof.
  intros H. unfold markdown_inline, tag_pattern.
  cbn [Re.seq Re.lits String.append].
  repeat (rewrite (@sub_absent _ _ _ _ text) by (apply neutral_no_char; [exact H|reflexivity])).
  reflexivity.
Qed.

(** The Markdown of the paragraphs of a run of prose. *)
Lemma markdown_paragraphs_from (run : list string) :
  Forall Props.prose run ->
  forall i md_parts,
    markdown_elements (Spec.paragraphs_from i run) md_parts
    = Returned (md_parts
                  ++ map (fun l => (l ++ PyObj.nl ++ PyObj.nl)%string)
                         (filter (fun l => negb (is_blank l)) run)).
Proof.
  induction 1 as [|line run (_ & Hn & _) _ IH]; intros i parts.
  - cbn. now rewrite app_nil_r.
  - cbn [Spec.paragraphs_from filter].
    destruct (is_blank line); cbn [negb List.app]; [apply IH|].
    cbn [markdown_elements _element_to_markdown _parse_paragraph].
    unfold PyObj.bind at 1. rewrite IH.
    rewrite (inline_neutral _ Hn), (markdown_inline_neutral _ Hn).
    cbn [map]. now rewrite <- app_assoc.
Qed.

Lemma parse_prose (depth : nat) (lines : list string) (md : metadata) :
  lines <> [] -> Forall Props.prose lines ->
  parse (S depth) (join_lines lines) md
  = (Returned (Spec.paragraphs_from 0 lines), md).
Proof.
  intros Hne Hall. cbn [parse]. unfold split_lines, join_lines.
  rewrite StrFacts.split_join;
    [| assumption
     | eapply Forall_impl; [|exact Hall]; now intros l (_ & _ & Hl)].
  rewrite (@ParserFacts.parse_loop_over_plain_run
             (fun b => fst (parse depth b init)) lines [] lines []);
    [| now rewrite app_nil_r | reflexivity | lia
     | eapply Forall_impl; [|exact Hall]; now intros l (Hl & _)
     | exact I].
  apply ParserFacts.parse_loop_done. cbn [List.length]. lia.
Qed.

(** The lines of the Markdown of paragraphs. *)
Lemma markdown_paragraphs_lines (lines : list string) :
  Forall (fun l => is_blank l = false) lines ->
  Props.markdown_paragraphs lines
  = join_lines (flat_map (fun l => [l; EmptyString]) lines ++ [EmptyString]).
Proof.
  unfold Props.markdown_paragraphs, join_lines.
  induction 1 as [|line lines Hl _ IH]; [reflexivity|].
  cbn [filter] in *. rewrite Hl. cbn [negb map flat_map List.app].
  rewrite MarkdownFacts.join_empty_cons, IH.
  destruct (flat_map (fun l => [l; EmptyString]) lines ++ [EmptyString])
    as [|x xs] eqn:E.
  - apply app_eq_nil in E as [_ E]. discriminate.
  - cbn [join]. rewrite !StrFacts.append_assoc. reflexivity.
Qed.

Lemma filter_paragraph_lines (lines : list string) :
  Forall (fun l => is_blank l = false) lines ->
  filter (fun l => negb (is_blank l))
         (flat_map (fun l => [l; EmptyString]) lines ++ [EmptyString])
  = lines.
Proof.
  induction 1 as [|line lines Hl _ IH]; [reflexivity|].
  cbn [flat_map List.app filter]. rewrite Hl. cbn [negb].
  change (is_blank EmptyString) with true. cbn [negb]. now rewrite IH.
Qed.

Lemma filter_all (lines : list string) :
  Forall (fun l => is_blank l = false) lines ->
  filter (fun l => negb (is_blank l)) lines = lines.
Proof.
  induction 1 as [|line lines Hl _ IH]; [reflexivity|].
  cbn [filter]. rewrite Hl. cbn [negb]. now rewrite IH.
Qed.

Lemma prose_empty : Props.prose EmptyString.
Proof. repeat split. Qed.

Lemma prose_paragraph_lines (lines : list string) :
  Forall Props.prose lines ->
  Forall Props.prose
         (flat_map (fun l => [l; EmptyString]) lines ++ [EmptyString]).
Proof.
  intros H. apply Forall_app. split.
  - apply Forall_flat_map. eapply Forall_impl; [|exact H].
    intros l Hl. constructor; [exact Hl|].
    constructor; [exact prose_empty|constructor].
  - constructor; [exact prose_empty|constructor].
Qed.

(** The Markdown of lines of prose, none of them blank, is a text
    that [vml_to_markdown] returns as it is. *)
Lemma markdown_paragraphs_fixed (depth : nat) (lines : list string) :
  Forall (fun l => Props.prose l /\ is_blank l = false) lines ->
  vml_to_markdown (S depth) (Props.markdown_paragraphs lines) init
  = (Returned (Props.markdown_paragraphs lines), init).
Proof.
  intros H. apply Forall_and_inv in H as [Hprose Hblank].
  rewrite (markdown_paragraphs_lines Hblank) at 1.
  unfold vml_to_markdown.
  rewrite parse_prose.
  - change (front_matter init) with (@nil string).
    rewrite markdown_paragraphs_from.
    + unfold Props.markdown_paragraphs. cbn [List.app].
      now rewrite (filter_paragraph_lines Hblank),
        (filter_all Hblank).
    + now apply prose_paragraph_lines.
  - intros E. apply app_eq_nil in E as [_ E]. discriminate.
  - now apply prose_paragraph_lines.
Qed.

(** The HTML of the paragraphs of a run of prose. *)
Lemma html_paragraphs_from (container_repr : PyVal -> string)
      (run : list string) :
  Forall Props.prose run ->
  forall i html_parts,
    html_elements container_repr (Spec.paragraphs_from i run) html_parts
    = Returned (html_parts
                  ++ map (fun l => ("<p>" ++ l ++ "</p>" ++ PyObj.nl)%string)
                         (filter (fun l => negb (is_blank l)) run)).
Proof.
  induction 1 as [|line run (_ & Hn & _) _ IH]; intros i parts.
  - cbn. now rewrite app_nil_r.
  - cbn [Spec.paragraphs_from filter].
    destruct (is_blank line); cbn [negb List.app]; [apply IH|].
    cbn [html_elements _element_to_html _parse_paragraph].
    unfold PyObj.bind at 1. rewrite IH.
    rewrite (inline_neutral _ Hn).
    cbn [map]. now rewrite <- app_assoc.
Qed.

End PlainFacts.

(** Text without any character that an inline pattern can start with
    passes through the inline substitution unchanged. *)
Theorem inline_elements_keep_plain_text (text : string) :
  Props.neutral text = true -> _process_inline_elements text = text.
Proof. apply PlainFacts.inline_neutral. Qed.

Lemma inline_elements_keep_plain_text_witness :
  _process_inline_elements "Plain words, 1 + 1 = 2; {braces} ]] ~> done."
  = "Plain words, 1 + 1 = 2; {braces} ]] ~> done.".
Proof.
  apply (@inline_elements_keep_plain_text
           "Plain words, 1 + 1 = 2; {braces} ]] ~> done.").
  reflexivity.
Defined.

(** The Markdown of prose: for a text made of lines of prose, on a
    converter whose parser holds no metadata, [vml_to_markdown] returns
    every line that is not blank followed by an empty line, in order,
    and nothing else. *)
Theorem vml_to_markdown_of_prose (depth : nat) (lines : list string) :
  lines <> [] -> Forall Props.prose lines ->
  vml_to_markdown (S depth) (join_lines lines) init
  = (Returned (Props.markdown_paragraphs lines), init).
Proof.
  intros Hne Hall. unfold vml_to_markdown.
  rewrite (PlainFacts.parse_prose depth init Hne Hall).
  change (front_matter init) with (@nil string).
  rewrite (PlainFacts.markdown_paragraphs_from Hall 0 []).
  reflexivity.
Qed.

Lemma vml_to_markdown_of_prose_witness :
  vml_to_markdown 1 (join_lines ["First line."; ""; "Second, line 2"]) init
  = (Returned (Props.markdown_paragraphs
                 ["First line."; ""; "Second, line 2"]), init).
Proof.
  apply (@vml_to_markdown_of_prose 0 ["First line."; ""; "Second, line 2"]).
  - discriminate.
  - repeat constructor.
Defined.

(** The HTML of prose: for a text made of lines of prose, on a
    converter whose parser holds no metadata, [vml_to_html] returns the
    shell of the document, without a title, around one [p] element for
    every line that is not blank; the line is put in as it is, no
    character of it replaced. *)
Theorem vml_to_html_of_prose
        (container_repr : PyVal -> string) (depth : nat)
        (lines : list string) :
  lines <> [] -> Forall Props.prose lines ->
  vml_to_html container_repr (S depth) (join_lines lines) init
  = (Returned (Props.html_paragraphs lines), init).
Proof.
  intros Hne Hall. unfold vml_to_html.
  rewrite (PlainFacts.parse_prose depth init Hne Hall).
  rewrite (PlainFacts.html_paragraphs_from container_repr Hall 0
             (html_prologue init)).
  unfold Props.html_paragraphs. now rewrite <- app_assoc.
Qed.

Lemma vml_to_html_of_prose_witness :
  vml_to_html (fun _ => EmptyString) 1
              (join_lines ["Fish & chips > 2"; ""; "Second line"]) init
  = (Returned (Props.html_paragraphs
                 ["Fish & chips > 2"; ""; "Second line"]), init).
Proof.
  apply (@vml_to_html_of_prose (fun _ => EmptyString) 0
           ["Fish & chips > 2"; ""; "Second line"]).
  - discriminate.
  - repeat constructor.
Defined.

(* ================================================================= *)
(** ** Front matter *)

Module FrontMatterFacts.
Import VMLSyntax VMLParser VMLConverter PyStr.

Lemma mem_app (c : ascii) (s t : string) :
  mem c (s ++ t) = mem c s || mem c t.
Proof.
  induction s as [|d s IH]; [reflexivity|].
  cbn [String.append mem]. now rewrite IH, orb_assoc.
Qed.

Lemma mem_all_chars (p : ascii -> bool) (c : ascii) (s : string) :
  all_chars p s = true -> p c = false -> mem c s = false.
Proof.
  intros H Hc. induction s as [|d s IH]; [reflexivity|].
  cbn [all_chars] in H. apply andb_prop in H as [Hd Hs].
  cbn [mem]. rewrite (IH Hs), orb_false_r.
  destruct (Ascii.eqb_spec c d) as [->|]; [congruence|reflexivity].
Qed.

Lemma split_once_app (sep : ascii) (k rest : string) :
  no_char sep k -> split_once sep (k ++ String sep rest) = (k, rest).
Proof.
  unfold no_char. induction k as [|c k IH]; intros H.
  - cbn [String.append split_once]. now rewrite Ascii.eqb_refl.
  - cbn [mem] in H. apply orb_false_elim in H as [Hc Hk].
    cbn [String.append split_once].
    rewrite Ascii.eqb_sym, Hc. now rewrite (IH Hk).
Qed.

Lemma strip_after_space (v : string) :
  strip (String " " v) = strip v.
Proof. reflexivity. Qed.

Lemma add_metadata_entry (md : metadata) (kv : string * string) :
  Props.storable_entry kv ->
  add_metadata md (Props.entry_line kv) = PyDict.set (fst kv) (snd kv) md.
Proof.
  destruct kv as [k v]. intros (Hk & Hc & _ & Hv & _). cbn [fst snd] in *.
  unfold add_metadata, Props.entry_line, contains. cbn [fst snd].
  change (k ++ ": " ++ v)%string with (k ++ String ":" (String " " v))%string.
  rewrite mem_app. cbn [mem]. rewrite Ascii.eqb_refl, orb_true_r.
  rewrite (@split_once_app ":" k (String " " v) Hc), strip_after_space. now rewrite Hk, Hv.
Qed.

Lemma get_absent (V : Type) (k : string) (d : PyDict.t V) :
  ~ In k (map fst d) -> PyDict.get k d = None.
Proof.
  induction d as [|[k' v'] d IH]; intros H; [reflexivity|].
  cbn [PyDict.get]. cbn [map fst In] in H.
  destruct (String.eqb_spec k k') as [->|]; [tauto|]. apply IH. tauto.
Qed.

Lemma set_absent (V : Type) (k : string) (v : V) (d : PyDict.t V) :
  ~ In k (map fst d) -> PyDict.set k v d = d ++ [(k, v)].
Proof.
  induction d as [|[k' v'] d IH]; intros H; [reflexivity|].
  cbn [PyDict.set]. cbn [map fst In] in H.
  destruct (String.eqb_spec k k') as [->|]; [tauto|].
  cbn [List.app]. f_equal. apply IH. tauto.
Qed.

(** Reading the lines of storable entries back appends the entries. *)
Lemma process_entry_lines (md : metadata) :
  forall acc : metadata,
    NoDup (map fst (acc ++ md)) -> Forall Props.storable_entry md ->
    _process_metadata (map Props.entry_line md) acc = acc ++ md.
Proof.
  unfold _process_metadata.
  induction md as [|[k v] md IH]; intros acc Hnd Hall.
  - cbn. now rewrite app_nil_r.
  - inversion Hall as [|? ? Hkv Hall']; subst.
    cbn [map fold_left]. rewrite (@add_metadata_entry acc (k, v) Hkv). cbn [fst snd].
    assert (Hk : ~ In k (map fst acc)).
    { rewrite map_app in Hnd. cbn [map fst] in Hnd.
      apply NoDup_remove_2 in Hnd. intros Hin. apply Hnd.
      apply in_or_app. now left. }
    rewrite (@set_absent _ k v acc Hk).
    rewrite IH; [now rewrite <- app_assoc | now rewrite <- app_assoc | exact Hall'].
Qed.

(** The line of an entry is no delimiter: it holds a colon. *)
Lemma entry_not_delimiter (kv : string * string) :
  Spec.is_delimiter (Props.entry_line kv) = false.
Proof.
  destruct (Spec.is_delimiter (Props.entry_line kv)) eqn:E; [|reflexivity].
  apply FrameFacts.delimiter_strip in E.
  destruct (AttrFacts.strip_by_spec PyChar.is_space (Props.entry_line kv))
    as ((pre & suf & Es & Hpre & Hsuf) & _).
  fold (strip (Props.entry_line kv)) in Es. rewrite E in Es.
  assert (H : mem ":" (Props.entry_line kv) = true).
  { unfold Props.entry_line. destruct kv as [k v]. cbn [fst snd].
    change (k ++ ": " ++ v)%string
      with (k ++ String ":" (String " " v))%string.
    rewrite mem_app. cbn [mem]. now rewrite Ascii.eqb_refl, orb_true_r. }
  rewrite Es, !mem_app in H.
  rewrite (@mem_all_chars PyChar.is_space ":" pre Hpre),
    (@mem_all_chars PyChar.is_space ":" suf Hsuf) in H by reflexivity.
  discriminate.
Qed.

Lemma entry_no_newline (kv : string * string) :
  Props.storable_entry kv -> no_char PyChar.newline (Props.entry_line kv).
Proof.
  destruct kv as [k v]. intros (_ & _ & Hk & _ & Hv). cbn [fst snd] in *.
  unfold no_char, Props.entry_line in *. cbn [fst snd].
  rewrite !mem_app, Hk, Hv. reflexivity.
Qed.

Lemma join_lines_cons (line : string) (rest : list string) :
  rest <> [] ->
  join_lines (line :: rest)
  = (line ++ PyObj.nl ++ join_lines rest)%string.
Proof. destruct rest; [contradiction|reflexivity]. Qed.

Lemma join_entry_lines (md : metadata) (rest : list string) :
  rest <> [] ->
  join_lines (map Props.entry_line md ++ rest)
  = (join EmptyString
          (map (fun kv => (fst kv ++ ": " ++ snd kv ++ PyObj.nl)%string) md)
       ++ join_lines rest)%string.
Proof.
  intros Hne. induction md as [|kv md IH]; [reflexivity|].
  cbn [map List.app]. rewrite join_lines_cons, IH.
  - rewrite MarkdownFacts.join_empty_cons. unfold Props.entry_line.
    now rewrite !StrFacts.append_assoc.
  - intros E. apply app_eq_nil in E as [_ E]. contradiction.
Qed.

(** The text of a document with metadata, line by line. *)
Lemma markdown_document_lines (md : metadata) (lines : list string) :
  md <> [] ->
  Forall (fun l => is_blank l = false) lines ->
  Props.markdown_document md lines
  = join_lines (Props.document_lines md lines).
Proof.
  intros Hmd Hblank. unfold Props.markdown_document, Props.document_lines.
  rewrite MarkdownFacts.join_empty_app.
  fold (Props.markdown_paragraphs lines).
  rewrite (PlainFacts.markdown_paragraphs_lines Hblank).
  unfold front_matter. destruct md as [|kv md]; [contradiction|].
  cbn [PyDict.is_empty negb].
  rewrite !MarkdownFacts.join_empty_app.
  rewrite join_lines_cons by discriminate.
  rewrite join_entry_lines by discriminate.
  rewrite !join_lines_cons;
    try (intros E; apply app_eq_nil in E as [_ E]; discriminate);
    try discriminate.
  cbn [join]. rewrite !StrFacts.append_assoc. reflexivity.
Qed.

Lemma document_lines_no_newline (md : metadata) (lines : list string) :
  Forall Props.storable_entry md -> Forall Props.prose lines ->
  Forall (no_char PyChar.newline) (Props.document_lines md lines).
Proof.
  intros Hmd Hl. unfold Props.document_lines.
  constructor; [reflexivity|]. apply Forall_app. split.
  - apply Forall_map. eapply Forall_impl; [|exact Hmd].
    intros kv. apply entry_no_newline.
  - constructor; [reflexivity|]. constructor; [reflexivity|].
    eapply Forall_impl;
      [|exact (@PlainFacts.prose_paragraph_lines lines Hl)].
    now intros l (_ & _ & H).
Qed.

End FrontMatterFacts.

(** Markdown output is a fixed point that carries its metadata: for
    storable metadata and lines of prose, none of them blank, the text
    [vml_to_markdown] writes for them -- front matter, then the
    paragraphs -- is returned as it is by a converter whose parser
    holds no metadata, and leaves the parser with exactly that
    metadata, in the same order. *)
Theorem markdown_document_fixed_point
        (depth : nat) (md : metadata) (lines : list string) :
  Props.storable md ->
  Forall (fun l => Props.prose l /\ is_blank l = false) lines ->
  vml_to_markdown (S depth) (Props.markdown_document md lines) init
  = (Returned (Props.markdown_document md lines), md).
Proof.
  intros [Hnd Hmd] H.
  destruct md as [|kv md'] eqn:Emd.
  { exact (@PlainFacts.markdown_paragraphs_fixed depth lines H). }
  rewrite <- Emd in *.
  assert (Hne : md <> []) by (rewrite Emd; discriminate).
  clear Emd kv md'.
  apply Forall_and_inv in H as [Hprose Hblank].
  rewrite (FrontMatterFacts.markdown_document_lines Hne Hblank) at 1.
  unfold vml_to_markdown. cbn [parse]. unfold split_lines, join_lines.
  rewrite StrFacts.split_join;
    [| discriminate
     | now apply FrontMatterFacts.document_lines_no_newline].
  set (section_parse := fun b => fst (parse depth b init)).
  set (tail := flat_map (fun l => [l; EmptyString]) lines ++ [EmptyString]).
  rewrite (@ParserFacts.parse_loop_over_block
             section_parse (Props.document_lines md lines) []
             "---" (map Props.entry_line md) "---" (EmptyString :: tail));
    [| reflexivity | reflexivity | lia | reflexivity | reflexivity
     | apply Forall_map, Forall_forall; intros kv _;
       apply FrontMatterFacts.entry_not_delimiter].
  rewrite (@FrontMatterFacts.process_entry_lines md init Hnd Hmd).
  change (init ++ md) with md.
  rewrite (@ParserFacts.parse_loop_over_plain_run
             section_parse (Props.document_lines md lines)
             ("---" :: map Props.entry_line md ++ ["---"])
             (EmptyString :: tail) []);
    [| unfold Props.document_lines; cbn [List.app];
       now rewrite <- app_assoc, app_nil_r
     | cbn [List.length]; rewrite length_app; cbn [List.length]; lia
     | lia
     | constructor; [reflexivity|];
       eapply Forall_impl;
       [|exact (@PlainFacts.prose_paragraph_lines lines Hprose)];
       now intros l (Hl & _)
     | exact I].
  rewrite ParserFacts.parse_loop_done
    by (unfold Props.document_lines; fold tail; cbn [List.length];
        rewrite !length_app; cbn [List.length]; lia).
  cbn [List.app].
  rewrite PlainFacts.markdown_paragraphs_from
    by (constructor; [exact PlainFacts.prose_empty|];
        now apply PlainFacts.prose_paragraph_lines).
  unfold Props.markdown_document. cbn [filter].
  change (is_blank EmptyString) with true. cbn [negb].
  unfold tail.
  now rewrite (PlainFacts.filter_paragraph_lines Hblank),
    (PlainFacts.filter_all Hblank).
Qed.

Lemma markdown_document_fixed_point_witness :
  vml_to_markdown
    1 (Props.markdown_document
         [("title", "Notes"); ("author", "A. Writer")] ["One."; "Two."])
    init
  = (Returned (Props.markdown_document
                 [("title", "Notes"); ("author", "A. Writer")]
                 ["One."; "Two."]),
     [("title", "Notes"); ("author", "A. Writer")]).
Proof.
  apply (@markdown_document_fixed_point
           0 [("title", "Notes"); ("author", "A. Writer")]
           ["One."; "Two."]).
  - split.
    + repeat constructor; cbn; intuition discriminate.
    + repeat constructor.
  - repeat constructor.
Defined.

(* ================================================================= *)
(** ** Tables through Markdown *)

Module TableFacts.
Import VMLSyntax VMLParser VMLConverter PyStr.

(** A repetition succeeds when some admissible split of the text lets
    the continuation succeed. *)
Lemma rep_complete (R : Type) (greedy : bool) (p : ascii -> bool)
      (pre : string) :
  forall (lo : nat) (hi : option nat) (rest : string)
         (k : string -> option R),
    all_chars p pre = true ->
    lo <= String.length pre -> Re.within hi (String.length pre) ->
    k rest <> None ->
    Re.rep greedy p lo hi (pre ++ rest) k <> None.
Proof.
  induction pre as [|c pre IH]; intros lo hi rest k Hall Hlo Hhi Hk.
  - cbn [String.length] in Hlo. assert (lo = 0) as -> by lia.
    cbn [String.append]. destruct rest as [|c s]; [exact Hk|].
    simpl. destruct (p c && Re.may_take hi); [|exact Hk].
    destruct greedy; unfold Re.or_else.
    + now destruct (Re.rep _ _ _ _ _ _).
    + now destruct (k (String c s)).
  - cbn [all_chars] in Hall. apply andb_prop in Hall as [Hc Hall].
    cbn [String.length] in Hlo, Hhi.
    assert (Hmay : Re.may_take hi = true).
    { destruct hi as [[|h]|]; cbn in *; [lia|reflexivity|reflexivity]. }
    assert (Hmore : Re.rep greedy p (Nat.pred lo) (Re.less hi)
                           (pre ++ rest) k <> None).
    { apply IH; [assumption | lia | | assumption].
      destruct hi as [h|]; cbn in *; [lia|exact I]. }
    cbn [String.append]. simpl. rewrite Hc, Hmay. cbn [andb].
    destruct greedy; unfold Re.or_else.
    + now destruct (Re.rep _ _ _ _ _ _).
    + destruct (if lo =? 0 then _ else _); [discriminate|assumption].
Qed.

(** A bar, one or more characters of the class, a bar. *)
Lemma separator_matches (body : string) :
  body <> EmptyString -> all_chars separator_char body = true ->
  Re.matches TABLE_SEPARATOR (String "|" (body ++ "|")) = true.
Proof.
  intros Hne Hall. unfold TABLE_SEPARATOR. ReFacts.run_pattern.
  change (Ascii.eqb "|" "|") with true. cbv iota.
  destruct (Re.rep _ _ _ _ _ _) eqn:E; [reflexivity|]. exfalso.
  revert E. apply rep_complete; [assumption | | exact I | discriminate].
  destruct body; [contradiction | cbn; lia].
Qed.

Lemma row_matches (body : string) :
  body <> EmptyString -> all_chars PyChar.is_dot body = true ->
  Re.matches TABLE_ROW (String "|" (body ++ "|")) = true.
Proof.
  intros Hne Hall. unfold TABLE_ROW. ReFacts.run_pattern.
  change (Ascii.eqb "|" "|") with true. cbv iota.
  destruct (Re.rep _ _ _ _ _ _) eqn:E; [reflexivity|]. exfalso.
  revert E. apply rep_complete; [assumption | | exact I | discriminate].
  destruct body; [contradiction | cbn; lia].
Qed.


Lemma lstrip_app (p : ascii -> bool) (s t : string) :
  lstrip_by p (s ++ t)
  = if all_chars p s then lstrip_by p t else (lstrip_by p s ++ t)%string.
Proof.
  induction s as [|c s IH]; simpl; [reflexivity|].
  destruct (p c); simpl; [exact IH | reflexivity].
Qed.

(** Stripping does not see what is stripped. *)
Lemma strip_by_between (p : ascii -> bool) (pre s suf : string) :
  all_chars p pre = true -> all_chars p suf = true ->
  strip_by p (pre ++ s ++ suf) = strip_by p s.
Proof.
  intros Hpre Hsuf. unfold strip_by.
  rewrite (@FrameFacts.lstrip_app_all p pre (s ++ suf) Hpre), lstrip_app.
  destruct (all_chars p s) eqn:Hs.
  - apply StrFacts.lstrip_empty_iff in Hsuf, Hs. now rewrite Hsuf, Hs.
  - now apply FrameFacts.rstrip_app_all.
Qed.

Lemma strip_by_fixed (p : ascii -> bool) (a : ascii) (s : string)
      (b : ascii) :
  p a = false -> p b = false ->
  strip_by p (String a (s ++ String b EmptyString))
  = String a (s ++ String b EmptyString).
Proof.
  intros Ha Hb. unfold strip_by. cbn [lstrip_by]. rewrite Ha.
  unfold rstrip_by.
  change (String a (s ++ String b EmptyString))
    with (String a s ++ String b EmptyString)%string.
  rewrite StrFacts.rev_app.
  change (rev (String b EmptyString)) with (String b EmptyString).
  cbn [String.append lstrip_by]. rewrite Hb.
  change (String b (rev (String a s)))
    with (rev (String b EmptyString) ++ rev (String a s))%string.
  rewrite <- StrFacts.rev_app. apply StrFacts.rev_involutive.
Qed.

Lemma bar_shape (cells : string) :
  Props.bar cells = String "|" (Props.pad cells ++ "|").
Proof.
  unfold Props.bar, Props.pad. cbn [String.append]. do 2 f_equal.
  now rewrite StrFacts.append_assoc.
Qed.

Lemma strip_bar (cells : string) :
  strip_chars "|" (Props.bar cells) = Props.pad cells.
Proof.
  rewrite bar_shape. unfold strip_chars.
  change (String "|" (Props.pad cells ++ "|"))
    with ("|" ++ Props.pad cells ++ "|")%string.
  rewrite strip_by_between by reflexivity.
  unfold Props.pad. cbn [String.append].
  apply strip_by_fixed; reflexivity.
Qed.

Lemma pad_no_bar (c : string) :
  no_char "|" c -> no_char "|" (Props.pad c).
Proof.
  unfold no_char, Props.pad. intros H.
  now rewrite !FrontMatterFacts.mem_app, H.
Qed.

Lemma split_pad (r : list string) :
  r <> [] -> Forall (no_char "|") r ->
  split "|" (Props.pad (join " | " r)) = map Props.pad r.
Proof.
  induction r as [|c r IH]; [congruence|]. intros _ Hall.
  inversion Hall as [|? ? Hc Hr]; subst. destruct r as [|c' r].
  - cbn [join map]. apply StrFacts.split_no_sep. now apply pad_no_bar.
  - change (join " | " (c :: c' :: r))
      with (c ++ " | " ++ join " | " (c' :: r))%string.
    replace (Props.pad (c ++ " | " ++ join " | " (c' :: r)))
      with (Props.pad c ++ String "|" (Props.pad (join " | " (c' :: r))))%string.
    + rewrite StrFacts.split_app_sep by now apply pad_no_bar.
      cbn [map]. f_equal. apply IH; [discriminate|assumption].
    + unfold Props.pad. cbn [String.append]. f_equal.
      now rewrite !StrFacts.append_assoc.
Qed.

Lemma strip_pad (c : string) : strip c = c -> strip (Props.pad c) = c.
Proof.
  intros H. unfold strip, Props.pad.
  rewrite strip_by_between by reflexivity. exact H.
Qed.

(** A row written as a line of a pipe table reads back as it was. *)
Lemma parse_table_row_bar (r : list string) :
  Props.row r -> _parse_table_row (Props.bar (join " | " r)) = r.
Proof.
  intros [Hne Hall]. unfold _parse_table_row.
  rewrite strip_bar, split_pad;
    [| assumption
     | eapply Forall_impl; [|exact Hall]; now intros c (_ & H & _)].
  rewrite map_map. clear Hne.
  induction Hall as [|c r (Hc & _) _ IH]; [reflexivity|].
  cbn [map]. now rewrite (strip_pad Hc), IH.
Qed.

Lemma separator_cell_values (a : string) :
  Props.separator_cell a = "---" \/ Props.separator_cell a = ":---:"
  \/ Props.separator_cell a = "---:".
Proof.
  unfold Props.separator_cell, alignment_mark.
  destruct (PyObj.is_str _ _); [tauto|].
  destruct (PyObj.is_str _ _); tauto.
Qed.

Lemma mark_is_cell (a : string) : Props.cell (Props.separator_cell a).
Proof.
  destruct (separator_cell_values a) as [-> | [-> | ->]];
    repeat split; reflexivity.
Qed.

Lemma mark_separator_chars (a : string) :
  all_chars separator_char (Props.separator_cell a) = true.
Proof.
  destruct (separator_cell_values a) as [-> | [-> | ->]]; reflexivity.
Qed.

Lemma alignment_back (a : string) :
  Props.alignment_value a -> cell_alignment (Props.separator_cell a) = a.
Proof. intros [-> | [-> | ->]]; reflexivity. Qed.

Lemma parse_table_alignment_bar (alignment : list string) :
  alignment <> [] -> Forall Props.alignment_value alignment ->
  _parse_table_alignment
    (Props.bar (join " | " (map Props.separator_cell alignment)))
  = alignment.
Proof.
  intros Hne Hall. unfold _parse_table_alignment.
  rewrite parse_table_row_bar.
  - rewrite map_map. induction Hall as [|a l Ha _ IH]; [reflexivity|].
    cbn [map]. rewrite (alignment_back Ha). f_equal.
    destruct l; [reflexivity|]. apply IH. discriminate.
  - split.
    + destruct alignment; [contradiction|discriminate].
    + apply Forall_map, Forall_forall. intros a _. apply mark_is_cell.
Qed.

Lemma join_all_chars (p : ascii -> bool) (sep : string)
      (parts : list string) :
  all_chars p sep = true ->
  Forall (fun s => all_chars p s = true) parts ->
  all_chars p (join sep parts) = true.
Proof.
  intros Hs H. induction H as [|x l Hx _ IH]; [reflexivity|].
  destruct l as [|y l]; [exact Hx|].
  change (join sep (x :: y :: l)) with (x ++ sep ++ join sep (y :: l))%string.
  now rewrite !StrFacts.all_chars_app, Hx, Hs, IH.
Qed.

Lemma pad_all_chars (p : ascii -> bool) (c : string) :
  p " "%char = true -> all_chars p c = true ->
  all_chars p (Props.pad c) = true.
Proof.
  intros Hp Hc. unfold Props.pad.
  rewrite !StrFacts.all_chars_app, Hc. cbn [all_chars]. now rewrite Hp.
Qed.

Lemma pad_not_empty (c : string) : Props.pad c <> EmptyString.
Proof. unfold Props.pad. cbn [String.append]. discriminate. Qed.

Lemma no_newline_dots (s : string) :
  no_char PyChar.newline s -> all_chars PyChar.is_dot s = true.
Proof.
  unfold no_char. induction s as [|c s IH]; intros H; [reflexivity|].
  cbn [mem] in H. apply orb_false_elim in H as [Hc Hs].
  cbn [all_chars]. unfold PyChar.is_dot at 1.
  now rewrite Ascii.eqb_sym, Hc, (IH Hs).
Qed.

Lemma join_no_char (c : ascii) (sep : string) (parts : list string) :
  no_char c sep -> Forall (no_char c) parts -> no_char c (join sep parts).
Proof.
  unfold no_char. intros Hs H.
  induction H as [|x l Hx _ IH]; [reflexivity|].
  destruct l as [|y l]; [exact Hx|].
  change (join sep (x :: y :: l)) with (x ++ sep ++ join sep (y :: l))%string.
  now rewrite !FrontMatterFacts.mem_app, Hx, Hs, IH.
Qed.

Lemma row_no_newline (r : list string) :
  Props.row r -> no_char PyChar.newline (join " | " r).
Proof.
  intros [_ Hall]. apply join_no_char; [reflexivity|].
  eapply Forall_impl; [|exact Hall]. now intros c (_ & _ & H).
Qed.

Lemma bar_no_newline (cells : string) :
  no_char PyChar.newline cells -> no_char PyChar.newline (Props.bar cells).
Proof.
  unfold no_char, Props.bar. intros H.
  now rewrite !FrontMatterFacts.mem_app, H.
Qed.

Lemma row_line_matches (r : list string) :
  Props.row r -> Re.matches TABLE_ROW (Props.bar (join " | " r)) = true.
Proof.
  intros Hr. rewrite bar_shape.
  apply row_matches; [apply pad_not_empty|].
  apply pad_all_chars; [reflexivity|].
  apply no_newline_dots. now apply row_no_newline.
Qed.

Lemma separator_line_matches (alignment : list string) :
  Re.matches TABLE_SEPARATOR
             (Props.bar (join " | " (map Props.separator_cell alignment)))
  = true.
Proof.
  rewrite bar_shape.
  apply separator_matches; [apply pad_not_empty|].
  apply pad_all_chars; [reflexivity|].
  apply join_all_chars; [reflexivity|].
  apply Forall_map, Forall_forall. intros a _.
  apply mark_separator_chars.
Qed.

(** The row loop reads the rows of a pipe table back and stops at the
    first line that is no row. *)
Lemma table_rows_bars (rows : list (list string)) :
  Forall Props.row rows ->
  forall (rest : list string) (i : nat) (acc : list (list string)),
    match rest with
    | [] => True
    | line :: _ => Re.matches TABLE_ROW line = false
    end ->
    table_rows (map (fun r => Props.bar (join " | " r)) rows ++ rest) i acc
    = (acc ++ rows, i + List.length rows).
Proof.
  induction 1 as [|r rows Hr _ IH]; intros rest i acc Hrest.
  - cbn [map List.app List.length].
    destruct rest as [|line rest]; cbn [table_rows];
      [|rewrite Hrest]; now rewrite app_nil_r, Nat.add_0_r.
  - cbn [map List.app table_rows].
    rewrite (row_line_matches Hr), (parse_table_row_bar Hr).
    rewrite (IH rest (i + 1) (acc ++ [r]) Hrest), <- app_assoc.
    cbn [List.length List.app]. f_equal. lia.
Qed.

(** The first line of a pipe table is nothing but the head of a
    table. *)
Lemma bar_not_blank (cells : string) : is_blank (Props.bar cells) = false.
Proof.
  unfold is_blank. destruct (String.eqb_spec (strip (Props.bar cells)) "")
    as [E|]; [|reflexivity].
  apply StrFacts.strip_by_empty_iff in E. discriminate.
Qed.

Lemma bar_not_delimiter (cells : string) :
  Re.matches METADATA_PATTERN (Props.bar cells) = false.
Proof. reflexivity. Qed.

Lemma bar_not_directive (cells : string) :
  Re.re_match DIRECTIVE_PATTERN (Props.bar cells) = None.
Proof. reflexivity. Qed.

Lemma bar_not_section (cells : string) :
  Re.matches SECTION_START_PATTERN (Props.bar cells) = false.
Proof. reflexivity. Qed.

Lemma bar_not_heading (cells : string) :
  Re.matches HEADING_PATTERN (Props.bar cells) = false.
Proof. reflexivity. Qed.

(** The text of a table, line by line. *)
Lemma pipe_table_lines_text (lines : list string) :
  (join EmptyString (map table_line lines) ++ PyObj.nl)%string
  = join_lines (map Props.bar lines ++ [EmptyString; EmptyString]).
Proof.
  induction lines as [|x lines IH]; [reflexivity|].
  cbn [map List.app].
  rewrite MarkdownFacts.join_empty_cons, FrontMatterFacts.join_lines_cons.
  - rewrite <- IH. unfold table_line, Props.bar.
    now rewrite !StrFacts.append_assoc.
  - intros E. apply app_eq_nil in E as [_ E]. discriminate.
Qed.

Lemma pipe_lines_no_newline (headers alignment : list string)
      (rows : list (list string)) :
  Props.portable_table headers alignment rows ->
  Forall (no_char PyChar.newline) (Props.pipe_lines headers alignment rows).
Proof.
  intros (Hh & Hne & Ha & Hr).
  unfold Props.pipe_lines, Props.pipe_table_lines.
  cbn [map List.app]. constructor; [|constructor].
  - now apply bar_no_newline, row_no_newline.
  - apply bar_no_newline, join_no_char; [reflexivity|].
    apply Forall_map, Forall_forall. intros a _.
    now destruct (mark_is_cell a) as (_ & _ & H).
  - apply Forall_app. split; [|repeat constructor].
    rewrite map_map. apply Forall_map.
    eapply Forall_impl; [|exact Hr].
    intros r Hrow. now apply bar_no_newline, row_no_newline.
Qed.

Section Step.
Variable section_parse : string -> outcome (list VMLElement).

Lemma parse_step_table (headers alignment : list string)
      (rows : list (list string)) (md : metadata) :
  Props.portable_table headers alignment rows ->
  parse_step section_parse (Props.pipe_lines headers alignment rows) 0 md
  = (Returned (Some (Element TABLE EmptyString
                             (Props.table_attributes headers alignment rows)
                             None 0),
               2 + List.length rows), md).
Proof.
  intros (Hh & Hne & Ha & Hr).
  set (lines := Props.pipe_lines headers alignment rows).
  assert (E0 : line_at lines 0 = Props.bar (join " | " headers))
    by reflexivity.
  assert (E1 : line_at lines (0 + 1)
               = Props.bar (join " | " (map Props.separator_cell alignment)))
    by reflexivity.
  assert (Es : skipn (0 + 2) lines
               = map (fun r => Props.bar (join " | " r)) rows
                     ++ [EmptyString; EmptyString]).
  { unfold lines, Props.pipe_lines, Props.pipe_table_lines.
    cbn [map List.app skipn Nat.add]. now rewrite map_map. }
  assert (El : (0 + 1 <? List.length lines) = true).
  { apply Nat.ltb_lt. unfold lines, Props.pipe_lines, Props.pipe_table_lines.
    cbn [map List.app List.length]. lia. }
  unfold parse_step. cbv zeta. rewrite E0.
  rewrite bar_not_blank, bar_not_delimiter, bar_not_directive,
    bar_not_section, bar_not_heading.
  rewrite El, E1, separator_line_matches. cbn [andb].
  unfold _parse_table. rewrite E0, E1, Es.
  rewrite (@table_rows_bars rows Hr [EmptyString; EmptyString] (0 + 2) []
             eq_refl).
  rewrite (parse_table_row_bar Hh), (parse_table_alignment_bar Hne Ha).
  reflexivity.
Qed.

End Step.

End TableFacts.

(** A table goes through Markdown unchanged: the text
    [_element_to_markdown] gives for a table of stripped cells without
    bar or line break, with at least one header, one alignment out of
    left, center and right a column, and no empty row, is parsed back
    by [parse] into one element, the same table, at line 0, and the
    metadata of the parser is left as it was. *)
Theorem pipe_table_round_trip
        (depth : nat) (headers alignment : list string)
        (rows : list (list string)) (content : string)
        (children : option (list VMLElement)) (line_number : nat)
        (md : metadata) :
  Props.portable_table headers alignment rows ->
  _element_to_markdown
    (Element TABLE content (Props.table_attributes headers alignment rows)
             children line_number)
  = Returned (Props.pipe_table headers alignment rows)
  /\ parse (S depth) (Props.pipe_table headers alignment rows) md
     = (Returned [Element TABLE EmptyString
                          (Props.table_attributes headers alignment rows)
                          None 0], md).
Proof.
  intros Hp. split.
  { cbn [_element_to_markdown]. apply MarkdownFacts.markdown_table_strings. }
  unfold Props.pipe_table. rewrite TableFacts.pipe_table_lines_text.
  fold (Props.pipe_lines headers alignment rows).
  cbn [parse]. unfold split_lines, join_lines.
  rewrite StrFacts.split_join;
    [| discriminate | now apply TableFacts.pipe_lines_no_newline].
  set (section_parse := fun b => fst (parse depth b init)).
  set (lines := Props.pipe_lines headers alignment rows).
  assert (Hlen : List.length lines = 2 + List.length rows + 2).
  { unfold lines, Props.pipe_lines, Props.pipe_table_lines.
    cbn [map List.app List.length].
    rewrite length_app, !length_map. cbn [List.length]. lia. }
  rewrite ParserFacts.parse_loop_unfold by lia.
  unfold lines at 1.
  rewrite (@TableFacts.parse_step_table section_parse headers alignment rows
             md Hp).
  cbn [append_element List.app]. fold lines.
  rewrite (@ParserFacts.parse_loop_over_plain_run
             section_parse lines
             (map Props.bar (Props.pipe_table_lines headers alignment rows))
             [EmptyString; EmptyString] []);
    [| now rewrite app_nil_r | | lia | repeat constructor | exact I].
  - apply ParserFacts.parse_loop_done. cbn [List.length]. lia.
  - unfold Props.pipe_table_lines. cbn [map List.app List.length].
    rewrite !length_map. lia.
Qed.

Lemma pipe_table_round_trip_witness :
  _element_to_markdown
    (Element TABLE EmptyString
             (Props.table_attributes
                ["Name"; "Qty"] ["left"; "right"]
                [["apple"; "3"]; ["pear"; EmptyString]])
             None 4)
  = Returned (Props.pipe_table ["Name"; "Qty"] ["left"; "right"]
                               [["apple"; "3"]; ["pear"; EmptyString]])
  /\ parse 1 (Props.pipe_table ["Name"; "Qty"] ["left"; "right"]
                               [["apple"; "3"]; ["pear"; EmptyString]])
           init
     = (Returned [Element TABLE EmptyString
                          (Props.table_attributes
                             ["Name"; "Qty"] ["left"; "right"]
                             [["apple"; "3"]; ["pear"; EmptyString]])
                          None 0], init).
Proof.
  apply (@pipe_table_round_trip
           0 ["Name"; "Qty"] ["left"; "right"]
           [["apple"; "3"]; ["pear"; EmptyString]] EmptyString None 4 init).
  split; [|split; [|split]].
  - split; [discriminate|]. repeat constructor.
  - discriminate.
  - constructor; [left; reflexivity|].
    constructor; [right; right; reflexivity|]. constructor.
  - constructor; [split; [discriminate|repeat constructor]|].
    constructor; [split; [discriminate|repeat constructor]|]. constructor.
Defined.

(* ================================================================= *)
(** ** Headings through Markdown *)

Module HeadingTrip.
Import VMLSyntax VMLParser VMLConverter PyStr.

(** A greedy repetition takes the whole run of its class when the
    continuation accepts what is left. *)
Lemma rep_greedy_max (R : Type) (p : ascii -> bool) (pre : string) :
  forall (lo : nat) (hi : option nat) (rest : string)
         (k : string -> option R) (r : R),
    all_chars p pre = true ->
    match rest with
    | String c _ => p c = false
    | EmptyString => True
    end ->
    lo <= String.length pre -> Re.within hi (String.length pre) ->
    k rest = Some r ->
    Re.rep true p lo hi (pre ++ rest) k = Some r.
Proof.
  induction pre as [|c pre IH]; intros lo hi rest k r Hall Hrest Hlo Hhi Hk.
  - cbn [String.length] in Hlo. assert (lo = 0) as -> by lia.
    cbn [String.append]. destruct rest as [|c s]; [exact Hk|].
    simpl. now rewrite Hrest.
  - cbn [all_chars] in Hall. apply andb_prop in Hall as [Hc Hall].
    cbn [String.length] in Hlo, Hhi.
    assert (Hmay : Re.may_take hi = true).
    { destruct hi as [[|h]|]; cbn in *; [lia|reflexivity|reflexivity]. }
    cbn [String.append]. simpl. rewrite Hc, Hmay. cbn [andb].
    rewrite (IH (Nat.pred lo) (Re.less hi) rest k r); try assumption.
    + reflexivity.
    + lia.
    + destruct hi as [h|]; cbn in *; [lia|exact I].
Qed.

Lemma rep_greedy_all (R : Type) (p : ascii -> bool) (s : string)
      (lo : nat) (hi : option nat) (k : string -> option R) (r : R) :
  all_chars p s = true ->
  lo <= String.length s -> Re.within hi (String.length s) ->
  k EmptyString = Some r ->
  Re.rep true p lo hi s k = Some r.
Proof.
  intros Hall Hlo Hhi Hk.
  rewrite <- (StrFacts.append_empty_r s) at 1.
  now apply rep_greedy_max.
Qed.

Lemma take_all (s : string) : take (len s - len EmptyString) s = s.
Proof.
  unfold len. cbn [String.length]. rewrite Nat.sub_0_r.
  induction s as [|c s IH]; [reflexivity|]. cbn. now rewrite IH.
Qed.

Lemma hashes_all (n : nat) :
  all_chars (only hash) (PyObj.repeat_string "#" n) = true.
Proof. induction n as [|n IH]; [reflexivity|]. cbn. exact IH. Qed.

Lemma hashes_length (n : nat) :
  String.length (PyObj.repeat_string "#" n) = n.
Proof. induction n as [|n IH]; [reflexivity|]. cbn. now rewrite IH. Qed.

(** The heading rule on the line of a heading: the hashes and the
    text. *)
Lemma heading_line_match (n : nat) (content : string) :
  1 <= n <= 6 -> Props.heading_text content ->
  exists g rest,
    Re.re_match HEADING_PATTERN (Props.heading_line n content)
    = Some (g, rest)
    /\ Re.group_or_empty 1 g = PyObj.repeat_string "#" n
    /\ Re.group_or_empty 2 g = content.
Proof.
  intros Hn (_ & Hnl & Hfirst). unfold Props.heading_line.
  eexists. eexists. split.
  - unfold HEADING_PATTERN. ReFacts.run_pattern.
    apply rep_greedy_max;
      [apply hashes_all | reflexivity | rewrite hashes_length; lia
       | cbn [Re.within]; rewrite hashes_length; lia |].
    cbv beta.
    apply (@rep_greedy_max _ PyChar.is_space " " 1 None content);
      [reflexivity | destruct content; [exact I|exact Hfirst]
       | cbn; lia | exact I |].
    cbv beta.
    apply rep_greedy_all;
      [now apply TableFacts.no_newline_dots
       | destruct content; [contradiction | cbn; lia] | exact I |].
    reflexivity.
  - split.
    + cbn [Re.group_or_empty Re.group Nat.eqb]. apply ReFacts.take_app.
    + cbn [Re.group_or_empty Re.group Nat.eqb]. apply take_all.
Qed.

Lemma heading_line_head (n : nat) (content : string) :
  1 <= n ->
  exists rest, Props.heading_line n content = String "#" rest.
Proof.
  intros Hn. destruct n as [|n]; [lia|].
  unfold Props.heading_line. cbn [PyObj.repeat_string String.append].
  eexists. reflexivity.
Qed.

Section Step.
Variable section_parse : string -> outcome (list VMLElement).

Lemma parse_step_heading (n : nat) (content : string)
      (after : list string) (md : metadata) :
  1 <= n <= 6 -> Props.heading_text content ->
  parse_step section_parse (Props.heading_line n content :: after) 0 md
  = (Returned (Some (Element HEADING content [("level", PInt n)] None 0),
               0 + 1), md).
Proof.
  intros Hn Hc.
  destruct (heading_line_match Hn Hc) as (g & rest & Em & E1 & E2).
  destruct (@heading_line_head n content) as [tail Eh]; [lia|].
  unfold parse_step. cbv zeta.
  change (line_at (Props.heading_line n content :: after) 0)
    with (Props.heading_line n content).
  assert (Hm : Re.matches HEADING_PATTERN (Props.heading_line n content)
               = true) by (unfold Re.matches; now rewrite Em).
  rewrite Hm. unfold _parse_heading. rewrite Em, E1, E2.
  unfold len. rewrite hashes_length.
  destruct Hc as (Hneutral & _).
  rewrite (PlainFacts.inline_neutral _ Hneutral).
  rewrite Eh.
  assert (Hb : is_blank (String "#" tail) = false).
  { unfold is_blank.
    destruct (String.eqb_spec (strip (String "#" tail)) "") as [E|];
      [|reflexivity].
    apply StrFacts.strip_by_empty_iff in E. discriminate. }
  rewrite Hb.
  change (Re.matches METADATA_PATTERN (String "#" tail)) with false.
  change (Re.re_match DIRECTIVE_PATTERN (String "#" tail))
    with (@None (Re.groups * string)).
  change (Re.matches SECTION_START_PATTERN (String "#" tail)) with false.
  reflexivity.
Qed.

End Step.

End HeadingTrip.

(** A heading goes through Markdown unchanged: for a level from 1 to 6
    and a text without inline markup and line break that starts with
    no white space, the text [_element_to_markdown] gives for the
    heading is parsed back by [parse] into one element, the same
    heading, at line 0, and the metadata of the parser is left as it
    was. *)
Theorem heading_round_trip
        (depth : nat) (level : nat) (content : string)
        (children : option (list VMLElement)) (line_number : nat)
        (md : metadata) :
  1 <= level <= 6 -> Props.heading_text content ->
  _element_to_markdown
    (Element HEADING content [("level", PInt level)] children line_number)
  = Returned (Props.heading_line level content ++ PyObj.nl ++ PyObj.nl)%string
  /\ parse (S depth)
           (Props.heading_line level content ++ PyObj.nl ++ PyObj.nl) md
     = (Returned [Element HEADING content [("level", PInt level)] None 0],
        md).
Proof.
  intros Hn Hc. split.
  { cbn. unfold Props.heading_line. now rewrite !StrFacts.append_assoc. }
  change (Props.heading_line level content ++ PyObj.nl ++ PyObj.nl)%string
    with (join_lines [Props.heading_line level content;
                      EmptyString; EmptyString]).
  cbn [parse]. unfold split_lines, join_lines.
  rewrite StrFacts.split_join; [| discriminate |].
  - set (section_parse := fun b => fst (parse depth b init)).
    rewrite ParserFacts.parse_loop_unfold by (cbn [List.length]; lia).
    rewrite (@HeadingTrip.parse_step_heading
               section_parse level content [EmptyString; EmptyString]
               md Hn Hc).
    cbn [append_element List.app].
    rewrite (@ParserFacts.parse_loop_over_plain_run
               section_parse
               [Props.heading_line level content; EmptyString; EmptyString]
               [Props.heading_line level content]
               [EmptyString; EmptyString] []);
      [| reflexivity | reflexivity | cbn [List.length]; lia
       | repeat constructor | exact I].
    apply ParserFacts.parse_loop_done. cbn [List.length]. lia.
  - destruct Hc as (_ & Hnl & _).
    constructor; [|repeat constructor].
    unfold PyStr.no_char, Props.heading_line in *.
    rewrite !FrontMatterFacts.mem_app, Hnl.
    assert (H : forall n, PyStr.mem PyChar.newline
                                    (PyObj.repeat_string "#" n) = false).
    { induction n as [|n IH]; [reflexivity|]. cbn. exact IH. }
    now rewrite H.
Qed.

Lemma heading_round_trip_witness :
  _element_to_markdown
    (Element HEADING "Results, part 2" [("level", PInt 3)] None 7)
  = Returned (Props.heading_line 3 "Results, part 2"
                ++ PyObj.nl ++ PyObj.nl)%string
  /\ parse 1 (Props.heading_line 3 "Results, part 2"
                ++ PyObj.nl ++ PyObj.nl) init
     = (Returned [Element HEADING "Results, part 2" [("level", PInt 3)]
                          None 0], init).
Proof.
  apply (@heading_round_trip 0 3 "Results, part 2" None 7 init).
  - lia.
  - repeat split.
Defined.

(* ================================================================= *)
(** ** The formatter on a document with metadata *)

Module FormatMetadata.
Import VMLSyntax VMLParser VMLConverter PyStr.

Lemma entry_strip (kv : string * string) :
  strip (Props.entry_line kv) <> "---".
Proof.
  intros E.
  destruct (AttrFacts.strip_by_spec PyChar.is_space (Props.entry_line kv))
    as ((pre & suf & Es & Hpre & Hsuf) & _).
  fold (strip (Props.entry_line kv)) in Es. rewrite E in Es.
  assert (H : mem ":" (Props.entry_line kv) = true).
  { unfold Props.entry_line. destruct kv as [k v]. cbn [fst snd].
    change (k ++ ": " ++ v)%string
      with (k ++ String ":" (String " " v))%string.
    rewrite FrontMatterFacts.mem_app. cbn [mem].
    now rewrite Ascii.eqb_refl, orb_true_r. }
  rewrite Es, !FrontMatterFacts.mem_app in H.
  rewrite (@FrontMatterFacts.mem_all_chars PyChar.is_space ":" pre Hpre),
    (@FrontMatterFacts.mem_all_chars PyChar.is_space ":" suf Hsuf) in H
    by reflexivity.
  discriminate.
Qed.

(** A metadata block of storable entries at the head of a document,
    then lines that are paragraphs or blank. *)
Lemma parse_front_matter (depth : nat) (md : metadata)
      (body : list string) :
  Props.storable md ->
  Forall (fun l => Spec.plain l = true /\ no_char PyChar.newline l) body ->
  parse (S depth)
        (join_lines ("---" :: map Props.entry_line md ++ "---" :: body)) init
  = (Returned (Spec.paragraphs_from (List.length md + 2) body), md).
Proof.
  intros [Hnd Hmd] Hbody. apply Forall_and_inv in Hbody as [Hplain Hnl].
  cbn [parse]. unfold split_lines, join_lines.
  rewrite StrFacts.split_join; [| discriminate |].
  2:{ constructor; [reflexivity|]. apply Forall_app. split.
      - apply Forall_map. eapply Forall_impl; [|exact Hmd].
        intros kv. apply FrontMatterFacts.entry_no_newline.
      - constructor; [reflexivity|assumption]. }
  set (section_parse := fun b => fst (parse depth b init)).
  set (lines := "---" :: map Props.entry_line md ++ "---" :: body).
  assert (Hlen : List.length lines = List.length md + 2 + List.length body).
  { unfold lines. cbn [List.length].
    rewrite length_app, length_map. cbn [List.length]. lia. }
  rewrite (@ParserFacts.parse_loop_over_block
             section_parse lines []
             "---" (map Props.entry_line md) "---" body);
    [| reflexivity | reflexivity | lia | reflexivity | reflexivity
     | apply Forall_map, Forall_forall; intros kv _;
       apply FrontMatterFacts.entry_not_delimiter].
  rewrite (@FrontMatterFacts.process_entry_lines md init Hnd Hmd).
  change (init ++ md) with md. rewrite length_map.
  rewrite (@ParserFacts.parse_loop_over_plain_run
             section_parse lines
             ("---" :: map Props.entry_line md ++ ["---"]) body []);
    [| unfold lines; cbn [List.app]; now rewrite <- app_assoc, app_nil_r
     | cbn [List.length]; rewrite length_app, length_map;
       cbn [List.length]; lia
     | lia | assumption | exact I].
  rewrite ParserFacts.parse_loop_done by lia.
  cbn [List.app]. do 3 f_equal.
Qed.

Lemma format_line_delimiter (formatted_lines : list string) :
  format_line formatted_lines "---" = formatted_lines.
Proof. reflexivity. Qed.

(** The loop of the formatter over such a document drops the two
    delimiters and copies everything else. *)
Lemma format_lines_document (md : metadata) (body acc : list string) :
  Forall (fun kv => Re.matches HEADING_START (Props.entry_line kv) = false)
         md ->
  Forall Props.body_line body ->
  fold_left format_line
            ("---" :: map Props.entry_line md ++ "---" :: body) acc
  = acc ++ map Props.entry_line md ++ body.
Proof.
  intros Hmd Hbody. cbn [fold_left]. rewrite format_line_delimiter.
  rewrite fold_left_app. cbn [fold_left].
  rewrite (@FormatFacts.format_lines_kept body).
  - rewrite format_line_delimiter.
    rewrite (@FormatFacts.format_lines_kept (map Props.entry_line md));
      [now rewrite <- app_assoc|].
    apply Forall_map. eapply Forall_impl; [|exact Hmd].
    intros kv H. split; [apply entry_strip|exact H].
  - eapply Forall_impl; [|exact Hbody]. now intros l (_ & _ & H1 & H2).
Qed.

End FormatMetadata.

(** The formatter writes the metadata twice.  Take a metadata mapping
    that is not empty and whose entries are storable (keys that differ,
    keys and values stripped and without line break, keys without
    colon), with no entry line [key: value] that starts like a heading
    (one to six [#], then white space); and take body lines that have
    no line break, have the shape of no structural construct (no
    delimiter, directive, section start, heading or table separator),
    do not strip to three dashes and do not start like a heading.  For
    the document made of a delimiter, the entry lines, a delimiter and
    the body, on a handler whose parser holds no metadata,
    [format_code] returns the delimiter, the entry lines, the closing
    delimiter with one more line break, then the entry lines once more
    as lines of the body, then the body; the parser of the handler
    holds the entries afterwards. *)
Theorem format_code_repeats_metadata
        (depth : nat) (md : metadata) (body : list string) :
  md <> [] -> Props.storable md ->
  Forall (fun kv => Re.matches HEADING_START (Props.entry_line kv) = false)
         md ->
  Forall Props.body_line body ->
  format_code (S depth)
              (join_lines ("---" :: map Props.entry_line md ++ "---" :: body))
              init
  = (join_lines ("---" :: map Props.entry_line md
                       ++ ("---" ++ PyObj.nl)%string
                       :: map Props.entry_line md ++ body), md).
Proof.
  intros Hne Hst Hmd Hbody. unfold format_code.
  assert (Hlines : Forall (fun l => Spec.plain l = true
                                    /\ PyStr.no_char PyChar.newline l) body).
  { eapply Forall_impl; [|exact Hbody]. now intros l (H1 & H2 & _). }
  rewrite (@FormatMetadata.parse_front_matter depth md body Hst Hlines).
  unfold split_lines, join_lines at 1.
  rewrite StrFacts.split_join; [| discriminate |].
  - rewrite (@FormatMetadata.format_lines_document md body _ Hmd Hbody).
    f_equal. f_equal. unfold metadata_header.
    destruct md as [|kv md]; [contradiction|].
    cbn [PyDict.is_empty]. cbn [List.app]. f_equal.
    now rewrite <- app_assoc.
  - destruct Hst as [_ Hentries].
    constructor; [reflexivity|]. apply Forall_app. split.
    + apply Forall_map. eapply Forall_impl; [|exact Hentries].
      intros kv. apply FrontMatterFacts.entry_no_newline.
    + constructor; [reflexivity|].
      eapply Forall_impl; [|exact Hlines]. now intros l (_ & H).
Qed.

Lemma format_code_repeats_metadata_witness :
  format_code 1 (join_lines ["---"; "title: Notes"; "---"; "Some text."])
              init
  = (join_lines ["---"; "title: Notes"; ("---" ++ PyObj.nl)%string;
                 "title: Notes"; "Some text."],
     [("title", "Notes")]).
Proof.
  apply (@format_code_repeats_metadata 0 [("title", "Notes")]
           ["Some text."]).
  - discriminate.
  - split; [repeat constructor; cbn; tauto | repeat constructor].
  - repeat constructor.
  - constructor; [|constructor].
    repeat split. discriminate.
Defined.
